(** * logrus-rollingfile-hook: a shallow embedding and its verified properties

    The development embeds the two hooks of the repository,
    [FsrollHook] (fsrollhook.go) and [TimeBasedRollingFileHook]
    (rollingfile_hook.go), together with the archiver of file_archive.go.

    Part I holds the definitions: the pieces of the Go standard library the
    hooks call (strings, path, path/filepath, time, os, io, compress/gzip,
    log), then the program itself, function by function.  Part II holds the
    proofs of the main properties, Part III those of further properties of
    the code. *)

From Stdlib Require Import ZArith Lia List Bool String Ascii.
From stdpp Require Import gmap strings list pretty.
Import ListNotations.

(* ===================================================================== *)
(** * Part I.  Definitions                                                *)
(* ===================================================================== *)

(** ** Package strings and path/filepath (Unix) *)

Module GoStrings.

(** [strings.ToLower], on the ASCII letters.  Bytes outside A-Z are kept; no
    letter outside ASCII lowers to one of the bytes of ".gz". *)
Definition lowerAscii (c : ascii) : ascii :=
  let n := nat_of_ascii c in
  if (65 <=? n)%nat && (n <=? 90)%nat then ascii_of_nat (n + 32) else c.

Fixpoint ToLower (s : string) : string :=
  match s with
  | EmptyString => EmptyString
  | String c s' => String (lowerAscii c) (ToLower s')
  end.

(** [strings.HasSuffix(s, suffix)]:
    len(s) >= len(suffix) && s[len(s)-len(suffix):] == suffix *)
Definition HasSuffix (s suffix : string) : bool :=
  (String.length suffix <=? String.length s)%nat &&
  String.eqb (substring (String.length s - String.length suffix)
                        (String.length suffix) s) suffix.

(** [strings.TrimSuffix(s, suffix)] *)
Definition TrimSuffix (s suffix : string) : string :=
  if HasSuffix s suffix
  then substring 0 (String.length s - String.length suffix) s
  else s.

(** [strings.Split(s, "/")] restricted to the separator the program needs. *)
Fixpoint splitSlash (s : string) : list string :=
  match s with
  | EmptyString => [EmptyString]
  | String c s' =>
      if Ascii.eqb c "/" then EmptyString :: splitSlash s'
      else match splitSlash s' with
           | x :: xs => String c x :: xs
           | [] => [String c EmptyString]
           end
  end.

Fixpoint joinSlash (l : list string) : string :=
  match l with
  | [] => EmptyString
  | [x] => x
  | x :: xs => x +:+ "/" +:+ joinSlash xs
  end.

(** [strings.IndexByte(s, c)]: the index of the first byte [c] of [s]. *)
Fixpoint IndexByte (s : string) (c : ascii) : option nat :=
  match s with
  | EmptyString => None
  | String x s' => if Ascii.eqb x c then Some O else S <$> IndexByte s' c
  end.

(** [strings.Contains(s, substr)] and [strings.Count(s, substr)] for a
    substr of one byte [c], the only case the program has: the library then
    searches and counts the byte. *)
Definition Contains (s : string) (c : ascii) : bool :=
  match IndexByte s c with Some _ => true | None => false end.

Fixpoint Count (s : string) (c : ascii) : nat :=
  match s with
  | EmptyString => O
  | String x s' => if Ascii.eqb x c then S (Count s' c) else Count s' c
  end.

End GoStrings.

Module Filepath.
Import GoStrings.

(** [filepath.Ext]: the loop walks back from the last byte and stops at the
    first separator; the first dot met starts the extension.
    [Ext_loop path i] has still to inspect the bytes [path[0..i-1]]. *)
Fixpoint Ext_loop (path : string) (i : nat) : string :=
  match i with
  | O => EmptyString
  | S j =>
      match String.get j path with
      | Some c =>
          if Ascii.eqb c "/" then EmptyString
          else if Ascii.eqb c "." then substring j (String.length path - j) path
          else Ext_loop path j
      | None => EmptyString
      end
  end.

Definition Ext (path : string) : string := Ext_loop path (String.length path).

(** [filepath.Clean], by its documented rules: runs of separators collapse,
    "." elements go, an inner ".." removes the element before it, ".." at the
    root goes, and the empty result is ".". *)
Fixpoint cleanElems (rooted : bool) (stack : list string) (elems : list string)
  : list string :=
  match elems with
  | [] => rev stack
  | e :: rest =>
      if String.eqb e "" || String.eqb e "." then cleanElems rooted stack rest
      else if String.eqb e ".." then
        match stack with
        | top :: below =>
            if String.eqb top ".." then cleanElems rooted (e :: stack) rest
            else cleanElems rooted below rest
        | [] =>
            if rooted then cleanElems rooted stack rest
            else cleanElems rooted (e :: stack) rest
        end
      else cleanElems rooted (e :: stack) rest
  end.

Definition Clean (path : string) : string :=
  let rooted := match path with String c _ => Ascii.eqb c "/" | _ => false end in
  let body := joinSlash (cleanElems rooted [] (splitSlash path)) in
  if rooted then "/" +:+ body
  else if String.eqb body "" then "." else body.

(** Index just past the last separator of [path] (0 when there is none):
    the loop [for i >= 0 && !IsPathSeparator(path[i]) { i-- }] of Dir. *)
Fixpoint lastSlash (path : string) (i : nat) : nat :=
  match i with
  | O => O
  | S j =>
      match String.get j path with
      | Some c => if Ascii.eqb c "/" then i else lastSlash path j
      | None => lastSlash path j
      end
  end.

(** [filepath.Dir]: all but the last element, cleaned. *)
Definition Dir (path : string) : string :=
  Clean (substring 0 (lastSlash path (String.length path)) path).

End Filepath.

(** ** Package path

    The slash-separated paths that GetFrontFileName takes apart. *)

Module Path.
Import GoStrings.

(** [path.Ext]: the loop of filepath.Ext with the one separator "/". *)
Definition Ext (path : string) : string :=
  Filepath.Ext_loop path (String.length path).

(** The length [path] has once its trailing slashes are cut:
    [for len(path) > 0 && path[len(path)-1] == '/' { path = path[0 : len(path)-1] }]. *)
Fixpoint stripSlashes (path : string) (n : nat) : nat :=
  match n with
  | O => O
  | S j =>
      match String.get j path with
      | Some c => if Ascii.eqb c "/" then stripSlashes path j else n
      | None => n
      end
  end.

(** [path.Base]: the last element of [path]; "." for the empty path and "/"
    for a path of slashes only. *)
Definition Base (path : string) : string :=
  if String.eqb path "" then "."
  else
    let path := substring 0 (stripSlashes path (String.length path)) path in
    let i := Filepath.lastSlash path (String.length path) in
    let path := substring i (String.length path - i) path in
    if String.eqb path "" then "/" else path.

(** [path.Split]: [path] cut just behind its last slash. *)
Definition Split (path : string) : string * string :=
  let i := Filepath.lastSlash path (String.length path) in
  (substring 0 i path, substring i (String.length path - i) path).

End Path.

(** ** Package time

    The functions of package time that the hooks call, on the proleptic
    Gregorian calendar of the library.  A location is a zone with its table
    of offset changes, as time.Local has one; a wall-clock time may then
    name two instants or none, and Date picks one by the steps of the
    library.  The rule by which a zone file extends its table into the far
    future is left out: a table holds as many changes as are needed.
    Instants and the fields of a date are unbounded integers; a Duration is
    kept in the range of an int64 by [Sub]. *)

Module GoTime.
Local Open Scope Z_scope.

(** A [time.Duration] is a count of nanoseconds held in an int64. *)
Definition Duration := Z.
Definition Nanosecond : Duration := 1.
Definition Second : Duration := 1000000000.
Definition Minute : Duration := 60 * Second.
Definition Hour : Duration := 60 * Minute.
Definition maxDuration : Duration := 2 ^ 63 - 1.
Definition minDuration : Duration := - 2 ^ 63.

(** A [*time.Location]: the offset, in seconds east of UTC, in force before
    the first change, and the changes of the zone in ascending order, each
    the instant (Unix seconds) of the change and the offset from then on. *)
Record Location := mkLocation { zoneOffset : Z; transitions : list (Z * Z) }.

Definition UTC : Location := mkLocation 0 [].

(** The least and the greatest instant of the library ([alpha], [omega]). *)
Definition alpha : Z := - 2 ^ 63.
Definition omega : Z := 2 ^ 63 - 1.

(** [l.lookup(sec)]: the offset in force at the instant [sec] (Unix seconds),
    and the interval [start, end) of instants in which it is in force.  The
    library finds the last change at or before [sec] by binary search;
    [lookup_from offset start tx] walks the table with the offset and the
    start of the interval reached so far. *)
Fixpoint lookup_from (offset start : Z) (tx : list (Z * Z)) (sec : Z) : Z * Z * Z :=
  match tx with
  | [] => (offset, start, omega)
  | (when, offset') :: rest =>
      if sec <? when then (offset, start, when)
      else lookup_from offset' when rest sec
  end.

Definition lookup (l : Location) (sec : Z) : Z * Z * Z :=
  lookup_from (zoneOffset l) alpha (transitions l) sec.

(** A [time.Time]: an instant, as nanoseconds since the Unix epoch, and the
    location it is presented in. *)
Record Time := mkTime { unixNano : Z; location : Location }.

Definition secondsPerDay : Z := 86400.

(** [isLeap] *)
Definition isLeap (year : Z) : bool :=
  (year mod 4 =? 0) && (negb (year mod 100 =? 0) || (year mod 400 =? 0)).

(** [daysBefore[m]]: days of a non-leap year before month m+1. *)
Definition daysBefore (m : Z) : Z :=
  nth (Z.to_nat m) [0; 31; 59; 90; 120; 151; 181; 212; 243; 273; 304; 334; 365] 0.

(** Days from the Unix epoch to January 1 of [year]. *)
Definition daysSinceEpoch (year : Z) : Z :=
  let y := year - 1 in
  365 * y + y / 4 - y / 100 + y / 400 - 719162.

(** [norm(hi, lo, base)]: carry [lo] into [hi] so that 0 <= lo < base. *)
Definition norm (hi lo base : Z) : Z * Z := (hi + lo / base, lo mod base).

(** Days from the Unix epoch to the given day; [month] in 1..12, [day] free
    (days beyond the month run on into the next ones). *)
Definition dateToDays (year month day : Z) : Z :=
  daysSinceEpoch year + daysBefore (month - 1)
  + (if isLeap year && (3 <=? month) then 1 else 0)
  + (day - 1).

(** [time.Date(year, month, day, hour, min, sec, nsec, loc)].  The fields
    are normalized and counted into [unix], seconds on the wall clock read
    as if it were UTC.  The offset to take off is looked up at [unix] itself;
    when it is not zero and the instant it leads to lies outside the interval
    of that offset, the offset in force at that instant is taken instead. *)
Definition Date (year month day hour min sec nsec : Z) (loc : Location) : Time :=
  let '(year, m) := norm year (month - 1) 12 in
  let month := m + 1 in
  let '(sec, nsec) := norm sec nsec 1000000000 in
  let '(min, sec) := norm min sec 60 in
  let '(hour, min) := norm hour min 60 in
  let '(day, hour) := norm day hour 24 in
  let d := dateToDays year month day in
  let unix := d * secondsPerDay + hour * 3600 + min * 60 + sec in
  let '(offset, start, end_) := lookup loc unix in
  let unix :=
    if offset =? 0 then unix
    else
      let utc := unix - offset in
      let offset :=
        if (utc <? start) || (end_ <=? utc)
        then fst (fst (lookup loc utc))
        else offset in
      unix - offset in
  mkTime (unix * 1000000000 + nsec) loc.

(** [t.unixSec()] *)
Definition unixSec (t : Time) : Z := unixNano t / 1000000000.

(** Wall-clock nanoseconds since the epoch in the time's own location: the
    instant and the offset in force at it ([t.abs()]). *)
Definition abs (t : Time) : Z :=
  unixNano t + fst (fst (lookup (location t) (unixSec t))) * 1000000000.

Definition absDays (t : Time) : Z := abs t / (secondsPerDay * 1000000000).
Definition absSeconds (t : Time) : Z := abs t / 1000000000.

(** The year of a day number and the day within that year (from 0): the
    400, 100, 4 and 1 year cycles of [absDate]. *)
Definition absYear (days : Z) : Z * Z :=
  let d := days + 719162 in
  let n400 := d / 146097 in
  let d1 := d - 146097 * n400 in
  let n100 := d1 / 36524 in
  let n100 := n100 - n100 / 4 in
  let d2 := d1 - 36524 * n100 in
  let n4 := d2 / 1461 in
  let d3 := d2 - 1461 * n4 in
  let n := d3 / 365 in
  let n := n - n / 4 in
  (400 * n400 + 100 * n100 + 4 * n4 + n + 1, d3 - 365 * n).

(** [absDate]: year, month and day of the month of a day number. *)
Definition absDate (days : Z) : Z * Z * Z :=
  let '(year, yday) := absYear days in
  if isLeap year && (yday =? 31 + 29 - 1) then (year, 2, 29)
  else
    let day := if isLeap year && (31 + 29 - 1 <? yday) then yday - 1 else yday in
    let month := day / 31 in
    let end_ := daysBefore (month + 1) in
    if end_ <=? day then (year, month + 2, day - end_ + 1)
    else (year, month + 1, day - daysBefore month + 1).

Definition Year (t : Time) : Z := fst (fst (absDate (absDays t))).
Definition Month (t : Time) : Z := snd (fst (absDate (absDays t))).
Definition Day (t : Time) : Z := snd (absDate (absDays t)).
Definition Hour_ (t : Time) : Z := (absSeconds t mod secondsPerDay) / 3600.
Definition Minute_ (t : Time) : Z := (absSeconds t mod 3600) / 60.
Definition Second_ (t : Time) : Z := absSeconds t mod 60.
Definition Nanosecond_ (t : Time) : Z := abs t mod 1000000000.
Definition Location_ (t : Time) : Location := location t.

(** [t.Add(d)] *)
Definition Add (t : Time) (d : Duration) : Time :=
  mkTime (unixNano t + d) (location t).

(** [t.AddDate(years, months, days)] *)
Definition AddDate (t : Time) (years months days : Z) : Time :=
  Date (Year t + years) (Month t + months) (Day t + days)
       (Hour_ t) (Minute_ t) (Second_ t) (Nanosecond_ t) (Location_ t).

(** [t.Sub(u)]: the difference, saturated to the range of an int64. *)
Definition Sub (t u : Time) : Duration :=
  let d := unixNano t - unixNano u in
  if maxDuration <? d then maxDuration
  else if d <? minDuration then minDuration
  else d.

(** [t.In(loc)]: the same instant, presented in [loc]. *)
Definition In (t : Time) (loc : Location) : Time := mkTime (unixNano t) loc.

(** Days of month [month] of [year]. *)
Definition daysIn (year month : Z) : Z :=
  if (month =? 2) && isLeap year then 29
  else daysBefore month - daysBefore (month - 1).

(** Days of [year]. *)
Definition yearLen (year : Z) : Z := if isLeap year then 366 else 365.

(** The month after [month] of [year], as year and month. *)
Definition nextMonth (year month : Z) : Z * Z :=
  if month =? 12 then (year + 1, 1) else (year, month + 1).

(** [year], [month], [day] name a day of the calendar. *)
Definition validDate (year month day : Z) : Prop :=
  1 <= month <= 12 /\ 1 <= day <= daysIn year month.

(** Wall-clock nanoseconds of a date and a time of day. *)
Abbreviation encode y m d h mi sec ns :=
  ((dateToDays y m d * 86400 + h * 3600 + mi * 60 + sec) * 1000000000 + ns)%Z.

Abbreviation validClock h mi sec ns :=
  (0 <= h < 24 /\ 0 <= mi < 60 /\ 0 <= sec < 60 /\ 0 <= ns < 1000000000)%Z.

End GoTime.

(** ** What the program takes from outside the repository

    The layout renderer of package time and the gzip encoder are not part of
    the repository; the hooks are embedded over any implementation of them.
    [gzipBody data] is what a gzip writer has emitted once [data] was written
    and flushed (header and deflate blocks), [gzipTrailer data] what Close
    adds (final block, checksum and size). *)

Class External := {
  Format : GoTime.Time -> string -> string;
  gzipBody : list Byte.byte -> list Byte.byte;
  gzipTrailer : list Byte.byte -> list Byte.byte
}.

(** ** Packages os, io, compress/gzip and log, over an explicit world *)

Module GoOS.
Import GoStrings Filepath.

Abbreviation bytes := (list Byte.byte).

Inductive Errno :=
  ENOENT | EEXIST | ENOTDIR | EISDIR | EACCES | ENOSPC | EIO | EBADF.

(** A non-nil Go [error]; nil is [None] of [option error]. *)
Inductive error :=
| PathError (op path : string) (errno : Errno)
| ErrClosed
| ErrorString (msg : string).

Definition errnoString (e : Errno) : string :=
  match e with
  | ENOENT => "no such file or directory"
  | EEXIST => "file exists"
  | ENOTDIR => "not a directory"
  | EISDIR => "is a directory"
  | EACCES => "permission denied"
  | ENOSPC => "no space left on device"
  | EIO => "input/output error"
  | EBADF => "bad file descriptor"
  end.

(** [err.Error()] *)
Definition Error (e : error) : string :=
  match e with
  | PathError op path errno => op +:+ " " +:+ path +:+ ": " +:+ errnoString errno
  | ErrClosed => "file already closed"
  | ErrorString msg => msg
  end.

(** [os.IsNotExist] *)
Definition IsNotExist (e : error) : bool :=
  match e with PathError _ _ ENOENT => true | _ => false end.

(** The open flags of package os (Linux values). *)
Definition O_RDONLY : Z := 0.
Definition O_WRONLY : Z := 1.
Definition O_RDWR : Z := 2.
Definition O_CREATE : Z := 64.
Definition O_EXCL : Z := 128.
Definition O_TRUNC : Z := 512.
Definition O_APPEND : Z := 1024.
Definition ModeDir : Z := 2147483648.

Definition hasFlag (flag bit : Z) : bool := negb (Z.land flag bit =? 0)%Z.
Definition writable (flag : Z) : bool := negb (Z.land flag 3 =? O_RDONLY)%Z.

(** An open file description: the inode it refers to, the flags it was
    opened with, its offset, and whether it is still open. *)
Record OpenFile := mkOpenFile {
  of_ino : nat; of_flag : Z; of_pos : nat; of_open : bool
}.

(** An [*os.File]: the name it was opened under and its descriptor. *)
Record File := mkFile { Name : string; fd : nat }.

(** The world the program runs in.
    - [names]: the regular files, path to inode number;
    - [dirs]: the directories;
    - [inodes]: the content of every inode, by number (an inode outlives its
      name while a descriptor refers to it);
    - [fds]: the open file descriptions, by descriptor number;
    - [logged]: what went to the standard logger, one item per call;
    - [clock], [ticks]: the instants (Unix nanoseconds) that successive calls
      of time.Now read, and how many were read so far;
    - [local]: time.Local;
    - [faults]: for each system call to come, the errno it fails with, if
      any; past the end of the list no call fails for outside reasons. *)
Record World := mkWorld {
  names : gmap string nat;
  dirs : gset string;
  inodes : list bytes;
  fds : list OpenFile;
  logged : list string;
  clock : nat -> Z;
  ticks : nat;
  local : GoTime.Location;
  faults : list (option Errno)
}.

Definition set_names (f : gmap string nat -> gmap string nat) (w : World) : World :=
  mkWorld (f (names w)) (dirs w) (inodes w) (fds w) (logged w) (clock w) (ticks w) (local w) (faults w).
Definition set_dirs (f : gset string -> gset string) (w : World) : World :=
  mkWorld (names w) (f (dirs w)) (inodes w) (fds w) (logged w) (clock w) (ticks w) (local w) (faults w).
Definition set_inodes (f : list bytes -> list bytes) (w : World) : World :=
  mkWorld (names w) (dirs w) (f (inodes w)) (fds w) (logged w) (clock w) (ticks w) (local w) (faults w).
Definition set_fds (f : list OpenFile -> list OpenFile) (w : World) : World :=
  mkWorld (names w) (dirs w) (inodes w) (f (fds w)) (logged w) (clock w) (ticks w) (local w) (faults w).
Definition set_logged (f : list string -> list string) (w : World) : World :=
  mkWorld (names w) (dirs w) (inodes w) (fds w) (f (logged w)) (clock w) (ticks w) (local w) (faults w).
Definition set_ticks (f : nat -> nat) (w : World) : World :=
  mkWorld (names w) (dirs w) (inodes w) (fds w) (logged w) (clock w) (f (ticks w)) (local w) (faults w).
Definition set_faults (f : list (option Errno) -> list (option Errno)) (w : World) : World :=
  mkWorld (names w) (dirs w) (inodes w) (fds w) (logged w) (clock w) (ticks w) (local w) (f (faults w)).

(** Every system call first takes its entry of the fault schedule. *)
Definition syscall (w : World) : option Errno * World :=
  match faults w with
  | [] => (None, w)
  | f :: _ => (f, set_faults (drop 1) w)
  end.

(** The content of the file at [path], if it is a regular file. *)
Definition content (w : World) (path : string) : option bytes :=
  match names w !! path with
  | Some ino => inodes w !! ino
  | None => None
  end.

(** [time.Now().Local()] *)
Definition time_Now_Local (w : World) : GoTime.Time * World :=
  (GoTime.In (GoTime.mkTime (clock w (ticks w)) GoTime.UTC) (local w),
   set_ticks S w).

(** [log.Printf], already rendered; the logger's date prefix is left out. *)
Definition log_Printf (msg : string) (w : World) : World :=
  set_logged (fun l => l ++ [msg]) w.

Definition nl : string := String "010"%char EmptyString.

(** [path] and the directories above it, nearest first. *)
Fixpoint ancestors (fuel : nat) (path : string) : list string :=
  match fuel with
  | O => [path]
  | S n =>
      let parent := Dir path in
      if String.eqb parent path then [path] else path :: ancestors n parent
  end.

(** [os.MkdirAll(path, perm)]: fails when [path] or a directory above it is a
    regular file, else makes every missing directory on the way. *)
Definition os_MkdirAll (path : string) (perm : Z) (w : World)
  : option error * World :=
  let '(fault, w) := syscall w in
  match fault with
  | Some e => (Some (PathError "mkdir" path e), w)
  | None =>
      let up := ancestors (String.length path) path in
      if existsb (fun p => bool_decide (is_Some (names w !! p))) up
      then (Some (PathError "mkdir" path ENOTDIR), w)
      else (None, set_dirs (fun d => list_to_set up ∪ d) w)
  end.

(** [os.OpenFile(name, flag, perm)] *)
Definition os_OpenFile (name : string) (flag : Z) (perm : Z) (w : World)
  : (File + error) * World :=
  let '(fault, w) := syscall w in
  match fault with
  | Some e => (inr (PathError "open" name e), w)
  | None =>
      if bool_decide (name ∈ dirs w) && writable flag
      then (inr (PathError "open" name EISDIR), w)
      else
        match names w !! name with
        | Some ino =>
            if hasFlag flag O_CREATE && hasFlag flag O_EXCL
            then (inr (PathError "open" name EEXIST), w)
            else
              let w := if hasFlag flag O_TRUNC && writable flag
                       then set_inodes (fun l => <[ino := []]> l) w else w in
              (inl (mkFile name (length (fds w))),
               set_fds (fun l => l ++ [mkOpenFile ino flag 0 true]) w)
        | None =>
            if hasFlag flag O_CREATE && bool_decide (Dir name ∈ dirs w)
            then
              let ino := length (inodes w) in
              let w := set_inodes (fun l => l ++ [[]]) w in
              let w := set_names (fun m => <[name := ino]> m) w in
              (inl (mkFile name (length (fds w))),
               set_fds (fun l => l ++ [mkOpenFile ino flag 0 true]) w)
            else (inr (PathError "open" name ENOENT), w)
        end
  end.

(** [os.Open(name)] *)
Definition os_Open (name : string) (w : World) : (File + error) * World :=
  os_OpenFile name O_RDONLY 0 w.

(** Bytes [b] put into [old] at offset [pos]; a gap is filled with zeros. *)
Definition writeAt (old : bytes) (pos : nat) (b : bytes) : bytes :=
  take pos (old ++ replicate (pos - length old) Byte.x00) ++ b
  ++ drop (pos + length b) old.

(** [f.Write(b)]: with O_APPEND every write goes to the end of the file. *)
Definition File_Write (f : File) (b : bytes) (w : World)
  : (nat * option error) * World :=
  let '(fault, w) := syscall w in
  match fault with
  | Some e => ((O, Some (PathError "write" (Name f) e)), w)
  | None =>
      match fds w !! fd f with
      | None => ((O, Some ErrClosed), w)
      | Some o =>
          if negb (of_open o) then ((O, Some ErrClosed), w)
          else if negb (writable (of_flag o))
          then ((O, Some (PathError "write" (Name f) EBADF)), w)
          else
            let old := default [] (inodes w !! of_ino o) in
            let pos := if hasFlag (of_flag o) O_APPEND then length old else of_pos o in
            let w := set_inodes (fun l => <[of_ino o := writeAt old pos b]> l) w in
            let w := set_fds (fun l =>
                       <[fd f := mkOpenFile (of_ino o) (of_flag o) (pos + length b) true]> l) w in
            ((length b, None), w)
      end
  end.

(** [f.Close()]: the descriptor is released even when an error is reported. *)
Definition File_Close (f : File) (w : World) : option error * World :=
  let '(fault, w) := syscall w in
  match fds w !! fd f with
  | None => (Some ErrClosed, w)
  | Some o =>
      if negb (of_open o) then (Some ErrClosed, w)
      else
        let w := set_fds (fun l =>
                   <[fd f := mkOpenFile (of_ino o) (of_flag o) (of_pos o) false]> l) w in
        match fault with
        | Some e => (Some (PathError "close" (Name f) e), w)
        | None => (None, w)
        end
  end.

(** [os.Stat(name)], reduced to the one thing the program looks at: whether
    an error comes back. *)
Definition os_Stat (name : string) (w : World) : option error * World :=
  let '(fault, w) := syscall w in
  match fault with
  | Some e => (Some (PathError "stat" name e), w)
  | None =>
      if bool_decide (is_Some (names w !! name)) || bool_decide (name ∈ dirs w)
      then (None, w)
      else (Some (PathError "stat" name ENOENT), w)
  end.

(** [os.Remove(name)]: the name goes; the inode stays for open descriptors. *)
Definition os_Remove (name : string) (w : World) : option error * World :=
  let '(fault, w) := syscall w in
  match fault with
  | Some e => (Some (PathError "remove" name e), w)
  | None =>
      if bool_decide (is_Some (names w !! name))
      then (None, set_names (fun m => delete name m) w)
      else if bool_decide (name ∈ dirs w)
      then (None, set_dirs (fun d => d ∖ {[name]}) w)
      else (Some (PathError "remove" name ENOENT), w)
  end.

(** A [*gzip.Writer]: the file it writes to and the data it was given. *)
Record GzipWriter := mkGzipWriter { gz_dst : File; gz_data : bytes }.

(** [gzip.NewWriter(w)] *)
Definition gzip_NewWriter (dst : File) : GzipWriter := mkGzipWriter dst [].

(** [io.Copy(dst, src)] into a gzip writer: reads [src] from its offset to the
    end and hands the data to the writer.  A failure of the read or of a write
    of the compressor comes from the fault schedule. *)
Definition io_Copy (dst : GzipWriter) (src : File) (w : World)
  : (GzipWriter * option error) * World :=
  let '(fault, w) := syscall w in
  match fault with
  | Some e => ((dst, Some (PathError "read" (Name src) e)), w)
  | None =>
      match fds w !! fd src with
      | None => ((dst, Some ErrClosed), w)
      | Some o =>
          if negb (of_open o) then ((dst, Some ErrClosed), w)
          else
            let data := drop (of_pos o) (default [] (inodes w !! of_ino o)) in
            let w := set_fds (fun l =>
                       <[fd src := mkOpenFile (of_ino o) (of_flag o)
                                     (of_pos o + length data) true]> l) w in
            ((mkGzipWriter (gz_dst dst) (gz_data dst ++ data), None), w)
      end
  end.

(** [writer.Flush()] and [writer.Close()] *)
Definition Writer_Flush `{External} (z : GzipWriter) (w : World)
  : option error * World :=
  let '(_, err, w) := File_Write (gz_dst z) (gzipBody (gz_data z)) w in (err, w).

Definition Writer_Close `{External} (z : GzipWriter) (w : World)
  : option error * World :=
  let '(_, err, w) := File_Write (gz_dst z) (gzipTrailer (gz_data z)) w in (err, w).

(** The clock and what was read of it are the same in [w] and [w']. *)
Definition sameClock (w w' : World) : Prop :=
  clock w' = clock w /\ ticks w' = ticks w /\ local w' = local w.

(** No regular file of [w] has lost its name or changed its inode in [w']. *)
Definition namesKept (w w' : World) : Prop := names w ⊆ names w'.

End GoOS.

(** ** The program: file_archive.go

    fsrollhook.go names [GzipSuffix] and [Archivers] too; both hooks are given
    the ones declared here. *)

Section Program.
Context `{External}.
Import GoStrings Filepath GoTime GoOS.

Definition GzipSuffix : string := ".gz".

Definition ArchiveFunc := string -> World -> option error * World.

Definition appendCreateWronly : Z := Z.lor (Z.lor O_APPEND O_CREATE) O_WRONLY.

(** [gzipArchive]; the two deferred Close calls are written out on every
    path that leaves the function after their defer statement, last first. *)
Definition gzipArchive (fileName : string) (w : World) : option error * World :=
  let gzFileName := fileName +:+ GzipSuffix in
  let '(r, w) := os_OpenFile gzFileName appendCreateWronly 436 w in
  match r with
  | inr err => (Some err, w)
  | inl gzFile =>
      let writer := gzip_NewWriter gzFile in
      let '(r, w) := os_Open fileName w in
      match r with
      | inr err =>
          let '(_, w) := File_Close gzFile w in
          (Some err, w)
      | inl oldFile =>
          let '(writer, err, w) := io_Copy writer oldFile w in
          match err with
          | Some err =>
              let '(_, w) := File_Close oldFile w in
              let '(_, w) := File_Close gzFile w in
              (Some err, w)
          | None =>
              let '(_, w) := Writer_Flush writer w in
              let '(_, w) := Writer_Close writer w in
              let '(_, w) := File_Close oldFile w in
              let '(_, w) := File_Close gzFile w in
              (None, w)
          end
      end
  end.

(** [gzipArchiveAndDelete] *)
Definition gzipArchiveAndDelete (fileName : string) (w : World)
  : option error * World :=
  let '(err, w) := gzipArchive fileName w in
  match err with
  | Some err => (Some err, w)
  | None =>
      let '(err, w) := os_Remove fileName w in
      match err with
      | Some err => (Some err, w)
      | None => (None, w)
      end
  end.

(** [Archivers] *)
Definition Archivers : gmap string ArchiveFunc :=
  {[ GzipSuffix := gzipArchiveAndDelete ]}.

(** ** The program: what fsrollhook.go and rollingfile_hook.go share

    The two files declare the same hook under two names.  [FsrollHook] has
    the fields levels, formatter, FileNamePattern, ConstantPath, file, timer,
    queue and mu; [TimeBasedRollingFileHook] has id, levels, formatter,
    fileNamePattern, file, timer, queue and mu.  One record carries both; the
    mutex has no field, since every function that takes it runs here as one
    step.  The functions [rolloverAfter], [rolloverFile], [resetTimer] and
    [archiveOldFile] read the same in both files up to the spelling of
    the pattern field. *)

Inductive Level :=
  PanicLevel | FatalLevel | ErrorLevel | WarnLevel | InfoLevel | DebugLevel.

(** A [*logrus.Entry], by the fields a formatter reads. *)
Record Entry := mkEntry { entryLevel : Level; Message : string }.

(** A [logrus.Formatter]: its method Format, from an entry to bytes or an error. *)
Definition Formatter := Entry -> bytes + error.

(** A [*time.Timer] started by AfterFunc: waiting for [d] to pass, or stopped. *)
Inductive Timer := Armed (d : Duration) | Stopped.

Record Hook := mkHook {
  id : string;
  levels : list Level;
  formatter : Formatter;
  fileNamePattern : string;
  ConstantPath : string;
  file : option File;
  timer : option Timer;
  queue : list Entry
}.

Definition set_file (f : option File) (hook : Hook) : Hook :=
  mkHook (id hook) (levels hook) (formatter hook) (fileNamePattern hook)
         (ConstantPath hook) f (timer hook) (queue hook).
Definition set_timer (t : option Timer) (hook : Hook) : Hook :=
  mkHook (id hook) (levels hook) (formatter hook) (fileNamePattern hook)
         (ConstantPath hook) (file hook) t (queue hook).
Definition set_queue (q : list Entry) (hook : Hook) : Hook :=
  mkHook (id hook) (levels hook) (formatter hook) (fileNamePattern hook)
         (ConstantPath hook) (file hook) (timer hook) q.

(** The capacity of [hook.queue]: make(chan *logrus.Entry, 1000). *)
Definition queueCap : nat := 1000.

(** [rolloverAfter] *)
Definition rolloverAfter (hook : Hook) (w : World) : Duration * World :=
  let '(t, w) := time_Now_Local w in
  let oldFileName := Format t (fileNamePattern hook) in
  let t1 := Add t Minute in
  let newFileName := Format t1 (fileNamePattern hook) in
  if negb (String.eqb oldFileName newFileName) then
    let t2 := Date (Year t1) (Month t1) (Day t1) (Hour_ t1) (Minute_ t1) 0 0
                   (Location_ t1) in
    (Sub t2 t, w)
  else
  let t1 := Add t Hour in
  let newFileName := Format t1 (fileNamePattern hook) in
  if negb (String.eqb oldFileName newFileName) then
    let t2 := Date (Year t1) (Month t1) (Day t1) (Hour_ t1) 0 0 0 (Location_ t1) in
    (Sub t2 t, w)
  else
  let t1 := AddDate t 0 0 1 in
  let newFileName := Format t1 (fileNamePattern hook) in
  if negb (String.eqb oldFileName newFileName) then
    let t2 := Date (Year t1) (Month t1) (Day t1) 0 0 0 0 (Location_ t1) in
    (Sub t2 t, w)
  else
  let t1 := AddDate t 0 1 0 in
  let newFileName := Format t1 (fileNamePattern hook) in
  if negb (String.eqb oldFileName newFileName) then
    let t2 := Date (Year t1) (Month t1) 1 0 0 0 0 (Location_ t1) in
    (Sub t2 t, w)
  else
  let t1 := AddDate t 1 0 0 in
  let newFileName := Format t1 (fileNamePattern hook) in
  if negb (String.eqb oldFileName newFileName) then
    let t2 := Date (Year t1) 1 1 0 0 0 0 (Location_ t1) in
    (Sub t2 t, w)
  else
  (0%Z, w).

(** [rolloverFile]: returns the old file name and the error. *)
Definition rolloverFile (hook : Hook) (w : World)
  : (string * option error) * Hook * World :=
  let oldFile := file hook in
  let hook := set_file None hook in
  let '(oldFileName, w) :=
    match oldFile with
    | Some oldFile =>
        let oldFileName := Name oldFile in
        let '(err, w) := File_Close oldFile w in
        match err with
        | Some err =>
            (oldFileName,
             log_Printf ("Error on closing old file [" +:+ oldFileName +:+ "]: "
                         +:+ Error err +:+ nl) w)
        | None => (oldFileName, w)
        end
    | None => (EmptyString, w)
    end in
  let '(now, w) := time_Now_Local w in
  let newFileName := Format now (fileNamePattern hook) in
  let newFileName :=
    if String.eqb (ToLower (Ext newFileName)) GzipSuffix
    then TrimSuffix newFileName GzipSuffix
    else newFileName in
  let dir := Dir newFileName in
  let '(err, w) := os_MkdirAll dir (Z.lor ModeDir 493) w in
  match err with
  | Some err => ((oldFileName, Some err), hook, w)
  | None =>
      let '(r, w) := os_OpenFile newFileName appendCreateWronly 436 w in
      match r with
      | inr err => ((oldFileName, Some err), hook, w)
      | inl newFile => ((oldFileName, None), set_file (Some newFile) hook, w)
      end
  end.

(** [archiveOldFile] *)
Definition archiveOldFile (hook : Hook) (fileName : string) (w : World) : World :=
  match Archivers !! ToLower (Ext (fileNamePattern hook)) with
  | Some archive =>
      let '(err, w) := archive fileName w in
      match err with
      | Some err =>
          log_Printf ("Error on archiving file [" +:+ fileName +:+ "]: "
                      +:+ Error err +:+ nl) w
      | None => w
      end
  | None => w
  end.

(** [resetTimer].  The result is the hook, the world and the file names handed
    to a new archiveOldFile goroutine; [None] is the panic of calling a method
    of a nil timer. *)
Definition resetTimer (hook : Hook) (w : World)
  : option (Hook * World * list string) :=
  let '(oldFileName, err, hook, w) := rolloverFile hook w in
  let w := match err with
           | Some err => log_Printf ("Error on creating new file: " +:+ Error err +:+ nl) w
           | None => w
           end in
  let '(d, w) := rolloverAfter hook w in
  match timer hook with
  | None => None
  | Some _ =>
      let hook := if (0 <? d)%Z then set_timer (Some (Armed d)) hook
                  else set_timer (Some Stopped) hook in
      Some (hook, w, if String.eqb oldFileName "" then [] else [oldFileName])
  end.

(** [Levels] *)
Definition Levels (hook : Hook) : list Level := levels hook.

(** [Fire]: the send on the channel; [None] when the channel is full and the
    caller blocks. *)
Definition Fire (hook : Hook) (entry : Entry) : option (option error * Hook) :=
  if (length (queue hook) <? queueCap)%nat
  then Some (None, set_queue (queue hook ++ [entry]) hook)
  else None.

(** The constructors of both files: NewHook(levels, formatter, pattern) and
    NewTimeBasedRollingFileHook(id, levels, formatter, pattern) have the same
    body but for the id.  The goroutine started by [go hook.writeEntry()] is
    the serializer of the system below. *)
Definition newHook (id : string) (levels : list Level) (formatter : Formatter)
    (fileNamePattern : string) (w : World) : (Hook * option error) * World :=
  let hook := mkHook id levels formatter fileNamePattern EmptyString None None [] in
  let '(_, err, hook, w) := rolloverFile hook w in
  let w := match err with
           | Some err => log_Printf ("Error on creating new file: " +:+ Error err +:+ nl) w
           | None => w
           end in
  let '(d, w) := rolloverAfter hook w in
  let hook := if (0 <? d)%Z then set_timer (Some (Armed d)) hook else hook in
  ((hook, None), w).

(** The tail both write functions share: format the entry, write the bytes
    to [f], which is [hook.file]. *)
Definition formatAndWrite (hook : Hook) (f : File) (entry : Entry) (w : World)
  : option error * Hook * World :=
  match formatter hook entry with
  | inr err => (Some err, hook, w)
  | inl b =>
      let '(_, err, w) := File_Write f b w in
      match err with
      | Some err => (Some err, hook, w)
      | None => (None, hook, w)
      end
  end.

(** The goroutine of writeEntry: in its loop, or returned from it. *)
Inductive Task := Running | Exited.

(** *** The running system

    The hook and the world, the state of the serializer goroutine, and the
    file names handed to archiveOldFile goroutines that have not run yet.
    rolloverFile and write hold the mutex from their first statement to
    their last, so each is one step. *)
Record System := mkSystem {
  sys_hook : Hook;
  sys_world : World;
  serializer : Task;
  archiving : list string
}.

Inductive Event :=
| EvFire (entry : Entry)   (* a producer calls Fire *)
| EvReceive                (* the serializer takes its next turn of the loop *)
| EvTimer                  (* the armed timer fires and runs resetTimer *)
| EvArchive                (* the oldest waiting archive goroutine runs *)
| EvUnlink (path : string) (* something outside the process removes a file *).

(** One step of the system; [iter] is one turn of the loop of writeEntry.
    An event that cannot happen in the state leaves it as it is. *)
Definition step (iter : Hook -> World -> Task * Hook * World)
    (s : System) (ev : Event) : System :=
  match ev with
  | EvFire entry =>
      match Fire (sys_hook s) entry with
      | Some (_, hook) => mkSystem hook (sys_world s) (serializer s) (archiving s)
      | None => s
      end
  | EvReceive =>
      match serializer s with
      | Running =>
          let '(task, hook, w) := iter (sys_hook s) (sys_world s) in
          mkSystem hook w task (archiving s)
      | Exited => s
      end
  | EvTimer =>
      match timer (sys_hook s) with
      | Some (Armed _) =>
          match resetTimer (sys_hook s) (sys_world s) with
          | Some (hook, w, started) =>
              mkSystem hook w (serializer s) (archiving s ++ started)
          | None => s
          end
      | _ => s
      end
  | EvArchive =>
      match archiving s with
      | fileName :: rest =>
          mkSystem (sys_hook s) (archiveOldFile (sys_hook s) fileName (sys_world s))
                   (serializer s) rest
      | [] => s
      end
  | EvUnlink path =>
      mkSystem (sys_hook s) (set_names (fun m => delete path m) (sys_world s))
               (serializer s) (archiving s)
  end.

Definition run (iter : Hook -> World -> Task * Hook * World)
    (s : System) (evs : list Event) : System :=
  fold_left (step iter) evs s.

(** The system a constructor leaves behind: its hook, the world, and the
    serializer it started. *)
Definition boot (r : (Hook * option error) * World) : System :=
  mkSystem (fst (fst r)) (snd r) Running [].

(** The loop of writeEntry run by itself until the channel is empty or the
    function returns. *)
Fixpoint range_queue (iter : Hook -> World -> Task * Hook * World)
    (n : nat) (hook : Hook) (w : World) : Task * Hook * World :=
  match n with
  | O => (Running, hook, w)
  | S n =>
      let '(task, hook, w) := iter hook w in
      match task with
      | Exited => (Exited, hook, w)
      | Running => range_queue iter n hook w
      end
  end.

End Program.

(** ** The program: fsrollhook.go *)

Module FsrollHook.
Section Defs.
Context `{External}.
Import GoStrings Filepath GoTime GoOS.

(** [NewHook] *)
Definition NewHook (levels : list Level) (formatter : Formatter)
    (fileNamePattern : string) (w : World) : (Hook * option error) * World :=
  newHook EmptyString levels formatter fileNamePattern w.

(** [write] *)
Definition write (hook : Hook) (entry : Entry) (w : World)
  : option error * Hook * World :=
  match file hook with
  | Some f =>
      let fileName := Name f in
      let '(err, w) := os_Stat fileName w in
      if match err with Some err => IsNotExist err | None => false end then
        let dir := Dir fileName in
        let '(err, w) := os_MkdirAll dir (Z.lor ModeDir 493) w in
        match err with
        | Some err =>
            (Some err, hook, log_Printf ("Error on create Dir: " +:+ Error err +:+ nl) w)
        | None =>
            let '(r, w) := os_OpenFile fileName appendCreateWronly 436 w in
            match r with
            | inr err =>
                (Some err, hook,
                 log_Printf ("Error on creating new file: " +:+ Error err +:+ nl) w)
            | inl recreateFile =>
                let hook := set_file (Some recreateFile) hook in
                formatAndWrite hook recreateFile entry w
            end
        end
      else formatAndWrite hook f entry w
  | None => (None, hook, w)
  end.

(** One turn of the loop of [writeEntry]: receive an entry, write it, and
    return from the function when the write failed. *)
Definition writeEntry_iter (hook : Hook) (w : World) : Task * Hook * World :=
  match queue hook with
  | [] => (Running, hook, w)
  | entry :: rest =>
      let hook := set_queue rest hook in
      let '(err, hook, w) := write hook entry w in
      match err with
      | Some err =>
          (Exited, hook, log_Printf ("Error on writing to file: " +:+ Error err +:+ nl) w)
      | None => (Running, hook, w)
      end
  end.

(** [writeEntry], over the entries now in the channel. *)
Definition writeEntry (hook : Hook) (w : World) : Task * Hook * World :=
  range_queue writeEntry_iter (length (queue hook)) hook w.

(** [GetFrontFileName] *)
Definition GetFrontFileName (fileName : string) : string :=
  let filenameWithSuffix := Path.Base fileName in
  let dotIn := Contains filenameWithSuffix "." in
  if negb dotIn then fileName
  else
    let nameFieldsCount := Count filenameWithSuffix "." in
    if (nameFieldsCount <? 2)%nat then fileName
    else
      let fileSuffix := Path.Ext filenameWithSuffix in
      let filenameOnly := TrimSuffix filenameWithSuffix fileSuffix in
      let '(dir, _) := Path.Split fileName in
      dir +:+ filenameOnly.

End Defs.
End FsrollHook.

(** ** The program: rollingfile_hook.go *)

Module TimeBasedRollingFileHook.
Section Defs.
Context `{External}.
Import GoStrings Filepath GoTime GoOS.

(** [NewTimeBasedRollingFileHook] *)
Definition NewTimeBasedRollingFileHook (id : string) (levels : list Level)
    (formatter : Formatter) (fileNamePattern : string) (w : World)
  : (Hook * option error) * World :=
  newHook id levels formatter fileNamePattern w.

(** [write] *)
Definition write (hook : Hook) (entry : Entry) (w : World)
  : option error * Hook * World :=
  match file hook with
  | Some f => formatAndWrite hook f entry w
  | None => (None, hook, w)
  end.

(** One turn of the loop of [writeEntry]: receive an entry, write it, log a
    failure and go on. *)
Definition writeEntry_iter (hook : Hook) (w : World) : Task * Hook * World :=
  match queue hook with
  | [] => (Running, hook, w)
  | entry :: rest =>
      let hook := set_queue rest hook in
      let '(err, hook, w) := write hook entry w in
      match err with
      | Some err =>
          (Running, hook, log_Printf ("Error on writing to file: " +:+ Error err +:+ nl) w)
      | None => (Running, hook, w)
      end
  end.

(** [writeEntry], over the entries now in the channel. *)
Definition writeEntry (hook : Hook) (w : World) : Task * Hook * World :=
  range_queue writeEntry_iter (length (queue hook)) hook w.

(** [Id] *)
Definition Id (hook : Hook) : string := id hook.

End Defs.
End TimeBasedRollingFileHook.

(** ** Vocabulary of the claims about the schedule *)

Section Schedule.
Context `{External}.
Import GoTime GoOS.
Local Open Scope Z_scope.

(** The five degrees of rollover, finest first. *)
Inductive Granularity := PerMinute | PerHour | PerDay | PerMonth | PerYear.

Definition granularities : list Granularity :=
  [PerMinute; PerHour; PerDay; PerMonth; PerYear].

(** The instant one unit after [t]. *)
Definition candidate (g : Granularity) (t : Time) : Time :=
  match g with
  | PerMinute => Add t Minute
  | PerHour => Add t Hour
  | PerDay => AddDate t 0 0 1
  | PerMonth => AddDate t 0 1 0
  | PerYear => AddDate t 1 0 0
  end.

(** The name rendered one unit after [t] differs from the name at [t]. *)
Definition changes (pattern : string) (t : Time) (g : Granularity) : bool :=
  negb (String.eqb (Format t pattern) (Format (candidate g t) pattern)).

(** The finest granularity at which the name changes, if any. *)
Definition firstChange (pattern : string) (t : Time) : option Granularity :=
  find (changes pattern t) granularities.

(** [x] is the first instant of a unit: every field below the unit is at its
    least value. *)
Definition atStartOf (g : Granularity) (x : Time) : Prop :=
  match g with
  | PerMinute => Second_ x = 0 /\ Nanosecond_ x = 0
  | PerHour => Minute_ x = 0 /\ Second_ x = 0 /\ Nanosecond_ x = 0
  | PerDay => Hour_ x = 0 /\ Minute_ x = 0 /\ Second_ x = 0 /\ Nanosecond_ x = 0
  | PerMonth =>
      Day x = 1 /\ Hour_ x = 0 /\ Minute_ x = 0 /\ Second_ x = 0 /\ Nanosecond_ x = 0
  | PerYear =>
      Month x = 1 /\ Day x = 1 /\ Hour_ x = 0 /\ Minute_ x = 0 /\ Second_ x = 0
      /\ Nanosecond_ x = 0
  end.

(** [x] and [y] lie in the same unit: they agree on the unit's field and on
    every field above it. *)
Definition sameUnit (g : Granularity) (x y : Time) : Prop :=
  match g with
  | PerMinute =>
      Year x = Year y /\ Month x = Month y /\ Day x = Day y /\ Hour_ x = Hour_ y
      /\ Minute_ x = Minute_ y
  | PerHour =>
      Year x = Year y /\ Month x = Month y /\ Day x = Day y /\ Hour_ x = Hour_ y
  | PerDay => Year x = Year y /\ Month x = Month y /\ Day x = Day y
  | PerMonth => Year x = Year y /\ Month x = Month y
  | PerYear => Year x = Year y
  end.

(** The longest way to the start of a unit from one unit before: a minute,
    an hour, a day, 31 days, 366 days, in nanoseconds. *)
Definition unitBound (g : Granularity) : Duration :=
  match g with
  | PerMinute => 60 * 1000000000
  | PerHour => 3600 * 1000000000
  | PerDay => 86400 * 1000000000
  | PerMonth => 31 * 86400 * 1000000000
  | PerYear => 366 * 86400 * 1000000000
  end.

(** The instant the next call of time.Now().Local() reads. *)
Definition nowLocal (w : World) : Time := fst (time_Now_Local w).

(** The instant read by the call of time.Now().Local() that comes after [n]
    other calls. *)
Definition laterLocal (n : nat) (w : World) : Time :=
  In (mkTime (clock w (ticks w + n)%nat) UTC) (local w).

(** The name is the same one minute, one hour, one day, one month and one
    year after [t]. *)
Definition staticAt (pattern : string) (t : Time) : Prop :=
  Format (Add t Minute) pattern = Format t pattern /\
  Format (Add t Hour) pattern = Format t pattern /\
  Format (AddDate t 0 0 1) pattern = Format t pattern /\
  Format (AddDate t 0 1 0) pattern = Format t pattern /\
  Format (AddDate t 1 0 0) pattern = Format t pattern.

(** The start of the unit of [t1], as rolloverAfter builds it with Date. *)
Definition unitStart (g : Granularity) (t1 : Time) : Time :=
  match g with
  | PerMinute =>
      Date (Year t1) (Month t1) (Day t1) (Hour_ t1) (Minute_ t1) 0 0 (Location_ t1)
  | PerHour => Date (Year t1) (Month t1) (Day t1) (Hour_ t1) 0 0 0 (Location_ t1)
  | PerDay => Date (Year t1) (Month t1) (Day t1) 0 0 0 0 (Location_ t1)
  | PerMonth => Date (Year t1) (Month t1) 1 0 0 0 0 (Location_ t1)
  | PerYear => Date (Year t1) 1 1 0 0 0 0 (Location_ t1)
  end.

(** The first instant of the unit after the one [t] lies in, by the fields
    of [t]: Date carries a sixtieth minute, a twenty-fourth hour, a day past
    the end of the month and a thirteenth month over.  [monthAfterNext] is
    the first instant of the month after that. *)
Definition nextUnitStart (g : Granularity) (t : Time) : Time :=
  match g with
  | PerMinute =>
      Date (Year t) (Month t) (Day t) (Hour_ t) (Minute_ t + 1) 0 0 (Location_ t)
  | PerHour => Date (Year t) (Month t) (Day t) (Hour_ t + 1) 0 0 0 (Location_ t)
  | PerDay => Date (Year t) (Month t) (Day t + 1) 0 0 0 0 (Location_ t)
  | PerMonth => Date (Year t) (Month t + 1) 1 0 0 0 0 (Location_ t)
  | PerYear => Date (Year t + 1) 1 1 0 0 0 0 (Location_ t)
  end.

Definition monthAfterNext (t : Time) : Time :=
  Date (Year t) (Month t + 2) 1 0 0 0 0 (Location_ t).

(** The days of the month after the one of [t]. *)
Definition daysOfNextMonth (t : Time) : Z :=
  let '(y, m) := nextMonth (Year t) (Month t) in daysIn y m.

(** What rolloverAfter returns when the clock reads [t]. *)
Definition nextDuration (pattern : string) (t : Time) : Duration :=
  match firstChange pattern t with
  | Some g => Sub (unitStart g (candidate g t)) t
  | None => 0
  end.

End Schedule.

(** ** Vocabulary of the properties of files and handles *)

Section Handles.
Context `{External}.
Import GoStrings Filepath GoTime GoOS.

(** The name rolloverFile opens when the clock reads [t]: the rendered
    pattern, cut as rolloverFile cuts it. *)
Definition targetName (pattern : string) (t : Time) : string :=
  let rendered := Format t pattern in
  if String.eqb (ToLower (Ext rendered)) GzipSuffix
  then TrimSuffix rendered GzipSuffix else rendered.

(** [name] is spelled as the name of a file: it is its own cleaned form, so
    it is not empty, has no trailing slash and no empty, "." or ".." element
    inside, and its last element is not "/", "." or "..", which name
    directories. *)
Definition fileSpelling (name : string) : bool :=
  String.eqb (Clean name) name
  && negb (String.eqb (Path.Base name) "/")
  && negb (String.eqb (Path.Base name) ".")
  && negb (String.eqb (Path.Base name) "..").

(** The handle [f] can be written to: no fault is to come, and the descriptor
    of [f] is open for appending on the inode [ino], which holds [data]. *)
Definition appendable (w : World) (f : File) (ino : nat) (data : bytes) : Prop :=
  faults w = [] /\
  exists o, fds w !! fd f = Some o /\ of_ino o = ino /\ of_open o = true /\
            writable (of_flag o) = true /\ hasFlag (of_flag o) O_APPEND = true /\
            inodes w !! ino = Some data.

(** What a formatter makes of the entries [es]: the bytes of those it
    accepts, and the lines writeEntry logs for those it rejects. *)
Definition accepted (fm : Formatter) (es : list Entry) : list bytes :=
  omap (fun e => match fm e with inl b => Some b | inr _ => None end) es.

Definition rejected (fm : Formatter) (es : list Entry) : list string :=
  omap (fun e => match fm e with
                 | inl _ => None
                 | inr err => Some ("Error on writing to file: " +:+ Error err +:+ nl)
                 end) es.

(** [hook'] has the levels, the id, the formatter and the pattern of [hook]. *)
Definition sameFields (hook hook' : Hook) : Prop :=
  levels hook' = levels hook /\ id hook' = id hook /\
  formatter hook' = formatter hook /\ fileNamePattern hook' = fileNamePattern hook.

End Handles.

(** ** An instance for the examples

    [Layout.Format] renders the numeric elements of a Go layout: 2006, 01,
    1, 02, 2, 15, 03, 3, 04, 4, 05, 5 and 06; every other byte stands for
    itself.  It agrees with the library on layouts without the textual
    elements (Jan, Mon, PM, MST, zone offsets, fractions, padded days).
    The stand-in for gzip keeps the data as it is behind the two magic bytes
    and closes the stream with one byte. *)

Module Layout.
Import GoTime.
Local Open Scope Z_scope.

Definition pad (width : nat) (n : Z) : string :=
  let s := pretty n in
  string_of_list_ascii (repeat "0"%char (width - String.length s)) +:+ s.

Definition hour12 (h : Z) : Z := if h mod 12 =? 0 then 12 else h mod 12.

Fixpoint render (t : Time) (skip : nat) (layout : string) : string :=
  match layout with
  | EmptyString => EmptyString
  | String c rest =>
      match skip with
      | S k => render t k rest
      | O =>
          if String.prefix "2006" layout then pad 4 (Year t) +:+ render t 3 rest
          else if String.prefix "01" layout then pad 2 (Month t) +:+ render t 1 rest
          else if String.prefix "02" layout then pad 2 (Day t) +:+ render t 1 rest
          else if String.prefix "03" layout then pad 2 (hour12 (Hour_ t)) +:+ render t 1 rest
          else if String.prefix "04" layout then pad 2 (Minute_ t) +:+ render t 1 rest
          else if String.prefix "05" layout then pad 2 (Second_ t) +:+ render t 1 rest
          else if String.prefix "06" layout then pad 2 (Year t mod 100) +:+ render t 1 rest
          else if String.prefix "15" layout then pad 2 (Hour_ t) +:+ render t 1 rest
          else if String.prefix "1" layout then pretty (Month t) +:+ render t 0 rest
          else if String.prefix "2" layout then pretty (Day t) +:+ render t 0 rest
          else if String.prefix "3" layout then pretty (hour12 (Hour_ t)) +:+ render t 0 rest
          else if String.prefix "4" layout then pretty (Minute_ t) +:+ render t 0 rest
          else if String.prefix "5" layout then pretty (Second_ t) +:+ render t 0 rest
          else String c (render t 0 rest)
      end
  end.

Definition Format (t : Time) (layout : string) : string := render t 0 layout.

End Layout.

Definition exampleLib : External := {|
  Format := Layout.Format;
  gzipBody := fun data => Byte.x1f :: Byte.x8b :: data;
  gzipTrailer := fun _ => [Byte.x00]
|}.

(** ** Worlds and hooks for the examples *)

Section Scenarios.
Import GoTime GoOS.
Local Open Scope Z_scope.

Definition newline : Byte.byte := Byte.x0a.

(** A formatter that writes the message and a newline, and fails on the
    empty message. *)
Definition lineFormatter : Formatter := fun entry =>
  if String.eqb (Message entry) "" then inr (ErrorString "empty message")
  else inl (list_byte_of_string (Message entry) ++ [newline]).

(** A world with the root directory only, a clock that reads [t] (Unix
    nanoseconds) at every call, UTC as the local zone and no fault to come. *)
Definition quietWorld (t : Z) : World :=
  mkWorld ∅ {[ "/"%string ]} [] [] [] (fun _ => t) 0 UTC [].

Definition minutePattern : string := "/tmp/tbrfh/2006/01/02/15/minute.04.log".
Definition staticPattern : string := "/tmp/tbrfh/app.log".

(** A hook as the constructors build it before their first rollover. *)
Definition freshHook (pattern : string) : Hook :=
  mkHook "tbrfh" [InfoLevel; WarnLevel; ErrorLevel] lineFormatter pattern
         EmptyString None None [].

(** 2015-12-31 23:59:30 UTC. *)
Definition newYearsEve : Z := unixNano (Date 2015 12 31 23 59 30 0 UTC).

(** A world in which /tmp is a regular file, so that no directory can be
    made below it. *)
Definition blockedWorld (t : Z) : World :=
  mkWorld {[ "/tmp"%string := 0%nat ]} {[ "/"%string ]} [[]] [] [] (fun _ => t) 0 UTC [].

(** The hook and the world a constructor leaves with the static pattern:
    /tmp/tbrfh/app.log is open and empty. *)
Definition started : (Hook * option error) * World :=
  @newHook exampleLib "tbrfh" [InfoLevel; WarnLevel; ErrorLevel] lineFormatter
           staticPattern (quietWorld newYearsEve).

Definition startedHook : Hook := fst (fst started).
Definition startedWorld : World := snd started.

(** The same world with a device that is full for the next write only. *)
Definition fullOnceWorld : World := set_faults (fun _ => [Some ENOSPC]) startedWorld.

(** The same, the device being full for the second system call to come. *)
Definition fullAfterStatWorld : World :=
  set_faults (fun _ => [None; Some ENOSPC]) startedWorld.

Definition entry1 : Entry := mkEntry InfoLevel "first".
Definition entry2 : Entry := mkEntry InfoLevel "second".

(** The name of the file rolloverFile opens for [pattern] in a quiet world. *)
Definition openedName (pattern : string) : option string :=
  Name <$> file (snd (fst (@rolloverFile exampleLib (freshHook pattern)
                             (quietWorld newYearsEve)))).

(** The world a constructor left, in which the third system call to come
    fails on an input/output error. *)
Definition copyFailsWorld : World :=
  set_faults (fun _ => [None; None; Some EIO]) startedWorld.

(** A world with a log file and, beside it, a .gz file left by an earlier
    run. *)
Definition staleGzWorld : World :=
  mkWorld {[ "/tmp/tbrfh/app.log"%string := 0%nat; "/tmp/tbrfh/app.log.gz"%string := 1%nat ]}
          {[ "/"%string; "/tmp"%string; "/tmp/tbrfh"%string ]}
          [list_byte_of_string "hello"; list_byte_of_string "stale"]
          [] [] (fun _ => newYearsEve) 0 UTC [].

(** The world a constructor left, after something outside removed the log
    file. *)
Definition unlinkedWorld : World :=
  set_names (fun m => delete "/tmp/tbrfh/app.log"%string m) startedWorld.

(** An entry the line formatter rejects. *)
Definition emptyEntry : Entry := mkEntry WarnLevel "".

(** A world with the directory /tmp/tbrfh and no file in it. *)
Definition emptyDirWorld : World :=
  mkWorld ∅ {[ "/"%string; "/tmp"%string; "/tmp/tbrfh"%string ]} [] [] []
          (fun _ => newYearsEve) 0 UTC [].

(** A world whose clock is thirty seconds further at every reading, from
    2015-12-31 23:59:30 UTC on. *)
Definition tickingWorld : World :=
  mkWorld ∅ {[ "/"%string ]} [] [] []
          (fun n => newYearsEve + Z.of_nat n * (30 * Second)) 0 UTC [].

(** The system a constructor leaves in it with the minute pattern: the file
    of 23:59 is open and the timer is armed. *)
Definition rolling : System :=
  boot (@newHook exampleLib "tbrfh" [InfoLevel; WarnLevel; ErrorLevel] lineFormatter
                 minutePattern tickingWorld).

Definition dayPattern : string := "/tmp/tbrfh/2006/01/day.02.log".
Definition monthPattern : string := "/tmp/tbrfh/2006/month.01.log".

(** 2015-01-15 12:00:00 UTC. *)
Definition midJanuary : Z := unixNano (Date 2015 1 15 12 0 0 0 UTC).

(** 2015-01-30 12:00:00 UTC. *)
Definition endOfJanuary : Z := unixNano (Date 2015 1 30 12 0 0 0 UTC).

(** America/New_York in 2015: five hours west of UTC, and four from
    2015-03-08 07:00 UTC to 2015-11-01 06:00 UTC. *)
Definition newYork : Location :=
  mkLocation (-18000) [(1425798000, -14400); (1446357600, -18000)].

(** America/Sao_Paulo late in 2018: three hours west of UTC, and two from
    2018-11-04 03:00 UTC on; the clocks go from 23:59:59 on November 3 to
    01:00:00 on November 4. *)
Definition saoPaulo : Location := mkLocation (-10800) [(1541300400, -7200)].

(** A quiet world whose local zone is [loc]. *)
Definition zoneWorld (loc : Location) (t : Z) : World :=
  mkWorld ∅ {[ "/"%string ]} [] [] [] (fun _ => t) 0 loc [].

(** 2015-11-01 05:59:30 UTC, which is 01:59:30 in New York, half a minute
    before the clocks there go back to 01:00:00. *)
Definition fallBack : Z := unixNano (Date 2015 11 1 5 59 30 0 UTC).

(** 2018-11-03 15:00:00 UTC, noon in Sao Paulo on the day before the clocks
    skip midnight. *)
Definition noonBeforeTheSkip : Z := unixNano (Date 2018 11 3 15 0 0 0 UTC).

End Scenarios.

(** ** Vocabulary of the claims about the running system *)

(** One turn of the loop of writeEntry, of one hook or the other. *)
Definition isWriteEntry `{External} (iter : Hook -> GoOS.World -> Task * Hook * GoOS.World)
  : Prop :=
  iter = FsrollHook.writeEntry_iter \/ iter = TimeBasedRollingFileHook.writeEntry_iter.

(** One turn of a loop that leaves the timer alone. *)
Definition keepsTimer (iter : Hook -> GoOS.World -> Task * Hook * GoOS.World) : Prop :=
  forall hook w, timer (snd (fst (iter hook w))) = timer hook.

(* ===================================================================== *)
(** * Part II.  Proofs                                                    *)
(* ===================================================================== *)

Import GoStrings Filepath GoTime GoOS.

(** Proof steps shared below: the twelve months, one by one; and calendar
    terms put behind variables before arithmetic is called. *)

Ltac month_cases m :=
  let Hm := fresh "Hm" in
  assert (Hm : (m = 1 \/ m = 2 \/ m = 3 \/ m = 4 \/ m = 5 \/ m = 6 \/
                m = 7 \/ m = 8 \/ m = 9 \/ m = 10 \/ m = 11 \/ m = 12)%Z) by lia;
  destruct Hm as [Hm|[Hm|[Hm|[Hm|[Hm|[Hm|[Hm|[Hm|[Hm|[Hm|[Hm|Hm]]]]]]]]]]];
  rewrite Hm in *.

Ltac atom e := let x := fresh "x" in set (x := e) in *; clearbody x.

Ltac hide_calendar :=
  repeat match goal with
    | H : context [dateToDays ?a ?b ?c] |- _ => atom (dateToDays a b c)
    | |- context [dateToDays ?a ?b ?c] => atom (dateToDays a b c)
    | H : context [daysIn ?a ?b] |- _ => atom (daysIn a b)
    | H : context [daysSinceEpoch ?a] |- _ => atom (daysSinceEpoch a)
    | H : context [yearLen ?a] |- _ => atom (yearLen a)
    | H : context [abs ?a] |- _ => atom (abs a)
    | |- context [abs ?a] => atom (abs a)
    | H : context [Hour_ ?a] |- _ => atom (Hour_ a)
    | H : context [Minute_ ?a] |- _ => atom (Minute_ a)
    | H : context [Second_ ?a] |- _ => atom (Second_ a)
    | H : context [Nanosecond_ ?a] |- _ => atom (Nanosecond_ a)
    | H : context [Day ?a] |- _ => atom (Day a)
    | H : context [Month ?a] |- _ => atom (Month a)
    | H : context [Year ?a] |- _ => atom (Year a)
    end.

(** ** The calendar *)

Section Calendar.
Import GoTime.
Local Open Scope Z_scope.

Lemma isLeap_cycle a b c n :
  0 <= b <= 3 -> 0 <= c <= 24 -> 0 <= n <= 3 ->
  isLeap (400 * a + 100 * b + 4 * c + n + 1) =
  (n =? 3) && (negb (c =? 24) || (b =? 3)).
Proof.
  intros Hb Hc Hn. unfold isLeap.
  set (y := 400 * a + 100 * b + 4 * c + n + 1).
  assert (E4 : y mod 4 = (n + 1) mod 4).
  { unfold y.
    replace (400 * a + 100 * b + 4 * c + n + 1)
      with ((n + 1) + (100 * a + 25 * b + c) * 4) by lia.
    apply Z.mod_add. lia. }
  assert (E100 : y mod 100 = (4 * c + n + 1) mod 100).
  { unfold y.
    replace (400 * a + 100 * b + 4 * c + n + 1)
      with ((4 * c + n + 1) + (4 * a + b) * 100) by lia.
    apply Z.mod_add. lia. }
  assert (E400 : y mod 400 = (100 * b + 4 * c + n + 1) mod 400).
  { unfold y.
    replace (400 * a + 100 * b + 4 * c + n + 1)
      with ((100 * b + 4 * c + n + 1) + a * 400) by lia.
    apply Z.mod_add. lia. }
  rewrite E4, E100, E400.
  destruct (Z.eqb_spec n 3), (Z.eqb_spec c 24), (Z.eqb_spec b 3),
    (Z.eqb_spec ((n + 1) mod 4) 0), (Z.eqb_spec ((4 * c + n + 1) mod 100) 0),
    (Z.eqb_spec ((100 * b + 4 * c + n + 1) mod 400) 0); simpl; try reflexivity;
  exfalso; Z.div_mod_to_equations; lia.
Qed.

(** The year found for a day number contains that day. *)
Lemma absYear_spec days y yd :
  absYear days = (y, yd) ->
  daysSinceEpoch y + yd = days /\ 0 <= yd < yearLen y.
Proof.
  unfold absYear, yearLen. cbv zeta. intros E.
  apply pair_equal_spec in E as [<- <-].
  set (d := days + 719162).
  set (n400 := d / 146097).
  set (d1 := d - 146097 * n400).
  assert (H1 : 0 <= d1 < 146097) by (unfold d1, n400; Z.div_mod_to_equations; lia).
  set (q100 := d1 / 36524).
  set (n100 := q100 - q100 / 4).
  set (d2 := d1 - 36524 * n100).
  assert (H2 : 0 <= n100 <= 3 /\ 0 <= d2 /\ (d2 < 36524 \/ n100 = 3 /\ d2 = 36524)).
  { unfold d2, n100, q100. Z.div_mod_to_equations. lia. }
  set (n4 := d2 / 1461).
  set (d3 := d2 - 1461 * n4).
  assert (H3 : 0 <= n4 <= 24 /\ 0 <= d3 < 1461 /\ (n4 = 24 -> n100 <> 3 -> d3 < 1460)).
  { unfold d3, n4. Z.div_mod_to_equations. lia. }
  set (q := d3 / 365).
  set (n := q - q / 4).
  set (yd := d3 - 365 * n).
  assert (H4 : 0 <= n <= 3 /\ 0 <= yd /\ (yd < 365 \/ n = 3 /\ yd = 365)).
  { unfold yd, n, q. Z.div_mod_to_equations. lia. }
  rewrite (isLeap_cycle n400 n100 n4 n) by lia.
  split.
  - unfold daysSinceEpoch.
    replace (400 * n400 + 100 * n100 + 4 * n4 + n + 1 - 1)
      with (400 * n400 + 100 * n100 + 4 * n4 + n) by lia.
    assert ((400 * n400 + 100 * n100 + 4 * n4 + n) / 4 = 100 * n400 + 25 * n100 + n4)
      by (Z.div_mod_to_equations; lia).
    assert ((400 * n400 + 100 * n100 + 4 * n4 + n) / 100 = 4 * n400 + n100)
      by (Z.div_mod_to_equations; lia).
    assert ((400 * n400 + 100 * n100 + 4 * n4 + n) / 400 = n400)
      by (Z.div_mod_to_equations; lia).
    lia.
  - destruct (Z.eqb_spec n 3), (Z.eqb_spec n4 24), (Z.eqb_spec n100 3); simpl; lia.
Qed.

Lemma daysSinceEpoch_succ y :
  daysSinceEpoch (y + 1) = daysSinceEpoch y + yearLen y.
Proof.
  unfold daysSinceEpoch, yearLen, isLeap. cbv zeta.
  replace (y + 1 - 1) with y by lia.
  destruct (Z.eqb_spec (y mod 4) 0), (Z.eqb_spec (y mod 100) 0),
    (Z.eqb_spec (y mod 400) 0); simpl; Z.div_mod_to_equations; lia.
Qed.

Lemma yearLen_pos y : 365 <= yearLen y <= 366.
Proof. unfold yearLen. destruct (isLeap y); lia. Qed.

Lemma daysSinceEpoch_mono y y' :
  y <= y' -> daysSinceEpoch y + 365 * (y' - y) <= daysSinceEpoch y'.
Proof.
  intros Hle. replace y' with (y + Z.of_nat (Z.to_nat (y' - y))) by lia.
  generalize (Z.to_nat (y' - y)) as k. clear. intros k.
  induction k as [|k IH].
  - rewrite Z.add_0_r. lia.
  - replace (y + Z.of_nat (S k)) with (y + Z.of_nat k + 1) by lia.
    rewrite daysSinceEpoch_succ.
    pose proof (yearLen_pos (y + Z.of_nat k)). lia.
Qed.

(** A day number inside year [y] belongs to no other year. *)
Lemma absYear_unique y yd :
  0 <= yd < yearLen y -> absYear (daysSinceEpoch y + yd) = (y, yd).
Proof.
  intros Hyd.
  destruct (absYear (daysSinceEpoch y + yd)) as [y' yd'] eqn:E.
  apply absYear_spec in E as [E Hyd'].
  assert (y' = y); [|subst; f_equal; lia].
  destruct (Z.lt_trichotomy y' y) as [Hlt | [Heq | Hgt]]; [exfalso | assumption | exfalso].
  - pose proof (daysSinceEpoch_mono (y' + 1) y ltac:(lia)).
    rewrite daysSinceEpoch_succ in *. lia.
  - pose proof (daysSinceEpoch_mono (y + 1) y' ltac:(lia)).
    rewrite daysSinceEpoch_succ in *. lia.
Qed.

Lemma daysIn_bounds y m : 1 <= m <= 12 -> 28 <= daysIn y m <= 31.
Proof.
  intros H. unfold daysIn, daysBefore. month_cases m; destruct (isLeap y); simpl; lia.
Qed.

(** The first day of the next month follows the last of this one. *)
Lemma dateToDays_nextMonth y m :
  1 <= m <= 12 ->
  dateToDays (fst (nextMonth y m)) (snd (nextMonth y m)) 1
  = dateToDays y m 1 + daysIn y m.
Proof.
  intros H. unfold nextMonth, dateToDays, daysIn, daysBefore.
  month_cases m; simpl; rewrite ?daysSinceEpoch_succ; unfold yearLen;
    destruct (isLeap y); simpl; try lia;
    destruct (isLeap (y + 1)); simpl; lia.
Qed.

Lemma dateToDays_day y m d : dateToDays y m d = dateToDays y m 1 + (d - 1).
Proof. unfold dateToDays. lia. Qed.

Lemma dateToDays_jan1 y : dateToDays y 1 1 = daysSinceEpoch y.
Proof. unfold dateToDays, daysBefore. rewrite andb_false_r. simpl. lia. Qed.

(** A calendar day lies inside its year. *)
Lemma dateToDays_yday y m d :
  validDate y m d ->
  0 <= dateToDays y m d - daysSinceEpoch y < yearLen y.
Proof.
  intros [Hm Hd]. unfold dateToDays, yearLen, daysBefore. unfold daysIn, daysBefore in Hd.
  month_cases m; destruct (isLeap y); simpl in *; lia.
Qed.

(** The date found for a day number is a calendar day, and that day. *)
Lemma absDate_spec days y m d :
  absDate days = (y, m, d) -> validDate y m d /\ dateToDays y m d = days.
Proof.
  unfold absDate. destruct (absYear days) as [year yday] eqn:E.
  apply absYear_spec in E as [E Hyd]. unfold yearLen in Hyd.
  change (31 + 29 - 1) with 59. cbv zeta.
  assert (Hfin : forall day,
    0 <= day < 365 ->
    (if isLeap year then day < 59 /\ yday = day \/ 59 <= day /\ yday = day + 1
     else yday = day) ->
    (if daysBefore (day / 31 + 1) <=? day
     then (year, day / 31 + 2, day - daysBefore (day / 31 + 1) + 1)
     else (year, day / 31 + 1, day - daysBefore (day / 31) + 1)) = (y, m, d) ->
    validDate y m d /\ dateToDays y m d = days).
  { intros day Hday Hy.
    assert (Hq : 0 <= day / 31 <= 11) by (Z.div_mod_to_equations; lia).
    assert (Hr : 31 * (day / 31) <= day < 31 * (day / 31) + 31)
      by (Z.div_mod_to_equations; lia).
    set (q := day / 31) in *. clearbody q.
    assert (Hc : q = 0 \/ q = 1 \/ q = 2 \/ q = 3 \/ q = 4 \/ q = 5 \/
                 q = 6 \/ q = 7 \/ q = 8 \/ q = 9 \/ q = 10 \/ q = 11) by lia.
    unfold validDate, daysIn, dateToDays, daysBefore.
    destruct Hc as [Hc|[Hc|[Hc|[Hc|[Hc|[Hc|[Hc|[Hc|[Hc|[Hc|[Hc|Hc]]]]]]]]]]];
      subst q; simpl;
      match goal with |- context [if (?a <=? ?b) then _ else _] =>
        destruct (Z.leb_spec a b) end;
      intros E'; apply pair_equal_spec in E' as [E' <-];
      apply pair_equal_spec in E' as [<- <-];
      destruct (isLeap year); simpl; lia. }
  destruct (isLeap year) eqn:L; cbn [andb].
  - destruct (Z.eqb_spec yday 59).
    + intros E'; apply pair_equal_spec in E' as [E' <-];
      apply pair_equal_spec in E' as [<- <-].
      unfold validDate, daysIn, dateToDays, daysBefore. rewrite L. simpl. lia.
    + apply Hfin; destruct (Z.ltb_spec 59 yday); lia.
  - apply Hfin; lia.
Qed.

(** A calendar day is the date found for its day number. *)
Lemma absDate_dateToDays y m d :
  validDate y m d -> absDate (dateToDays y m d) = (y, m, d).
Proof.
  intros Hv.
  destruct (absDate (dateToDays y m d)) as [[y' m'] d'] eqn:E.
  apply absDate_spec in E as [Hv' E].
  pose proof (dateToDays_yday _ _ _ Hv) as B.
  pose proof (dateToDays_yday _ _ _ Hv') as B'.
  assert (y' = y).
  { generalize (absYear_unique y (dateToDays y m d - daysSinceEpoch y) B).
    generalize (absYear_unique y' (dateToDays y' m' d' - daysSinceEpoch y') B').
    replace (daysSinceEpoch y' + (dateToDays y' m' d' - daysSinceEpoch y'))
      with (dateToDays y m d) by lia.
    replace (daysSinceEpoch y + (dateToDays y m d - daysSinceEpoch y))
      with (dateToDays y m d) by lia.
    intros -> E'. apply pair_equal_spec in E' as [-> _]. reflexivity. }
  subst y'.
  destruct Hv as [Hm Hd], Hv' as [Hm' Hd'].
  unfold dateToDays, daysIn, daysBefore in *.
  assert (m' = m /\ d' = d); [|intuition congruence].
  month_cases m; month_cases m'; destruct (isLeap y); simpl in *; lia.
Qed.

End Calendar.

(** ** Instants and their fields *)

Section Fields.
Import GoTime.
Local Open Scope Z_scope.

Lemma clock_fields t :
  validClock (Hour_ t) (Minute_ t) (Second_ t) (Nanosecond_ t) /\
  abs t = (absDays t * 86400 + Hour_ t * 3600 + Minute_ t * 60 + Second_ t)
          * 1000000000 + Nanosecond_ t.
Proof.
  unfold Hour_, Minute_, Second_, Nanosecond_, absSeconds, absDays,
    secondsPerDay.
  change (86400 * 1000000000) with 86400000000000.
  generalize (abs t). intros a.
  Z.div_mod_to_equations. lia.
Qed.

Lemma date_fields t :
  validDate (Year t) (Month t) (Day t) /\
  dateToDays (Year t) (Month t) (Day t) = absDays t.
Proof.
  unfold Year, Month, Day.
  destruct (absDate (absDays t)) as [[y m] d] eqn:E. simpl.
  apply absDate_spec in E. exact E.
Qed.

Lemma abs_fields t :
  abs t = encode (Year t) (Month t) (Day t) (Hour_ t) (Minute_ t) (Second_ t)
                 (Nanosecond_ t).
Proof.
  destruct (date_fields t) as [_ ->].
  apply clock_fields.
Qed.

(** A zone without changes has its one offset at every instant. *)
Lemma lookup_fixed loc sec :
  transitions loc = [] -> lookup loc sec = (zoneOffset loc, alpha, omega).
Proof. unfold lookup. intros ->. reflexivity. Qed.

Lemma abs_fixed t :
  transitions (location t) = [] ->
  abs t = unixNano t + zoneOffset (location t) * 1000000000.
Proof. intros Hfix. unfold abs. rewrite (lookup_fixed _ _ Hfix). reflexivity. Qed.

(** In such a zone Date takes the offset off the wall clock. *)
Lemma Date_fixed_offset loc (unix : Z) :
  transitions loc = [] ->
  (let '(offset, start, end_) := lookup loc unix in
   if offset =? 0 then unix
   else
     let utc := unix - offset in
     let offset :=
       if (utc <? start) || (end_ <=? utc)
       then fst (fst (lookup loc utc))
       else offset in
     unix - offset)
  = unix - zoneOffset loc.
Proof.
  intros Hfix. rewrite (lookup_fixed loc unix Hfix). cbv beta iota zeta.
  rewrite (lookup_fixed loc _ Hfix). cbn [fst].
  destruct (Z.eqb_spec (zoneOffset loc) 0) as [E|E]; [lia|].
  destruct (_ || _); reflexivity.
Qed.

Lemma location_Date y m d h mi sec ns loc :
  location (Date y m d h mi sec ns loc) = loc.
Proof.
  unfold Date, norm. cbv beta iota zeta.
  destruct (lookup loc _) as [[offset start] end_]. reflexivity.
Qed.

(** The wall clock of [Date] when the time of day needs no carry, in a zone
    without changes. *)
Lemma abs_Date y m d h mi sec ns loc :
  transitions loc = [] ->
  validClock h mi sec ns ->
  abs (Date y m d h mi sec ns loc)
  = encode (y + (m - 1) / 12) ((m - 1) mod 12 + 1) d h mi sec ns
  /\ location (Date y m d h mi sec ns loc) = loc.
Proof.
  intros Hfix (Hh & Hmi & Hs & Hns).
  split; [|apply location_Date].
  rewrite abs_fixed by (rewrite location_Date; exact Hfix).
  rewrite location_Date.
  unfold Date, norm, secondsPerDay.
  rewrite (Z.div_small ns), (Z.mod_small ns) by lia. rewrite Z.add_0_r.
  rewrite (Z.div_small sec), (Z.mod_small sec) by lia. rewrite Z.add_0_r.
  rewrite (Z.div_small mi), (Z.mod_small mi) by lia. rewrite Z.add_0_r.
  rewrite (Z.div_small h), (Z.mod_small h) by lia. rewrite Z.add_0_r.
  cbv beta iota zeta.
  set (D := dateToDays _ _ _). clearbody D.
  pose proof (Date_fixed_offset loc (D * 86400 + h * 3600 + mi * 60 + sec) Hfix) as E.
  destruct (lookup loc (D * 86400 + h * 3600 + mi * 60 + sec)) as [[offset start] end_].
  cbv beta iota zeta in E |- *. rewrite E. cbn [unixNano]. lia.
Qed.

Lemma abs_Date_valid y m d h mi sec ns loc :
  transitions loc = [] ->
  1 <= m <= 12 -> validClock h mi sec ns ->
  abs (Date y m d h mi sec ns loc) = encode y m d h mi sec ns.
Proof.
  intros Hfix Hm Hc. destruct (abs_Date y m d h mi sec ns loc Hfix Hc) as [-> _].
  rewrite (Z.div_small (m - 1)), (Z.mod_small (m - 1)) by lia.
  replace (y + 0) with y by lia. replace (m - 1 + 1) with m by lia.
  reflexivity.
Qed.

(** The fields of an instant, from its wall clock. *)
Lemma fields_of_abs t y m d h mi sec ns :
  validDate y m d -> validClock h mi sec ns ->
  abs t = encode y m d h mi sec ns ->
  Year t = y /\ Month t = m /\ Day t = d /\
  Hour_ t = h /\ Minute_ t = mi /\ Second_ t = sec /\ Nanosecond_ t = ns.
Proof.
  intros Hv (Hh & Hmi & Hs & Hns) E.
  assert (Ed : absDays t = dateToDays y m d).
  { unfold absDays, secondsPerDay. rewrite E.
    generalize (dateToDays y m d). intros D.
    change (86400 * 1000000000) with 86400000000000.
    Z.div_mod_to_equations. lia. }
  unfold Year, Month, Day. rewrite Ed, (absDate_dateToDays _ _ _ Hv). simpl.
  unfold Hour_, Minute_, Second_, Nanosecond_, absSeconds, secondsPerDay.
  rewrite E. generalize (dateToDays y m d). intros D.
  repeat split; Z.div_mod_to_equations; lia.
Qed.

(** [Date] of a calendar day and a time of day has those fields. *)
Lemma fields_Date y m d h mi sec ns loc :
  transitions loc = [] ->
  validDate y m d -> validClock h mi sec ns ->
  let x := Date y m d h mi sec ns loc in
  abs x = encode y m d h mi sec ns /\ location x = loc /\
  Year x = y /\ Month x = m /\ Day x = d /\
  Hour_ x = h /\ Minute_ x = mi /\ Second_ x = sec /\ Nanosecond_ x = ns.
Proof.
  intros Hfix Hv Hc x.
  assert (E : abs x = encode y m d h mi sec ns)
    by (apply abs_Date_valid; [exact Hfix | apply Hv | exact Hc]).
  split; [exact E|]. split; [apply location_Date|].
  exact (fields_of_abs x y m d h mi sec ns Hv Hc E).
Qed.

Lemma validClock_0 h mi : 0 <= h < 24 -> 0 <= mi < 60 -> validClock h mi 0 0.
Proof. lia. Qed.

Lemma validDate_first y m : 1 <= m <= 12 -> validDate y m 1.
Proof. intros Hm. split; [exact Hm|]. pose proof (daysIn_bounds y m Hm). lia. Qed.

End Fields.

(** ** Where the timer is set to fire *)

Section Landing.
Context `{External}.
Import GoTime GoOS.
Local Open Scope Z_scope.

(** rolloverAfter, by the first granularity that changes the name. *)
Lemma rolloverAfter_eq hook w :
  rolloverAfter hook w =
  (match firstChange (fileNamePattern hook) (nowLocal w) with
   | Some g => Sub (unitStart g (candidate g (nowLocal w))) (nowLocal w)
   | None => 0
   end, set_ticks S w).
Proof.
  unfold rolloverAfter, firstChange, granularities, nowLocal, changes.
  cbn [time_Now_Local fst find candidate unitStart].
  repeat match goal with
         | |- context [if negb ?b then _ else _] => destruct b; cbn [negb]
         end; reflexivity.
Qed.

Lemma location_Add t d : location (Add t d) = location t.
Proof. reflexivity. Qed.

Lemma abs_Add t d :
  transitions (location t) = [] -> abs (Add t d) = abs t + d.
Proof.
  intros Hfix. rewrite (abs_fixed (Add t d)), (abs_fixed t) by exact Hfix.
  unfold Add. cbn [unixNano location]. lia.
Qed.

Lemma abs_AddDate t years months days :
  transitions (location t) = [] ->
  abs (AddDate t years months days)
  = encode (Year t + years + (Month t + months - 1) / 12)
           ((Month t + months - 1) mod 12 + 1) (Day t + days)
           (Hour_ t) (Minute_ t) (Second_ t) (Nanosecond_ t)
  /\ location (AddDate t years months days) = location t.
Proof.
  intros Hfix. unfold AddDate. apply abs_Date; [exact Hfix | apply clock_fields].
Qed.

(** The start of a unit, by its fields. *)
Lemma unitStart_spec g t1 :
  transitions (location t1) = [] ->
  let t2 := unitStart g t1 in
  location t2 = location t1 /\ atStartOf g t2 /\ sameUnit g t2 t1 /\
  abs t2 = match g with
           | PerMinute => encode (Year t1) (Month t1) (Day t1) (Hour_ t1) (Minute_ t1) 0 0
           | PerHour => encode (Year t1) (Month t1) (Day t1) (Hour_ t1) 0 0 0
           | PerDay => encode (Year t1) (Month t1) (Day t1) 0 0 0 0
           | PerMonth => encode (Year t1) (Month t1) 1 0 0 0 0
           | PerYear => encode (Year t1) 1 1 0 0 0 0
           end.
Proof.
  intros Hfix.
  destruct (clock_fields t1) as [Hc _]. destruct (date_fields t1) as [Hv _].
  assert (Hm : 1 <= Month t1 <= 12) by apply Hv.
  destruct g; cbn [unitStart atStartOf sameUnit]; cbv zeta.
  - destruct (fields_Date (Year t1) (Month t1) (Day t1) (Hour_ t1) (Minute_ t1) 0 0
                (Location_ t1) Hfix Hv) as (E2 & L2 & F); [apply validClock_0; apply Hc|].
    tauto.
  - destruct (fields_Date (Year t1) (Month t1) (Day t1) (Hour_ t1) 0 0 0
                (Location_ t1) Hfix Hv) as (E2 & L2 & F); [apply validClock_0; [apply Hc|lia]|].
    tauto.
  - destruct (fields_Date (Year t1) (Month t1) (Day t1) 0 0 0 0
                (Location_ t1) Hfix Hv) as (E2 & L2 & F); [apply validClock_0; lia|].
    tauto.
  - destruct (fields_Date (Year t1) (Month t1) 1 0 0 0 0
                (Location_ t1) Hfix (validDate_first _ _ Hm)) as (E2 & L2 & F);
      [apply validClock_0; lia|].
    tauto.
  - destruct (fields_Date (Year t1) 1 1 0 0 0 0
                (Location_ t1) Hfix (validDate_first _ 1 ltac:(lia))) as (E2 & L2 & F);
      [apply validClock_0; lia|].
    tauto.
Qed.

(** A unit start is at or before the instant, less than a unit before for
    the three finest units. *)
Lemma unitStart_before g t1 :
  transitions (location t1) = [] ->
  0 <= abs t1 - abs (unitStart g t1) /\
  match g with
  | PerMinute => abs t1 - abs (unitStart g t1) < 60 * 1000000000
  | PerHour => abs t1 - abs (unitStart g t1) < 3600 * 1000000000
  | PerDay => abs t1 - abs (unitStart g t1) < 86400 * 1000000000
  | _ => True
  end.
Proof.
  intros Hfix.
  destruct (unitStart_spec g t1 Hfix) as (_ & _ & _ & E2).
  destruct (clock_fields t1) as [Hc _]. destruct (date_fields t1) as [Hv _].
  pose proof (abs_fields t1) as E1.
  assert (Hy : 0 <= dateToDays (Year t1) (Month t1) (Day t1) - daysSinceEpoch (Year t1))
    by apply (dateToDays_yday _ _ _ Hv).
  pose proof (dateToDays_day (Year t1) (Month t1) (Day t1)) as Ed.
  pose proof (dateToDays_jan1 (Year t1)) as Ej.
  destruct Hv as [_ Hd].
  destruct g; hide_calendar; (split; [|try exact I]); lia.
Qed.

Lemma nextMonth_norm Y M :
  1 <= M <= 12 ->
  Y + 0 + (M + 1 - 1) / 12 = fst (nextMonth Y M) /\
  (M + 1 - 1) mod 12 + 1 = snd (nextMonth Y M) /\
  1 <= snd (nextMonth Y M) <= 12.
Proof.
  intros HM. unfold nextMonth.
  destruct (Z.eqb_spec M 12); cbn [fst snd]; Z.div_mod_to_equations; lia.
Qed.

Lemma location_candidate g t : location (candidate g t) = location t.
Proof. destruct g; cbn [candidate]; first [reflexivity | apply location_Date]. Qed.

(** The timer is set to a later instant, at most one longest unit away. *)
Lemma unitStart_ahead g t :
  transitions (location t) = [] ->
  let t2 := unitStart g (candidate g t) in
  location t2 = location t /\
  0 < abs t2 - abs t <= unitBound g.
Proof.
  intros Hfix. cbv zeta.
  assert (Hfix' : transitions (location (candidate g t)) = [])
    by (rewrite location_candidate; exact Hfix).
  destruct (unitStart_spec g (candidate g t) Hfix') as (L2 & _ & _ & E2).
  destruct (unitStart_before g (candidate g t) Hfix') as [B1 B2].
  clear Hfix'.
  destruct (clock_fields t) as [Hc _]. destruct (date_fields t) as [Hv _].
  pose proof (abs_fields t) as E0.
  destruct g; cbn [unitBound].
  - (* minute *)
    assert (Ea : abs (candidate PerMinute t) = abs t + 60 * 1000000000) by (apply abs_Add; exact Hfix).
    split; [rewrite L2; reflexivity|].
    clear E2 L2. hide_calendar. lia.
  - (* hour *)
    assert (Ea : abs (candidate PerHour t) = abs t + 3600 * 1000000000) by (apply abs_Add; exact Hfix).
    split; [rewrite L2; reflexivity|].
    clear E2 L2. hide_calendar. lia.
  - (* day *)
    destruct (abs_AddDate t 0 0 1 Hfix) as [Ea La]. fold (candidate PerDay t) in Ea, La.
    split; [rewrite L2; exact La|].
    assert (Hm : 1 <= Month t <= 12) by apply Hv.
    replace (Year t + 0 + (Month t + 0 - 1) / 12) with (Year t) in Ea
      by (generalize dependent (Month t); intros; Z.div_mod_to_equations; lia).
    replace ((Month t + 0 - 1) mod 12 + 1) with (Month t) in Ea
      by (generalize dependent (Month t); intros; Z.div_mod_to_equations; lia).
    rewrite dateToDays_day in Ea. rewrite dateToDays_day in E0.
    clear E2 L2 La Hv. hide_calendar. lia.
  - (* month *)
    destruct (abs_AddDate t 0 1 0 Hfix) as [Ea La]. fold (candidate PerMonth t) in Ea, La.
    split; [rewrite L2; exact La|].
    set (t1 := candidate PerMonth t) in *. clearbody t1.
    assert (Hm : 1 <= Month t <= 12) by apply Hv.
    destruct (nextMonth_norm (Year t) (Month t) Hm) as (-> & -> & Hm') in Ea.
    pose proof (dateToDays_nextMonth (Year t) (Month t) Hm) as En.
    pose proof (daysIn_bounds (Year t) (Month t) Hm) as Hb.
    destruct Hv as [_ Hd].
    set (Y' := fst (nextMonth (Year t) (Month t))) in *.
    set (M' := snd (nextMonth (Year t) (Month t))) in *. clearbody Y' M'.
    pose proof (daysIn_bounds Y' M' Hm') as Hb'.
    replace (Day t + 0) with (Day t) in Ea by lia.
    destruct (Z_le_gt_dec (Day t) (daysIn Y' M')) as [Hle | Hgt].
    + (* the same day exists in the next month *)
      destruct (fields_of_abs t1 Y' M' (Day t) (Hour_ t) (Minute_ t) (Second_ t)
                  (Nanosecond_ t)) as (Ey & Em & _).
      { split; [exact Hm' | lia]. }
      { exact Hc. }
      { exact Ea. }
      rewrite Ey, Em in E2.
      rewrite dateToDays_day in E0.
      clear Ea B1 B2 L2 La. hide_calendar. lia.
    + (* the day runs over into the month after *)
      pose proof (dateToDays_nextMonth Y' M' Hm') as En'.
      assert (Hm'' : 1 <= snd (nextMonth Y' M') <= 12) by apply (nextMonth_norm Y' M' Hm').
      pose proof (daysIn_bounds (fst (nextMonth Y' M')) (snd (nextMonth Y' M')) Hm'') as Hb''.
      set (Y'' := fst (nextMonth Y' M')) in *.
      set (M'' := snd (nextMonth Y' M')) in *. clearbody Y'' M''.
      assert (Ed : dateToDays Y' M' (Day t) = dateToDays Y'' M'' (Day t - daysIn Y' M')).
      { rewrite (dateToDays_day Y' M'), (dateToDays_day Y'' M''). lia. }
      rewrite Ed in Ea.
      destruct (fields_of_abs t1 Y'' M'' (Day t - daysIn Y' M') (Hour_ t) (Minute_ t)
                  (Second_ t) (Nanosecond_ t)) as (Ey & Em & _).
      { split; [exact Hm'' | lia]. }
      { exact Hc. }
      { exact Ea. }
      rewrite Ey, Em in E2.
      rewrite dateToDays_day in E0.
      clear Ea Ed B1 B2 L2 La. hide_calendar. lia.
  - (* year *)
    destruct (abs_AddDate t 1 0 0 Hfix) as [Ea La]. fold (candidate PerYear t) in Ea, La.
    split; [rewrite L2; exact La|].
    set (t1 := candidate PerYear t) in *. clearbody t1.
    assert (Hm : 1 <= Month t <= 12) by apply Hv.
    replace (Year t + 1 + (Month t + 0 - 1) / 12) with (Year t + 1) in Ea
      by (generalize dependent (Month t); intros; Z.div_mod_to_equations; lia).
    replace ((Month t + 0 - 1) mod 12 + 1) with (Month t) in Ea
      by (generalize dependent (Month t); intros; Z.div_mod_to_equations; lia).
    replace (Day t + 0) with (Day t) in Ea by lia.
    pose proof (dateToDays_yday _ _ _ Hv) as Hy.
    pose proof (daysSinceEpoch_succ (Year t)) as Es.
    pose proof (yearLen_pos (Year t)) as Hl.
    assert (Hy1 : Year t1 = Year t + 1).
    { assert (Ex : exists m d, validDate (Year t + 1) m d /\
                dateToDays (Year t + 1) (Month t) (Day t) = dateToDays (Year t + 1) m d).
      { destruct (Z_le_gt_dec (Day t) (daysIn (Year t + 1) (Month t))) as [Hle | Hgt].
        - exists (Month t), (Day t). split; [|reflexivity].
          split; [exact Hm | destruct Hv; lia].
        - exists 3, 1. destruct Hv as [_ Hd].
          generalize dependent (Day t). generalize dependent (Month t).
          intros M HM D. unfold validDate, daysIn, dateToDays, daysBefore.
          month_cases M; destruct (isLeap (Year t)), (isLeap (Year t + 1)); simpl; lia. }
      destruct Ex as (m & d & Hv' & Ed). rewrite Ed in Ea.
      destruct (fields_of_abs t1 (Year t + 1) m d (Hour_ t) (Minute_ t) (Second_ t)
                  (Nanosecond_ t) Hv' Hc Ea) as (-> & _).
      reflexivity. }
    rewrite Hy1 in E2. rewrite dateToDays_jan1 in E2.
    clear Ea B1 B2 L2 La Hv Hy1. hide_calendar. lia.
Qed.

Lemma Sub_same_location t2 t :
  transitions (location t) = [] ->
  location t2 = location t ->
  minDuration <= abs t2 - abs t <= maxDuration ->
  Sub t2 t = abs t2 - abs t.
Proof.
  intros Hfix L. rewrite (abs_fixed t2), (abs_fixed t) by (rewrite ?L; exact Hfix).
  unfold Sub. rewrite L.
  generalize (unixNano t2) (unixNano t) (zoneOffset (location t)). intros a b c.
  replace (a + c * 1000000000 - (b + c * 1000000000)) with (a - b) by lia.
  intros B. cbv zeta.
  destruct (Z.ltb_spec maxDuration (a - b)); [lia|].
  destruct (Z.ltb_spec (a - b) minDuration); [lia|]. reflexivity.
Qed.

Lemma Add_Sub t2 t :
  transitions (location t) = [] ->
  location t2 = location t ->
  Add t (abs t2 - abs t) = t2.
Proof.
  intros Hfix L. rewrite (abs_fixed t2), (abs_fixed t) by (rewrite ?L; exact Hfix).
  rewrite L. destruct t2 as [u2 l2], t as [u l]. unfold Add. cbn in *. subst l2.
  f_equal. lia.
Qed.

Lemma duration_range g d :
  0 < d <= unitBound g -> minDuration <= d <= maxDuration.
Proof. unfold minDuration, maxDuration. destruct g; cbn [unitBound]; lia. Qed.

(** What rolloverAfter returns: zero when no granularity changes the name,
    else the way to the start of the unit one finest changing unit ahead. *)
Lemma rolloverAfter_lands hook w :
  transitions (local w) = [] ->
  let t := nowLocal w in
  let d := fst (rolloverAfter hook w) in
  match firstChange (fileNamePattern hook) t with
  | Some g =>
      0 < d <= unitBound g /\ Add t d = unitStart g (candidate g t)
  | None => d = 0
  end.
Proof.
  intros Hfix. cbv zeta. rewrite rolloverAfter_eq. cbn [fst].
  destruct (firstChange (fileNamePattern hook) (nowLocal w)) as [g|]; [|reflexivity].
  assert (Hfix' : transitions (location (nowLocal w)) = []) by exact Hfix.
  destruct (unitStart_ahead g (nowLocal w) Hfix') as [L B].
  rewrite (Sub_same_location _ _ Hfix' L (duration_range g _ B)).
  split; [exact B | exact (Add_Sub _ _ Hfix' L)].
Qed.

Lemma rolloverAfter_world hook w : snd (rolloverAfter hook w) = set_ticks S w.
Proof. rewrite rolloverAfter_eq. reflexivity. Qed.

Lemma firstChange_None pattern t :
  firstChange pattern t = None <-> staticAt pattern t.
Proof.
  unfold firstChange, granularities, staticAt, changes. cbn [find candidate].
  split.
  - repeat match goal with
           | |- context [String.eqb ?a ?b] => destruct (String.eqb_spec a b)
           end; cbn [negb]; try discriminate. intros _. repeat split; congruence.
  - intros (E1 & E2 & E3 & E4 & E5). rewrite E1, E2, E3, E4, E5.
    rewrite String.eqb_refl. reflexivity.
Qed.

End Landing.

(** ** What the system calls leave alone *)

Section Frames.

Lemma sameClock_refl w : sameClock w w.
Proof. repeat split. Qed.

Lemma sameClock_trans w1 w2 w3 :
  sameClock w1 w2 -> sameClock w2 w3 -> sameClock w1 w3.
Proof. unfold sameClock. intros (?&?&?) (?&?&?). repeat split; congruence. Qed.

Lemma namesKept_refl w : namesKept w w.
Proof. unfold namesKept. reflexivity. Qed.

Lemma namesKept_trans w1 w2 w3 :
  namesKept w1 w2 -> namesKept w2 w3 -> namesKept w1 w3.
Proof. unfold namesKept. intros ? ?. etrans; eassumption. Qed.

Lemma syscall_frame w :
  sameClock w (snd (syscall w)) /\ names (snd (syscall w)) = names w /\
  dirs (snd (syscall w)) = dirs w /\ inodes (snd (syscall w)) = inodes w /\
  fds (snd (syscall w)) = fds w /\ logged (snd (syscall w)) = logged w.
Proof. unfold syscall. destruct (faults w); repeat split. Qed.

End Frames.

Ltac syscall_step w :=
  let f := fresh "fault" in let w' := fresh "w" in
  let Hc := fresh "Hc" in let Hn := fresh "Hn" in
  let Hd := fresh "Hd" in let Hi := fresh "Hi" in
  let Hf := fresh "Hf" in let Hl := fresh "Hl" in
  pose proof (syscall_frame w) as (Hc & Hn & Hd & Hi & Hf & Hl);
  destruct (syscall w) as [f w']; cbn [snd] in Hc, Hn, Hd, Hi, Hf, Hl.

Section CallFrames.
Context `{External}.

Lemma log_Printf_frame msg w :
  sameClock w (log_Printf msg w) /\ names (log_Printf msg w) = names w.
Proof. repeat split. Qed.

Lemma os_MkdirAll_frame path perm w :
  sameClock w (snd (os_MkdirAll path perm w)) /\
  names (snd (os_MkdirAll path perm w)) = names w /\
  inodes (snd (os_MkdirAll path perm w)) = inodes w /\
  fds (snd (os_MkdirAll path perm w)) = fds w.
Proof.
  unfold os_MkdirAll. syscall_step w.
  destruct fault; [cbn; tauto|].
  destruct (existsb _ _); cbn; tauto.
Qed.

Lemma os_OpenFile_frame name flag perm w :
  sameClock w (snd (os_OpenFile name flag perm w)) /\
  namesKept w (snd (os_OpenFile name flag perm w)).
Proof.
  unfold os_OpenFile, namesKept. syscall_step w. rewrite <- Hn.
  destruct fault; [cbn; split; [tauto | reflexivity]|].
  destruct (_ && _); [cbn; split; [tauto | reflexivity]|].
  destruct (names w0 !! name) eqn:E.
  - destruct (_ && _); [cbn; split; [tauto | reflexivity]|].
    destruct (_ && _); cbn; (split; [tauto | reflexivity]).
  - destruct (_ && _); cbn; (split; [tauto|]); [|reflexivity].
    apply insert_subseteq. exact E.
Qed.

Lemma File_Write_frame f b w :
  sameClock w (snd (File_Write f b w)) /\
  names (snd (File_Write f b w)) = names w.
Proof.
  unfold File_Write. syscall_step w.
  destruct fault; [cbn; tauto|].
  destruct (fds w0 !! fd f) as [o|]; [|cbn; tauto].
  destruct (negb (of_open o)); [cbn; tauto|].
  destruct (negb (writable (of_flag o))); cbn; tauto.
Qed.

Lemma File_Close_frame f w :
  sameClock w (snd (File_Close f w)) /\
  names (snd (File_Close f w)) = names w.
Proof.
  unfold File_Close. syscall_step w.
  destruct (fds w0 !! fd f) as [o|]; [|cbn; tauto].
  destruct (negb (of_open o)); [cbn; tauto|].
  destruct fault; cbn; tauto.
Qed.

Lemma os_Stat_frame name w :
  sameClock w (snd (os_Stat name w)) /\ names (snd (os_Stat name w)) = names w.
Proof.
  unfold os_Stat. syscall_step w.
  destruct fault; [cbn; tauto|]. destruct (_ || _); cbn; tauto.
Qed.

Lemma io_Copy_frame dst src w :
  sameClock w (snd (io_Copy dst src w)) /\
  names (snd (io_Copy dst src w)) = names w.
Proof.
  unfold io_Copy. syscall_step w.
  destruct fault; [cbn; tauto|].
  destruct (fds w0 !! fd src) as [o|]; [|cbn; tauto].
  destruct (negb (of_open o)); cbn; tauto.
Qed.

End CallFrames.

(** ** The hook: rollover, constructor and timer *)

Section Hooks.
Context `{External}.
Local Open Scope Z_scope.

Lemma rolloverAfter_nextDuration hook w :
  rolloverAfter hook w = (nextDuration (fileNamePattern hook) (nowLocal w), set_ticks S w).
Proof. apply rolloverAfter_eq. Qed.

Lemma nextDuration_spec pattern t :
  match firstChange pattern t with
  | Some g =>
      transitions (location t) = [] -> 0 < nextDuration pattern t <= unitBound g
  | None => nextDuration pattern t = 0
  end.
Proof.
  unfold nextDuration.
  destruct (firstChange pattern t) as [g|]; [|reflexivity].
  intros Hfix. destruct (unitStart_ahead g t Hfix) as [L B].
  rewrite (Sub_same_location _ _ Hfix L (duration_range g _ B)). exact B.
Qed.

Lemma nowLocal_later w w1 :
  clock w1 = clock w -> ticks w1 = S (ticks w) -> local w1 = local w ->
  nowLocal w1 = laterLocal 1 w.
Proof.
  intros Hc Ht Hl. unfold nowLocal, laterLocal, time_Now_Local. cbn [fst].
  rewrite Hc, Ht, Hl, Nat.add_1_r. reflexivity.
Qed.

(** rolloverFile reads the clock once and leaves the rest of the hook alone. *)
Lemma rolloverFile_frame hook w :
  let '(_, hook', w') := rolloverFile hook w in
  clock w' = clock w /\ ticks w' = S (ticks w) /\ local w' = local w /\
  fileNamePattern hook' = fileNamePattern hook /\ timer hook' = timer hook /\
  queue hook' = queue hook /\ formatter hook' = formatter hook /\
  levels hook' = levels hook /\ id hook' = id hook.
Proof.
  unfold rolloverFile.
  set (old := match file hook with
              | Some oldFile => _
              | None => _ end).
  assert (Hold : sameClock w (snd old)).
  { unfold old. destruct (file hook) as [f|]; [|apply sameClock_refl].
    pose proof (File_Close_frame f w) as [Hc _].
    destruct (File_Close f w) as [[e|] w1]; cbn in *; exact Hc. }
  destruct old as [oldFileName w1]. cbn [snd] in Hold.
  cbn [time_Now_Local].
  set (newFileName := if String.eqb _ _ then _ else _). clearbody newFileName.
  pose proof (os_MkdirAll_frame (Dir newFileName) (Z.lor ModeDir 493) (set_ticks S w1))
    as (Hm & _).
  destruct (os_MkdirAll _ _ _) as [[e|] w2]; cbn [snd] in Hm.
  - destruct Hold as (?&?&?), Hm as (?&?&?). cbn in *. repeat split; congruence.
  - pose proof (os_OpenFile_frame newFileName appendCreateWronly 436 w2) as (Ho & _).
    destruct (os_OpenFile _ _ _ _) as [[f|e] w3]; cbn [snd] in Ho;
      destruct Hold as (?&?&?), Hm as (?&?&?), Ho as (?&?&?); cbn in *;
      repeat split; congruence.
Qed.

(** The name rolloverFile returns, and the handle it leaves. *)
Lemma rolloverFile_result hook w :
  let '(oldFileName, err, hook', w') := rolloverFile hook w in
  oldFileName = match file hook with Some f => Name f | None => EmptyString end /\
  match err with
  | Some _ => file hook' = None
  | None => exists f, file hook' = Some f
  end.
Proof.
  unfold rolloverFile.
  set (old := match file hook with
              | Some oldFile => _
              | None => _ end).
  assert (Hold : fst old = match file hook with Some f => Name f | None => EmptyString end).
  { unfold old. destruct (file hook) as [f|]; [|reflexivity].
    destruct (File_Close f w) as [[e|] w1]; reflexivity. }
  destruct old as [oldFileName w1]. cbn [fst] in Hold.
  cbn [time_Now_Local].
  set (newFileName := if String.eqb _ _ then _ else _). clearbody newFileName.
  destruct (os_MkdirAll _ _ _) as [[e|] w2].
  - split; [exact Hold | reflexivity].
  - destruct (os_OpenFile _ _ _ _) as [[f|e] w3].
    + split; [exact Hold | exists f; reflexivity].
    + split; [exact Hold | reflexivity].
Qed.

(** The constructors: the error is nil, whatever rolloverFile returned; the
    failure of rolloverFile is logged; the timer is armed exactly when the
    next duration is positive. *)
Lemma newHook_spec i lv fm pattern w :
  let '(_, err0, hook1, w1) :=
    rolloverFile (mkHook i lv fm pattern EmptyString None None []) w in
  let '(hook, err, w') := newHook i lv fm pattern w in
  let d := nextDuration pattern (laterLocal 1 w) in
  err = None /\ file hook = file hook1 /\ fileNamePattern hook = pattern /\
  queue hook = [] /\ formatter hook = fm /\
  timer hook = (if 0 <? d then Some (Armed d) else None) /\
  logged w' = logged w1 ++
              match err0 with
              | Some e => ["Error on creating new file: " +:+ Error e +:+ nl]
              | None => []
              end.
Proof.
  unfold newHook.
  pose proof (rolloverFile_frame (mkHook i lv fm pattern EmptyString None None []) w) as F.
  destruct (rolloverFile _ w) as [[[n err0] hook1] w1].
  destruct F as (Hc & Ht & Hl & Hp & Htm & Hq & Hf & _). cbn in Hp, Htm, Hq, Hf.
  set (w2 := match err0 with Some e => _ | None => w1 end).
  assert (Hw2 : clock w2 = clock w /\ ticks w2 = S (ticks w) /\ local w2 = local w /\
                logged w2 = logged w1 ++
                  match err0 with
                  | Some e => ["Error on creating new file: " +:+ Error e +:+ nl]
                  | None => []
                  end).
  { unfold w2. destruct err0; cbn; rewrite ?app_nil_r; tauto. }
  clearbody w2. destruct Hw2 as (Hc2 & Ht2 & Hl2 & Hlog).
  rewrite rolloverAfter_nextDuration, Hp, (nowLocal_later w w2 Hc2 Ht2 Hl2).
  cbv zeta.
  destruct (0 <? nextDuration pattern (laterLocal 1 w)); cbn; tauto.
Qed.

(** resetTimer: with a timer to reset it returns, the timer armed exactly when
    the next duration is positive and stopped otherwise; the old file name
    goes to an archive goroutine when there is one. *)
Lemma resetTimer_spec hook w tm :
  timer hook = Some tm ->
  let '(oldFileName, err0, hook1, w1) := rolloverFile hook w in
  let d := nextDuration (fileNamePattern hook) (laterLocal 1 w) in
  exists hook' w',
    resetTimer hook w =
      Some (hook', w', if String.eqb oldFileName "" then [] else [oldFileName]) /\
    file hook' = file hook1 /\ fileNamePattern hook' = fileNamePattern hook /\
    queue hook' = queue hook /\
    timer hook' = Some (if 0 <? d then Armed d else Stopped).
Proof.
  intros Htm. unfold resetTimer.
  pose proof (rolloverFile_frame hook w) as F.
  destruct (rolloverFile hook w) as [[[n err0] hook1] w1].
  destruct F as (Hc & Ht & Hl & Hp & Htm1 & Hq & _).
  set (w2 := match err0 with Some e => _ | None => w1 end).
  assert (Hw2 : clock w2 = clock w /\ ticks w2 = S (ticks w) /\ local w2 = local w).
  { unfold w2. destruct err0; cbn; tauto. }
  clearbody w2. destruct Hw2 as (Hc2 & Ht2 & Hl2).
  rewrite rolloverAfter_nextDuration, Hp, (nowLocal_later w w2 Hc2 Ht2 Hl2).
  rewrite Htm1, Htm. cbv zeta.
  destruct (0 <? nextDuration (fileNamePattern hook) (laterLocal 1 w));
    eexists _, _; (split; [reflexivity|]); cbn; tauto.
Qed.

End Hooks.

(** ** The timer loop *)

Section TimerFacts.
Context `{External}.

Lemma write_fs_frame hook entry w :
  let '(_, hook', _) := FsrollHook.write hook entry w in
  timer hook' = timer hook /\ queue hook' = queue hook /\
  fileNamePattern hook' = fileNamePattern hook.
Proof.
  unfold FsrollHook.write, formatAndWrite.
  destruct (file hook) as [f|]; [|tauto].
  destruct (os_Stat _ _) as [err w1].
  destruct (match err with Some e => IsNotExist e | None => false end).
  - destruct (os_MkdirAll _ _ _) as [[e|] w2]; [tauto|].
    destruct (os_OpenFile _ _ _ _) as [[f'|e] w3]; [|tauto].
    cbn. destruct (formatter hook entry); [|tauto].
    destruct (File_Write _ _ _) as [[n [e|]] w4]; tauto.
  - destruct (formatter hook entry); [|tauto].
    destruct (File_Write _ _ _) as [[n [e|]] w4]; tauto.
Qed.

Lemma write_tb_frame hook entry w :
  let '(_, hook', _) := TimeBasedRollingFileHook.write hook entry w in hook' = hook.
Proof.
  unfold TimeBasedRollingFileHook.write, formatAndWrite.
  destruct (file hook) as [f|]; [|reflexivity].
  destruct (formatter hook entry); [|reflexivity].
  destruct (File_Write _ _ _) as [[n [e|]] w4]; reflexivity.
Qed.

Lemma keepsTimer_fs : keepsTimer FsrollHook.writeEntry_iter.
Proof.
  intros hook w. unfold FsrollHook.writeEntry_iter.
  destruct (queue hook) as [|entry rest]; [reflexivity|].
  pose proof (write_fs_frame (set_queue rest hook) entry w) as F.
  destruct (FsrollHook.write _ _ _) as [[[e|] hook'] w']; cbn; apply F.
Qed.

Lemma keepsTimer_tb : keepsTimer TimeBasedRollingFileHook.writeEntry_iter.
Proof.
  intros hook w. unfold TimeBasedRollingFileHook.writeEntry_iter.
  destruct (queue hook) as [|entry rest]; [reflexivity|].
  pose proof (write_tb_frame (set_queue rest hook) entry w) as F.
  destruct (TimeBasedRollingFileHook.write _ _ _) as [[[e|] hook'] w']; cbn;
    rewrite F; reflexivity.
Qed.

Lemma keepsTimer_of_isWriteEntry iter : isWriteEntry iter -> keepsTimer iter.
Proof. intros [-> | ->]; [apply keepsTimer_fs | apply keepsTimer_tb]. Qed.

(** A timer that is not armed is never armed again: nothing but the timer's
    own function arms it. *)
Lemma unarmed_step iter s ev :
  keepsTimer iter ->
  (forall d, timer (sys_hook s) <> Some (Armed d)) ->
  timer (sys_hook (step iter s ev)) = timer (sys_hook s) /\
  (ev = EvTimer -> step iter s ev = s).
Proof.
  intros K Hun. destruct ev; cbn [step].
  - unfold Fire. destruct (_ <? _)%nat; cbn; split; [reflexivity | discriminate |
      reflexivity | discriminate].
  - split; [|discriminate].
    destruct (serializer s); [|reflexivity].
    specialize (K (sys_hook s) (sys_world s)).
    destruct (iter _ _) as [[task hook'] w']. exact K.
  - destruct (timer (sys_hook s)) as [[d|]|] eqn:E; [|tauto..].
    exfalso. eapply Hun. reflexivity.
  - split; [|discriminate]. destruct (archiving s); reflexivity.
  - split; [reflexivity | discriminate].
Qed.

Lemma unarmed_forever iter evs s :
  keepsTimer iter ->
  (forall d, timer (sys_hook s) <> Some (Armed d)) ->
  timer (sys_hook (run iter s evs)) = timer (sys_hook s).
Proof.
  intros K. revert s. unfold run.
  induction evs as [|ev evs IH]; intros s Hun; [reflexivity|].
  cbn [fold_left].
  destruct (unarmed_step iter s ev K Hun) as [E _].
  rewrite IH; [exact E|]. rewrite E. exact Hun.
Qed.

End TimerFacts.

(** ** Where the rollover lands, in a zone without changes *)

Section Remaining.
Context `{External}.
Import GoTime GoOS.
Local Open Scope Z_scope.

(** In a zone without changes the wall clock names the instant. *)
Lemma Time_eq_fixed a b :
  transitions (location b) = [] -> location a = location b -> abs a = abs b -> a = b.
Proof.
  intros Hfix L. rewrite (abs_fixed a), (abs_fixed b) by (rewrite ?L; exact Hfix).
  rewrite L. destruct a as [ua la], b as [ub lb]. cbn in *. subst la.
  intros E. f_equal. lia.
Qed.

(** Date carries what the time of day holds too much over into the day. *)
Lemma abs_Date_carry y m d h mi loc :
  transitions loc = [] ->
  abs (Date y m d h mi 0 0 loc)
  = encode (y + (m - 1) / 12) ((m - 1) mod 12 + 1) d h mi 0 0.
Proof.
  intros Hfix.
  rewrite abs_fixed by (rewrite location_Date; exact Hfix).
  rewrite location_Date.
  unfold Date, norm, secondsPerDay. cbv beta iota zeta.
  change (0 / 1000000000) with 0. change (0 mod 1000000000) with 0.
  rewrite ?Z.add_0_r. change (0 / 60) with 0. change (0 mod 60) with 0.
  rewrite ?Z.add_0_r.
  rewrite (dateToDays_day _ _ (d + _)), (dateToDays_day _ _ d).
  set (D := dateToDays _ _ 1). clearbody D.
  match goal with
  | |- context [lookup loc ?u] =>
      pose proof (Date_fixed_offset loc u Hfix) as E;
      destruct (lookup loc u) as [[offset start] end_]
  end.
  cbv beta iota zeta in E |- *. rewrite E. cbn [unixNano].
  Z.div_mod_to_equations. lia.
Qed.

Lemma location_unitStart g t1 : location (unitStart g t1) = location t1.
Proof. destruct g; apply location_Date. Qed.

Lemma location_nextUnitStart g t : location (nextUnitStart g t) = location t.
Proof. destruct g; apply location_Date. Qed.

(** One year on, the year is the next one, whatever the day. *)
Lemma Year_next_year t :
  transitions (location t) = [] -> Year (AddDate t 1 0 0) = Year t + 1.
Proof.
  intros Hfix.
  destruct (abs_AddDate t 1 0 0 Hfix) as [Ea La].
  destruct (clock_fields t) as [Hc _]. destruct (date_fields t) as [Hv _].
  set (t1 := AddDate t 1 0 0) in *. clearbody t1.
  assert (Hm : 1 <= Month t <= 12) by apply Hv.
  replace (Year t + 1 + (Month t + 0 - 1) / 12) with (Year t + 1) in Ea
    by (generalize dependent (Month t); intros; Z.div_mod_to_equations; lia).
  replace ((Month t + 0 - 1) mod 12 + 1) with (Month t) in Ea
    by (generalize dependent (Month t); intros; Z.div_mod_to_equations; lia).
  replace (Day t + 0) with (Day t) in Ea by lia.
  assert (Ex : exists m d, validDate (Year t + 1) m d /\
              dateToDays (Year t + 1) (Month t) (Day t) = dateToDays (Year t + 1) m d).
  { destruct (Z_le_gt_dec (Day t) (daysIn (Year t + 1) (Month t))) as [Hle | Hgt].
    - exists (Month t), (Day t). split; [|reflexivity].
      split; [exact Hm | destruct Hv; lia].
    - exists 3, 1. destruct Hv as [_ Hd].
      generalize dependent (Day t). generalize dependent (Month t).
      intros M HM D. unfold validDate, daysIn, dateToDays, daysBefore.
      month_cases M; destruct (isLeap (Year t)), (isLeap (Year t + 1)); simpl; lia. }
  destruct Ex as (m & d & Hv' & Ed). rewrite Ed in Ea.
  destruct (fields_of_abs t1 (Year t + 1) m d (Hour_ t) (Minute_ t) (Second_ t)
              (Nanosecond_ t) Hv' Hc Ea) as (-> & _).
  reflexivity.
Qed.

(** One month on from a day that the next month has, the month is the next
    one; from a later day it is the one after. *)
Lemma Month_next_month t :
  transitions (location t) = [] ->
  let Y' := fst (nextMonth (Year t) (Month t)) in
  let M' := snd (nextMonth (Year t) (Month t)) in
  (Day t <= daysIn Y' M' ->
   Year (AddDate t 0 1 0) = Y' /\ Month (AddDate t 0 1 0) = M') /\
  (daysIn Y' M' < Day t ->
   Year (AddDate t 0 1 0) = fst (nextMonth Y' M') /\
   Month (AddDate t 0 1 0) = snd (nextMonth Y' M')).
Proof.
  intros Hfix. cbv zeta.
  destruct (abs_AddDate t 0 1 0 Hfix) as [Ea La].
  destruct (clock_fields t) as [Hc _]. destruct (date_fields t) as [Hv _].
  set (t1 := AddDate t 0 1 0) in *. clearbody t1.
  assert (Hm : 1 <= Month t <= 12) by apply Hv.
  destruct (nextMonth_norm (Year t) (Month t) Hm) as (-> & -> & Hm') in Ea.
  pose proof (daysIn_bounds (Year t) (Month t) Hm) as Hb.
  destruct Hv as [_ Hd].
  set (Y' := fst (nextMonth (Year t) (Month t))) in *.
  set (M' := snd (nextMonth (Year t) (Month t))) in *. clearbody Y' M'.
  pose proof (daysIn_bounds Y' M' Hm') as Hb'.
  replace (Day t + 0) with (Day t) in Ea by lia.
  split.
  - intros Hle.
    destruct (fields_of_abs t1 Y' M' (Day t) (Hour_ t) (Minute_ t) (Second_ t)
                (Nanosecond_ t)) as (Ey & Em & _).
    { split; [exact Hm' | lia]. }
    { exact Hc. }
    { exact Ea. }
    split; assumption.
  - intros Hgt.
    pose proof (dateToDays_nextMonth Y' M' Hm') as En'.
    assert (Hm'' : 1 <= snd (nextMonth Y' M') <= 12) by apply (nextMonth_norm Y' M' Hm').
    pose proof (daysIn_bounds (fst (nextMonth Y' M')) (snd (nextMonth Y' M')) Hm'') as Hb''.
    set (Y'' := fst (nextMonth Y' M')) in *.
    set (M'' := snd (nextMonth Y' M')) in *. clearbody Y'' M''.
    assert (Ed : dateToDays Y' M' (Day t) = dateToDays Y'' M'' (Day t - daysIn Y' M')).
    { rewrite (dateToDays_day Y' M'), (dateToDays_day Y'' M''). lia. }
    rewrite Ed in Ea.
    destruct (fields_of_abs t1 Y'' M'' (Day t - daysIn Y' M') (Hour_ t) (Minute_ t)
                (Second_ t) (Nanosecond_ t)) as (Ey & Em & _).
    { split; [exact Hm'' | lia]. }
    { exact Hc. }
    { exact Ea. }
    split; assumption.
Qed.

(** Date carries a thirteenth and a fourteenth month over into the next
    year. *)
Lemma Date_month_after Y M d h mi sec ns loc :
  1 <= M <= 12 ->
  Date Y (M + 1) d h mi sec ns loc
  = Date (fst (nextMonth Y M)) (snd (nextMonth Y M)) d h mi sec ns loc.
Proof.
  intros HM. unfold Date.
  assert (E : norm Y (M + 1 - 1) 12
              = norm (fst (nextMonth Y M)) (snd (nextMonth Y M) - 1) 12).
  { unfold norm, nextMonth. destruct (Z.eqb_spec M 12); cbn [fst snd];
      apply pair_equal_spec; split; Z.div_mod_to_equations; lia. }
  rewrite E. reflexivity.
Qed.

Lemma Date_month_after_next Y M d h mi sec ns loc :
  1 <= M <= 12 ->
  Date Y (M + 2) d h mi sec ns loc
  = Date (fst (nextMonth (fst (nextMonth Y M)) (snd (nextMonth Y M))))
         (snd (nextMonth (fst (nextMonth Y M)) (snd (nextMonth Y M))))
         d h mi sec ns loc.
Proof.
  intros HM. unfold Date.
  assert (E : norm Y (M + 2 - 1) 12
              = norm (fst (nextMonth (fst (nextMonth Y M)) (snd (nextMonth Y M))))
                     (snd (nextMonth (fst (nextMonth Y M)) (snd (nextMonth Y M))) - 1) 12).
  { unfold norm, nextMonth.
    destruct (Z.eqb_spec M 12) as [->|HM']; cbn [fst snd].
    { change (1 =? 12) with false. cbn [fst snd].
      apply pair_equal_spec; split; Z.div_mod_to_equations; lia. }
    destruct (Z.eqb_spec (M + 1) 12); cbn [fst snd];
      apply pair_equal_spec; split; Z.div_mod_to_equations; lia. }
  rewrite E. reflexivity.
Qed.

Lemma location_AddDate t y m d : location (AddDate t y m d) = location t.
Proof. apply location_Date. Qed.

(** The start of the unit one unit ahead is the start of the next unit; for
    a month, when the next month has the day of the clock. *)
Lemma unitStart_next g t :
  transitions (location t) = [] ->
  (g = PerMonth -> Day t <= daysOfNextMonth t) ->
  unitStart g (candidate g t) = nextUnitStart g t.
Proof.
  intros Hfix Hday.
  destruct (clock_fields t) as [Hc _]. destruct (date_fields t) as [Hv _].
  assert (Hm : 1 <= Month t <= 12) by apply Hv.
  destruct g.
  - (* minute *)
    apply Time_eq_fixed;
      [rewrite location_nextUnitStart; exact Hfix
      |rewrite location_unitStart, location_nextUnitStart; reflexivity|].
    assert (Hfix' : transitions (location (candidate PerMinute t)) = []) by exact Hfix.
    destruct (unitStart_spec PerMinute (candidate PerMinute t) Hfix') as (_ & _ & _ & E2).
    destruct (unitStart_before PerMinute (candidate PerMinute t) Hfix') as [B1 B2].
    assert (Ea : abs (candidate PerMinute t) = abs t + 60 * 1000000000)
      by (apply abs_Add; exact Hfix).
    pose proof (abs_fields t) as E0.
    cbn [nextUnitStart]. unfold Location_. rewrite (abs_Date_carry _ _ _ _ _ _ Hfix).
    replace (Year t + (Month t - 1) / 12) with (Year t)
      by (generalize dependent (Month t); intros; Z.div_mod_to_equations; lia).
    replace ((Month t - 1) mod 12 + 1) with (Month t)
      by (generalize dependent (Month t); intros; Z.div_mod_to_equations; lia).
    set (u := unitStart PerMinute (candidate PerMinute t)) in *. clearbody u.
    set (c := candidate PerMinute t) in *. clearbody c.
    assert (M2 : exists k, abs u = k * (60 * 1000000000)).
    { rewrite E2. exists (dateToDays (Year c) (Month c) (Day c) * 1440 + Hour_ c * 60
                          + Minute_ c). lia. }
    destruct M2 as [k M2]. clear E2 Hfix'.
    hide_calendar. nia.
  - (* hour *)
    apply Time_eq_fixed;
      [rewrite location_nextUnitStart; exact Hfix
      |rewrite location_unitStart, location_nextUnitStart; reflexivity|].
    assert (Hfix' : transitions (location (candidate PerHour t)) = []) by exact Hfix.
    destruct (unitStart_spec PerHour (candidate PerHour t) Hfix') as (_ & _ & _ & E2).
    destruct (unitStart_before PerHour (candidate PerHour t) Hfix') as [B1 B2].
    assert (Ea : abs (candidate PerHour t) = abs t + 3600 * 1000000000)
      by (apply abs_Add; exact Hfix).
    pose proof (abs_fields t) as E0.
    cbn [nextUnitStart]. unfold Location_. rewrite (abs_Date_carry _ _ _ _ _ _ Hfix).
    replace (Year t + (Month t - 1) / 12) with (Year t)
      by (generalize dependent (Month t); intros; Z.div_mod_to_equations; lia).
    replace ((Month t - 1) mod 12 + 1) with (Month t)
      by (generalize dependent (Month t); intros; Z.div_mod_to_equations; lia).
    set (u := unitStart PerHour (candidate PerHour t)) in *. clearbody u.
    set (c := candidate PerHour t) in *. clearbody c.
    assert (M2 : exists k, abs u = k * (3600 * 1000000000)).
    { rewrite E2. exists (dateToDays (Year c) (Month c) (Day c) * 24 + Hour_ c). lia. }
    destruct M2 as [k M2]. clear E2 Hfix'.
    hide_calendar. nia.
  - (* day *)
    assert (Hfix' : transitions (location (candidate PerDay t)) = [])
      by (rewrite location_candidate; exact Hfix).
    apply Time_eq_fixed;
      [rewrite location_nextUnitStart; exact Hfix
      |rewrite location_unitStart, location_nextUnitStart; apply location_candidate|].
    destruct (unitStart_spec PerDay (candidate PerDay t) Hfix') as (_ & _ & _ & E2).
    destruct (unitStart_before PerDay (candidate PerDay t) Hfix') as [B1 B2].
    destruct (abs_AddDate t 0 0 1 Hfix) as [Ea _]. fold (candidate PerDay t) in Ea.
    replace (Year t + 0 + (Month t + 0 - 1) / 12) with (Year t) in Ea
      by (generalize dependent (Month t); intros; Z.div_mod_to_equations; lia).
    replace ((Month t + 0 - 1) mod 12 + 1) with (Month t) in Ea
      by (generalize dependent (Month t); intros; Z.div_mod_to_equations; lia).
    cbn [nextUnitStart]. unfold Location_. rewrite (abs_Date_carry _ _ _ _ _ _ Hfix).
    replace (Year t + (Month t - 1) / 12) with (Year t)
      by (generalize dependent (Month t); intros; Z.div_mod_to_equations; lia).
    replace ((Month t - 1) mod 12 + 1) with (Month t)
      by (generalize dependent (Month t); intros; Z.div_mod_to_equations; lia).
    set (u := unitStart PerDay (candidate PerDay t)) in *. clearbody u.
    set (c := candidate PerDay t) in *. clearbody c.
    assert (M2 : exists k, abs u = k * (86400 * 1000000000)).
    { rewrite E2. exists (dateToDays (Year c) (Month c) (Day c)). lia. }
    destruct M2 as [k M2]. clear E2 Hfix'.
    hide_calendar. nia.
  - (* month *)
    specialize (Hday eq_refl). unfold daysOfNextMonth in Hday.
    destruct (Month_next_month t Hfix) as [Hn _]. cbv zeta in Hn.
    destruct (nextMonth (Year t) (Month t)) as [Y' M'] eqn:En. cbn [fst snd] in Hn.
    destruct (Hn Hday) as [Ey Em].
    cbn [unitStart candidate nextUnitStart]. unfold Location_.
    rewrite Ey, Em, location_AddDate, (Date_month_after _ _ _ _ _ _ _ _ Hm), En.
    reflexivity.
  - (* year *)
    cbn [unitStart candidate nextUnitStart]. unfold Location_.
    rewrite (Year_next_year t Hfix), location_AddDate. reflexivity.
Qed.

(** From a day the next month lacks, the month found is the one after. *)
Lemma unitStart_month_skipped t :
  transitions (location t) = [] ->
  daysOfNextMonth t < Day t ->
  unitStart PerMonth (candidate PerMonth t) = monthAfterNext t.
Proof.
  intros Hfix Hday. unfold daysOfNextMonth in Hday.
  destruct (date_fields t) as [Hv _].
  assert (Hm : 1 <= Month t <= 12) by apply Hv.
  destruct (Month_next_month t Hfix) as [_ Hn]. cbv zeta in Hn.
  unfold monthAfterNext. rewrite (Date_month_after_next _ _ _ _ _ _ _ _ Hm).
  destruct (nextMonth (Year t) (Month t)) as [Y' M'] eqn:En. cbn [fst snd] in Hn |- *.
  destruct (Hn Hday) as [Ey Em].
  cbn [unitStart candidate]. unfold Location_.
  rewrite Ey, Em, location_AddDate. reflexivity.
Qed.

End Remaining.

(** C1. rolloverAfter tests minute, hour, day, month and year in this order
    and takes the first granularity at which the rendered name changes; when
    none changes the name the result is zero.  In a local zone whose offset
    never changes the duration it returns is positive and at most one unit
    long, and it ends at the first instant of the next unit: the next
    minute, hour, day or year, and the next month when that month has the
    day of the clock; from a later day it ends at the first instant of the
    month after next.  With the clock at 2015-12-31 23:59:30 UTC and a
    minute pattern the result is 30s, ending at 2016-01-01 00:00:00; from
    2015-01-30 12:00 UTC a monthly pattern is given 29 days and 12 hours, to
    March 1.  Where the offset of the zone changes the result may end
    elsewhere.  In New York at 01:59:30 on 2015-11-01, half a minute before
    the clocks go back to 01:00:00, a minute pattern gives minus 59m30s: it
    ends at 05:00:00 UTC, an hour before the instant 06:00:00 UTC at which
    the next minute begins.  In Sao Paulo at noon of 2018-11-03 a day pattern
    gives 11h: it ends at 23:00:00 of the same day, an hour before the next
    day begins. *)
Theorem C1_rolloverAfter_lands_on_the_next_unit :
  (forall (lib : External) (hook : Hook) (w : World),
     let t := nowLocal w in
     fst (rolloverAfter hook w) =
     match firstChange (fileNamePattern hook) t with
     | Some g => Sub (unitStart g (candidate g t)) t
     | None => 0%Z
     end)
  /\ (forall (lib : External) (hook : Hook) (w : World) (g : Granularity),
        transitions (local w) = [] ->
        firstChange (fileNamePattern hook) (nowLocal w) = Some g ->
        let t := nowLocal w in
        let d := fst (rolloverAfter hook w) in
        (0 < d <= unitBound g)%Z /\
        atStartOf g (Add t d) /\ sameUnit g (Add t d) (candidate g t) /\
        ((g = PerMonth -> (Day t <= daysOfNextMonth t)%Z) ->
         Add t d = nextUnitStart g t) /\
        (g = PerMonth -> (daysOfNextMonth t < Day t)%Z ->
         Add t d = monthAfterNext t))
  /\ (let w := quietWorld newYearsEve in
      @firstChange exampleLib minutePattern (nowLocal w) = Some PerMinute /\
      fst (@rolloverAfter exampleLib (freshHook minutePattern) w) = (30 * Second)%Z /\
      Add (nowLocal w) (30 * Second)%Z = Date 2016 1 1 0 0 0 0 UTC)
  /\ (let w := quietWorld endOfJanuary in
      let d := fst (@rolloverAfter exampleLib (freshHook monthPattern) w) in
      @firstChange exampleLib monthPattern (nowLocal w) = Some PerMonth /\
      d = (29 * 24 * Hour + 12 * Hour)%Z /\
      Add (nowLocal w) d = Date 2015 3 1 0 0 0 0 UTC)
  /\ (let w := zoneWorld newYork fallBack in
      let t := nowLocal w in
      let d := fst (@rolloverAfter exampleLib (freshHook minutePattern) w) in
      let next := In (Date 2015 11 1 6 0 0 0 UTC) newYork in
      (Day t, Hour_ t, Minute_ t, Second_ t) = (1, 1, 59, 30)%Z /\
      @firstChange exampleLib minutePattern t = Some PerMinute /\
      d = (- (59 * Minute + 30 * Second))%Z /\
      Add t d = In (Date 2015 11 1 5 0 0 0 UTC) newYork /\
      (Day next, Hour_ next, Minute_ next, Second_ next) = (1, 1, 0, 0)%Z /\
      Sub next t = (30 * Second)%Z)
  /\ (let w := zoneWorld saoPaulo noonBeforeTheSkip in
      let t := nowLocal w in
      let d := fst (@rolloverAfter exampleLib (freshHook dayPattern) w) in
      let next := In (Date 2018 11 4 3 0 0 0 UTC) saoPaulo in
      (Day t, Hour_ t, Minute_ t, Second_ t) = (3, 12, 0, 0)%Z /\
      @firstChange exampleLib dayPattern t = Some PerDay /\
      d = (11 * Hour)%Z /\
      (Day (Add t d), Hour_ (Add t d), Minute_ (Add t d), Second_ (Add t d))
      = (3, 23, 0, 0)%Z /\
      (Day next, Hour_ next, Minute_ next, Second_ next) = (4, 1, 0, 0)%Z /\
      Sub next t = (12 * Hour)%Z).
Proof.
  split; [|split; [|split; [|split; [|split]]]].
  - intros lib hook w. cbv zeta. rewrite rolloverAfter_eq. reflexivity.
  - intros lib hook w g Hfix Hg. cbv zeta.
    pose proof (rolloverAfter_lands hook w Hfix) as L. cbv zeta in L.
    rewrite Hg in L. destruct L as [B E].
    assert (Hfix' : transitions (location (nowLocal w)) = []) by exact Hfix.
    split; [exact B|]. rewrite E.
    assert (Hc : transitions (location (candidate g (nowLocal w))) = [])
      by (rewrite location_candidate; exact Hfix').
    destruct (unitStart_spec g (candidate g (nowLocal w)) Hc) as (_ & S1 & S2 & _).
    split; [exact S1|]. split; [exact S2|]. split.
    + intros Hday. apply unitStart_next; assumption.
    + intros -> Hday. apply unitStart_month_skipped; assumption.
  - vm_compute. repeat split.
  - vm_compute. repeat split.
  - vm_compute. repeat split.
  - vm_compute. repeat split.
Qed.

Lemma C1_witness :
  let w := quietWorld midJanuary in
  let t := nowLocal w in
  let d := fst (@rolloverAfter exampleLib (freshHook monthPattern) w) in
  (0 < d <= unitBound PerMonth)%Z /\
  Add t d = nextUnitStart PerMonth t /\
  nextUnitStart PerMonth t = Date 2015 2 1 0 0 0 0 UTC.
Proof.
  cbv zeta.
  destruct (proj1 (proj2 C1_rolloverAfter_lands_on_the_next_unit) exampleLib
              (freshHook monthPattern) (quietWorld midJanuary) PerMonth)
    as (B & _ & _ & N & _).
  - reflexivity.
  - vm_compute. reflexivity.
  - split; [exact B|]. split; [|vm_compute; reflexivity].
    apply N. intros _. vm_compute. discriminate.
Defined.

(** C5. When the name rendered at the instant rolloverAfter reads is the same
    one minute, one hour, one day, one month and one year later,
    rolloverAfter returns zero.  A constructor whose rolloverAfter reads such
    an instant leaves the timer nil, and it stays nil whatever happens next;
    resetTimer reading such an instant stops the timer, and from then on the
    timer stays stopped and a timer event changes nothing. *)
Theorem C5_static_name_never_rearms :
  forall (lib : External),
    (forall (hook : Hook) (w : World),
        staticAt (fileNamePattern hook) (nowLocal w) ->
        fst (rolloverAfter hook w) = 0%Z) /\
    (forall (i : string) (lv : list Level) (fm : Formatter) (pattern : string)
            (w : World),
        staticAt pattern (laterLocal 1 w) ->
        timer (fst (fst (newHook i lv fm pattern w))) = None /\
        forall iter evs, isWriteEntry iter ->
          timer (sys_hook (run iter (boot (newHook i lv fm pattern w)) evs)) = None) /\
    (forall (hook : Hook) (w : World) (tm : Timer),
        timer hook = Some tm ->
        staticAt (fileNamePattern hook) (laterLocal 1 w) ->
        exists hook' w' started,
          resetTimer hook w = Some (hook', w', started) /\
          timer hook' = Some Stopped /\
          forall iter task arch evs, isWriteEntry iter ->
            let s := mkSystem hook' w' task arch in
            step iter s EvTimer = s /\
            timer (sys_hook (run iter s evs)) = Some Stopped).
Proof.
  intros lib. split; [|split].
  - intros hook w St. apply firstChange_None in St.
    rewrite rolloverAfter_eq, St. reflexivity.
  - intros i lv fm pattern w St. apply firstChange_None in St.
    pose proof (nextDuration_spec pattern (laterLocal 1 w)) as D.
    rewrite St in D.
    pose proof (newHook_spec i lv fm pattern w) as N.
    destruct (rolloverFile _ w) as [[[n err0] hook1] w1].
    destruct (newHook i lv fm pattern w) as [[hook' err] w'].
    cbv zeta in N. destruct N as (_ & _ & _ & _ & _ & N & _).
    rewrite D in N. cbn in N. cbn [fst snd].
    split; [exact N|].
    intros iter evs K. apply keepsTimer_of_isWriteEntry in K.
    unfold boot. cbn [fst snd].
    rewrite (unarmed_forever iter evs _ K); cbn [sys_hook]; [exact N|].
    intros d. rewrite N. discriminate.
  - intros hook w tm Htm St. apply firstChange_None in St.
    pose proof (nextDuration_spec (fileNamePattern hook) (laterLocal 1 w)) as D.
    rewrite St in D.
    pose proof (resetTimer_spec hook w tm Htm) as R.
    destruct (rolloverFile hook w) as [[[n err0] hook1] w1].
    cbv zeta in R. destruct R as (hook' & w' & R & _ & _ & _ & T).
    rewrite D in T. cbn in T.
    exists hook', w', (if String.eqb n "" then [] else [n]).
    split; [exact R|]. split; [exact T|].
    intros iter task arch evs K. apply keepsTimer_of_isWriteEntry in K. cbv zeta.
    assert (Hun : forall d, timer (sys_hook (mkSystem hook' w' task arch)) <> Some (Armed d))
      by (intros d; cbn [sys_hook]; rewrite T; discriminate).
    split.
    + apply (unarmed_step iter _ EvTimer K Hun). reflexivity.
    + rewrite (unarmed_forever iter evs _ K Hun). exact T.
Qed.

Lemma C5_witness :
  fst (@rolloverAfter exampleLib (freshHook staticPattern) (quietWorld newYearsEve)) = 0%Z /\
  timer (fst (fst (@newHook exampleLib "tbrfh" [InfoLevel] lineFormatter staticPattern
                     (quietWorld newYearsEve)))) = None /\
  exists hook' w' started,
    @resetTimer exampleLib (set_timer (Some (Armed 1%Z)) startedHook) startedWorld
      = Some (hook', w', started) /\
    timer hook' = Some Stopped.
Proof.
  destruct (C5_static_name_never_rearms exampleLib) as (A & B & C).
  split; [|split].
  - apply A. vm_compute. repeat split.
  - destruct (B "tbrfh"%string [InfoLevel] lineFormatter staticPattern
                (quietWorld newYearsEve)) as [T _]; [vm_compute; repeat split | exact T].
  - destruct (C (set_timer (Some (Armed 1%Z)) startedHook) startedWorld (Armed 1%Z) eq_refl)
      as (hook' & w' & started & R & T & _).
    + vm_compute. repeat split.
    + exists hook', w', started. split; [exact R | exact T].
Defined.

(** C9. In a local zone whose offset never changes, when rolloverAfter finds
    a granularity at which the name changes the duration it returns is
    strictly positive; a constructor whose rolloverAfter reads such an
    instant arms the timer with that duration, and resetTimer arms it again.
    Where the offset changes this fails.  In New York at 01:59:30 on
    2015-11-01, half a minute before the clocks go back, the name of a
    minute pattern changes with the minute and rolloverAfter returns minus
    59m30s: a constructor leaves the timer nil and it stays nil whatever
    happens next; resetTimer stops the timer, and it stays stopped, although
    the name goes on changing every minute. *)
Theorem C9_positive_unless_the_offset_changes :
  (forall (lib : External),
    (forall (hook : Hook) (w : World) (g : Granularity),
        transitions (local w) = [] ->
        firstChange (fileNamePattern hook) (nowLocal w) = Some g ->
        (0 < fst (rolloverAfter hook w))%Z) /\
    (forall (i : string) (lv : list Level) (fm : Formatter) (pattern : string)
            (w : World) (g : Granularity),
        transitions (local w) = [] ->
        firstChange pattern (laterLocal 1 w) = Some g ->
        exists d, (0 < d)%Z /\
          timer (fst (fst (newHook i lv fm pattern w))) = Some (Armed d)) /\
    (forall (hook : Hook) (w : World) (tm : Timer) (g : Granularity),
        transitions (local w) = [] ->
        timer hook = Some tm ->
        firstChange (fileNamePattern hook) (laterLocal 1 w) = Some g ->
        exists hook' w' started d,
          resetTimer hook w = Some (hook', w', started) /\
          (0 < d)%Z /\ timer hook' = Some (Armed d)))
  /\ (let w := zoneWorld newYork fallBack in
      let made := @newHook exampleLib "tbrfh" [InfoLevel] lineFormatter minutePattern w in
      @firstChange exampleLib minutePattern (nowLocal w) = Some PerMinute /\
      @firstChange exampleLib minutePattern (Add (nowLocal w) Minute) = Some PerMinute /\
      fst (@rolloverAfter exampleLib (freshHook minutePattern) w)
      = (- (59 * Minute + 30 * Second))%Z /\
      timer (fst (fst made)) = None /\
      (forall iter evs, @isWriteEntry exampleLib iter ->
         timer (sys_hook (@run exampleLib iter (boot made) evs)) = None) /\
      exists hook' w' started,
        @resetTimer exampleLib (set_timer (Some (Armed 1%Z)) (freshHook minutePattern)) w
        = Some (hook', w', started) /\
        timer hook' = Some Stopped /\
        forall iter task arch evs, @isWriteEntry exampleLib iter ->
          timer (sys_hook (@run exampleLib iter (mkSystem hook' w' task arch) evs))
          = Some Stopped).
Proof.
  split.
  - intros lib. split; [|split].
    + intros hook w g Hfix Hg.
      pose proof (rolloverAfter_lands hook w Hfix) as L. cbv zeta in L.
      rewrite Hg in L. apply L.
    + intros i lv fm pattern w g Hfix Hg.
      pose proof (nextDuration_spec pattern (laterLocal 1 w)) as D.
      rewrite Hg in D. specialize (D Hfix).
      assert (Hpos : (0 <? nextDuration pattern (laterLocal 1 w))%Z = true)
        by (apply Z.ltb_lt; apply D).
      pose proof (newHook_spec i lv fm pattern w) as N.
      destruct (rolloverFile _ w) as [[[n err0] hook1] w1].
      destruct (newHook i lv fm pattern w) as [[hook' err] w'].
      cbv zeta in N. destruct N as (_ & _ & _ & _ & _ & N & _).
      rewrite Hpos in N. eexists. split; [apply D | exact N].
    + intros hook w tm g Hfix Htm Hg.
      pose proof (nextDuration_spec (fileNamePattern hook) (laterLocal 1 w)) as D.
      rewrite Hg in D. specialize (D Hfix).
      assert (Hpos : (0 <? nextDuration (fileNamePattern hook) (laterLocal 1 w))%Z = true)
        by (apply Z.ltb_lt; apply D).
      pose proof (resetTimer_spec hook w tm Htm) as R.
      destruct (rolloverFile hook w) as [[[n err0] hook1] w1].
      cbv zeta in R. destruct R as (hook' & w' & R & _ & _ & _ & T).
      rewrite Hpos in T.
      exists hook', w', (if String.eqb n "" then [] else [n]),
        (nextDuration (fileNamePattern hook) (laterLocal 1 w)).
      split; [exact R|]. split; [apply D | exact T].
  - cbv zeta.
    split; [vm_compute; reflexivity|]. split; [vm_compute; reflexivity|].
    split; [vm_compute; reflexivity|].
    set (made := @newHook exampleLib "tbrfh" [InfoLevel] lineFormatter minutePattern
                   (zoneWorld newYork fallBack)).
    assert (N : timer (fst (fst made)) = None) by (vm_compute; reflexivity).
    clearbody made. split; [exact N|]. split.
    + intros iter evs K. apply keepsTimer_of_isWriteEntry in K.
      destruct made as [[hook' err] w']. unfold boot. cbn [fst snd] in N |- *.
      rewrite (unarmed_forever iter evs _ K); cbn [sys_hook]; [exact N|].
      intros d. rewrite N. discriminate.
    + destruct (@resetTimer exampleLib (set_timer (Some (Armed 1%Z)) (freshHook minutePattern))
                  (zoneWorld newYork fallBack)) as [[[hook' w'] started]|] eqn:R.
      * assert (T : timer hook' = Some Stopped).
        { assert (E : (fun r => match r with
                                | Some (h, _, _) => timer h
                                | None => None
                                end)
                        (@resetTimer exampleLib
                           (set_timer (Some (Armed 1%Z)) (freshHook minutePattern))
                           (zoneWorld newYork fallBack)) = Some Stopped)
            by (vm_compute; reflexivity).
          rewrite R in E. exact E. }
        exists hook', w', started. split; [reflexivity|]. split; [exact T|].
        intros iter task arch evs K. apply keepsTimer_of_isWriteEntry in K.
        rewrite (unarmed_forever iter evs _ K); cbn [sys_hook]; [exact T|].
        intros d. rewrite T. discriminate.
      * exfalso.
        assert (E : (fun r => match r with Some _ => true | None => false end)
                      (@resetTimer exampleLib
                         (set_timer (Some (Armed 1%Z)) (freshHook minutePattern))
                         (zoneWorld newYork fallBack)) = true)
          by (vm_compute; reflexivity).
        rewrite R in E. discriminate.
Qed.

Lemma C9_witness :
  (0 < fst (@rolloverAfter exampleLib (freshHook minutePattern) (quietWorld newYearsEve)))%Z /\
  (exists d, (0 < d)%Z /\
     timer (fst (fst (@newHook exampleLib "tbrfh" [InfoLevel] lineFormatter minutePattern
                        (quietWorld newYearsEve)))) = Some (Armed d)) /\
  exists hook' w' started d,
    @resetTimer exampleLib (set_timer (Some (Armed 1%Z)) (freshHook minutePattern))
      (quietWorld newYearsEve) = Some (hook', w', started) /\
    (0 < d)%Z /\ timer hook' = Some (Armed d).
Proof.
  destruct (proj1 C9_positive_unless_the_offset_changes exampleLib) as (A & B & C).
  split; [|split].
  - apply (A _ _ PerMinute); [reflexivity | vm_compute; reflexivity].
  - apply (B _ _ _ _ _ PerMinute); [reflexivity | vm_compute; reflexivity].
  - apply (C _ _ (Armed 1%Z) PerMinute);
      [reflexivity | reflexivity | vm_compute; reflexivity].
Defined.

(** ** The handle after a failed rollover *)

Section Serializer.
Context `{External}.



Lemma exited_step iter s ev :
  serializer s = Exited ->
  serializer (step iter s ev) = Exited /\
  exists more, queue (sys_hook (step iter s ev)) = queue (sys_hook s) ++ more.
Proof.
  intros E. destruct ev; cbn [step].
  - unfold Fire. destruct (_ <? _)%nat; cbn.
    + split; [exact E | eauto].
    + split; [exact E | exists []; rewrite app_nil_r; reflexivity].
  - rewrite E. split; [exact E | exists []; rewrite app_nil_r; reflexivity].
  - destruct (timer (sys_hook s)) as [[d|]|] eqn:Tm;
      try (split; [exact E | exists []; rewrite app_nil_r; reflexivity]).
    pose proof (resetTimer_spec (sys_hook s) (sys_world s) _ Tm) as R.
    destruct (rolloverFile _ _) as [[[n err0] hook1] w1]. cbv zeta in R.
    destruct R as (hook' & w' & -> & _ & _ & Q & _). cbn.
    split; [exact E | exists []; rewrite app_nil_r; exact Q].
  - destruct (archiving s); cbn;
      (split; [exact E | exists []; rewrite app_nil_r; reflexivity]).
  - cbn. split; [exact E | exists []; rewrite app_nil_r; reflexivity].
Qed.

(** Once the serializer has returned, it stays so and nothing is received
    from the channel any more: the queue only grows. *)
Lemma exited_forever iter evs s :
  serializer s = Exited ->
  serializer (run iter s evs) = Exited /\
  exists more, queue (sys_hook (run iter s evs)) = queue (sys_hook s) ++ more.
Proof.
  revert s. unfold run. induction evs as [|ev evs IH]; intros s E; cbn [fold_left].
  - split; [exact E | exists []; rewrite app_nil_r; reflexivity].
  - destruct (exited_step iter s ev E) as (E1 & more1 & Q1).
    destruct (IH _ E1) as (E2 & more2 & Q2).
    split; [exact E2|]. exists (more1 ++ more2). rewrite Q2, Q1, app_assoc. reflexivity.
Qed.

End Serializer.



(** ** The serializer after a failed write *)

(** C2, as stated, fails for TimeBasedRollingFileHook: the write of the first
    entry fails (the device is full), the error is logged, the loop goes on
    and the entry enqueued after it is written to the file. *)
Lemma C2_counterexample :
  let hook := set_queue [entry1; entry2] startedHook in
  fst (fst (TimeBasedRollingFileHook.write (set_queue [entry2] startedHook) entry1
              fullOnceWorld))
    = Some (PathError "write" "/tmp/tbrfh/app.log" ENOSPC) /\
  let '(task, hook', w') := TimeBasedRollingFileHook.writeEntry hook fullOnceWorld in
  task = Running /\ queue hook' = [] /\
  logged w' = ["Error on writing to file: write /tmp/tbrfh/app.log: no space left on device"
               +:+ nl] /\
  content w' "/tmp/tbrfh/app.log" = Some (list_byte_of_string "second" ++ [newline]).
Proof. vm_compute. repeat split. Qed.

Section SerializerLoop.
Context `{External}.

Lemma tb_iter_running hook w :
  fst (fst (TimeBasedRollingFileHook.writeEntry_iter hook w)) = Running.
Proof.
  unfold TimeBasedRollingFileHook.writeEntry_iter.
  destruct (queue hook) as [|entry rest]; [reflexivity|].
  destruct (TimeBasedRollingFileHook.write _ _ _) as [[[e|] hook'] w']; reflexivity.
Qed.

Lemma tb_running_forever evs s :
  serializer s = Running ->
  serializer (run TimeBasedRollingFileHook.writeEntry_iter s evs) = Running.
Proof.
  revert s. unfold run. induction evs as [|ev evs IH]; intros s E; [exact E|].
  cbn [fold_left]. apply IH.
  destruct ev; cbn [step].
  - unfold Fire. destruct (_ <? _)%nat; exact E.
  - rewrite E. pose proof (tb_iter_running (sys_hook s) (sys_world s)) as R.
    destruct (TimeBasedRollingFileHook.writeEntry_iter _ _) as [[task hook'] w'].
    exact R.
  - destruct (timer (sys_hook s)) as [[d|]|]; try exact E.
    destruct (resetTimer _ _) as [[[hook' w'] st]|]; exact E.
  - destruct (archiving s); exact E.
  - exact E.
Qed.

End SerializerLoop.

(** C2, amended.  In FsrollHook, when the write of the entry the serializer
    receives fails, that turn of the loop logs the error and returns from
    writeEntry; from then on, whatever happens, the serializer stays returned
    and the entries behind the failing one stay in the channel, so none of
    them reaches write.  In TimeBasedRollingFileHook the loop never returns:
    a failed write is logged and the next entry is received. *)
Theorem C2_write_failure_ends_fsroll_serializer_only :
  forall (lib : External),
    (forall (s : System) (entry : Entry) (rest : list Entry)
            (err : error) (hook1 : Hook) (w1 : World),
        serializer s = Running ->
        queue (sys_hook s) = entry :: rest ->
        FsrollHook.write (set_queue rest (sys_hook s)) entry (sys_world s)
          = (Some err, hook1, w1) ->
        let s' := step FsrollHook.writeEntry_iter s EvReceive in
        serializer s' = Exited /\
        logged (sys_world s') = logged w1 ++ ["Error on writing to file: " +:+ Error err +:+ nl] /\
        queue (sys_hook s') = rest /\
        forall evs,
          let s'' := run FsrollHook.writeEntry_iter s' evs in
          serializer s'' = Exited /\
          exists more, queue (sys_hook s'') = rest ++ more) /\
    (forall (hook : Hook) (w : World),
        fst (fst (TimeBasedRollingFileHook.writeEntry_iter hook w)) = Running) /\
    (forall (s : System) (evs : list Event),
        serializer s = Running ->
        serializer (run TimeBasedRollingFileHook.writeEntry_iter s evs) = Running).
Proof.
  intros lib. split; [|split].
  - intros s entry rest err hook1 w1 Hr Hq Hw. cbv zeta.
    assert (E : step FsrollHook.writeEntry_iter s EvReceive =
                mkSystem hook1 (log_Printf ("Error on writing to file: " +:+ Error err +:+ nl) w1)
                         Exited (archiving s)).
    { cbn [step]. rewrite Hr. unfold FsrollHook.writeEntry_iter. rewrite Hq, Hw.
      reflexivity. }
    rewrite E. cbn [serializer sys_world sys_hook].
    pose proof (write_fs_frame (set_queue rest (sys_hook s)) entry (sys_world s)) as F.
    rewrite Hw in F. destruct F as (_ & Fq & _). cbn in Fq.
    split; [reflexivity|]. split; [reflexivity|]. split; [exact Fq|].
    intros evs.
    destruct (exited_forever FsrollHook.writeEntry_iter evs
                (mkSystem hook1 (log_Printf ("Error on writing to file: " +:+ Error err +:+ nl) w1)
                          Exited (archiving s)) eq_refl) as (E1 & more & E2).
    split; [exact E1|]. exists more. rewrite E2. cbn [sys_hook]. rewrite Fq. reflexivity.
  - intros hook w. apply tb_iter_running.
  - intros s evs. apply tb_running_forever.
Qed.

Lemma C2_witness :
  let s := mkSystem (set_queue [entry1; entry2] startedHook) fullAfterStatWorld Running [] in
  let s' := @step exampleLib FsrollHook.writeEntry_iter s EvReceive in
  serializer s' = Exited /\ queue (sys_hook s') = [entry2] /\
  forall evs,
    exists more,
      queue (sys_hook (@run exampleLib FsrollHook.writeEntry_iter s' evs)) = [entry2] ++ more.
Proof.
  cbv zeta.
  assert (E : exists hook1 w1,
             FsrollHook.write (set_queue [entry2] startedHook) entry1 fullAfterStatWorld
             = (Some (PathError "write" "/tmp/tbrfh/app.log" ENOSPC), hook1, w1))
    by (eexists _, _; vm_compute; reflexivity).
  destruct E as (hook1 & w1 & E).
  destruct (proj1 (C2_write_failure_ends_fsroll_serializer_only exampleLib)
              (mkSystem (set_queue [entry1; entry2] startedHook) fullAfterStatWorld Running [])
              entry1 [entry2] _ hook1 w1 eq_refl eq_refl E) as (T1 & _ & T3 & T4).
  split; [exact T1|]. split; [exact T3|]. intros evs. apply T4.
Defined.

(** ** The error a constructor returns *)

(** C3, as stated, fails: with /tmp a regular file the initial rollover of
    either constructor fails, yet the error the constructor returns is nil. *)
Lemma C3_counterexample :
  let w := blockedWorld newYearsEve in
  snd (fst (fst (@rolloverFile exampleLib (freshHook minutePattern) w)))
    = Some (PathError "mkdir" "/tmp/tbrfh/2015/12/31/23" ENOTDIR) /\
  snd (fst (@FsrollHook.NewHook exampleLib [InfoLevel; WarnLevel; ErrorLevel]
              lineFormatter minutePattern w)) = None /\
  snd (fst (@TimeBasedRollingFileHook.NewTimeBasedRollingFileHook exampleLib "tbrfh"
              [InfoLevel; WarnLevel; ErrorLevel] lineFormatter minutePattern w)) = None.
Proof. vm_compute. repeat split. Qed.

(** C3, amended.  Both constructors are the one body [newHook], and it
    returns a nil error whatever the initial rollover did; when that rollover
    failed, its error goes to the logger and the hook comes back without a
    handle.  The hook returned accepts entries, and Fire never returns an
    error. *)
Theorem C3_constructors_log_and_return_nil :
  forall (lib : External) (i : string) (lv : list Level) (fm : Formatter)
         (pattern : string) (w : World),
    FsrollHook.NewHook lv fm pattern w = newHook EmptyString lv fm pattern w /\
    TimeBasedRollingFileHook.NewTimeBasedRollingFileHook i lv fm pattern w
      = newHook i lv fm pattern w /\
    (let r0 := rolloverFile (mkHook i lv fm pattern EmptyString None None []) w in
     let r := newHook i lv fm pattern w in
     snd (fst r) = None /\
     (forall e, snd (fst (fst r0)) = Some e ->
        file (fst (fst r)) = None /\
        logged (snd r) = logged (snd r0)
                         ++ ["Error on creating new file: " +:+ Error e +:+ nl]) /\
     (forall entry,
        Fire (fst (fst r)) entry = Some (None, set_queue [entry] (fst (fst r))))) /\
    (forall hook entry r, Fire hook entry = Some r -> fst r = None).
Proof.
  intros lib i lv fm pattern w.
  split; [reflexivity|]. split; [reflexivity|]. split.
  - cbv zeta.
    pose proof (newHook_spec i lv fm pattern w) as N.
    pose proof (rolloverFile_result (mkHook i lv fm pattern EmptyString None None []) w) as R.
    destruct (rolloverFile _ w) as [[[n err0] hook1] w1].
    destruct (newHook i lv fm pattern w) as [[hook err] w'].
    cbv zeta in N. destruct N as (Ne & Nf & _ & Nq & _ & _ & Nl).
    destruct R as [_ R]. cbn [fst snd].
    split; [exact Ne|]. split.
    + intros e ->. split; [congruence | exact Nl].
    + intros entry. unfold Fire. rewrite Nq. reflexivity.
  - intros hook entry r. unfold Fire.
    destruct (_ <? _)%nat; [|discriminate]. intros [= <-]. reflexivity.
Qed.

Lemma C3_witness :
  let r := @newHook exampleLib "tbrfh" [InfoLevel; WarnLevel; ErrorLevel] lineFormatter
                    minutePattern (blockedWorld newYearsEve) in
  snd (fst r) = None /\ file (fst (fst r)) = None /\
  logged (snd r) = ["Error on creating new file: "
                    +:+ "mkdir /tmp/tbrfh/2015/12/31/23: not a directory" +:+ nl].
Proof.
  cbv zeta.
  destruct (proj1 (proj2 (proj2
    (C3_constructors_log_and_return_nil exampleLib "tbrfh"
       [InfoLevel; WarnLevel; ErrorLevel] lineFormatter minutePattern
       (blockedWorld newYearsEve))))) as (T1 & T2 & _).
  destruct (T2 (PathError "mkdir" "/tmp/tbrfh/2015/12/31/23" ENOTDIR))
    as [T2a T2b]; [vm_compute; reflexivity|].
  split; [exact T1|]. split; [exact T2a|].
  etransitivity; [exact T2b|]. vm_compute. reflexivity.
Defined.

(** ** The archive suffix of the live file *)

Section Suffix.
Context `{External}.

Lemma get_of_suffix s k :
  substring k 3 s = ".gz"%string ->
  String.get k s = Some "."%char /\ String.get (S k) s = Some "g"%char /\
  String.get (S (S k)) s = Some "z"%char.
Proof.
  intros E.
  pose proof (substring_correct1 s k 3 0 ltac:(lia)) as G0.
  pose proof (substring_correct1 s k 3 1 ltac:(lia)) as G1.
  pose proof (substring_correct1 s k 3 2 ltac:(lia)) as G2.
  rewrite E in G0, G1, G2. cbn in G0, G1, G2.
  repeat split; congruence.
Qed.

(** A name that ends in ".gz" has the extension ".gz". *)
Lemma Ext_of_gz_suffix s : HasSuffix s GzipSuffix = true -> Ext s = GzipSuffix.
Proof.
  unfold HasSuffix, GzipSuffix. cbn [String.length].
  intros E. apply andb_true_iff in E as [Hlen E].
  apply Nat.leb_le in Hlen. apply String.eqb_eq in E.
  destruct (get_of_suffix s _ E) as (G0 & G1 & G2).
  unfold Ext.
  replace (String.length s) with (S (S (S (String.length s - 3)))) at 1 by lia.
  cbn [Ext_loop]. rewrite G2. cbn. rewrite G1. cbn. rewrite G0. cbn.
  replace (String.length s - (String.length s - 3))%nat with 3%nat by lia.
  exact E.
Qed.

Lemma substring_length s : forall j k,
  String.length (substring j k s) = Nat.min k (String.length s - j).
Proof.
  induction s as [|c s IH]; intros [|j] [|k]; cbn; try reflexivity.
  - rewrite IH. rewrite Nat.sub_0_r. reflexivity.
  - rewrite IH. reflexivity.
  - rewrite IH. reflexivity.
Qed.

Lemma Ext_loop_spec s i e :
  (i <= String.length s)%nat ->
  Ext_loop s i = e -> e <> EmptyString ->
  exists j, (j < i)%nat /\ e = substring j (String.length s - j) s.
Proof.
  induction i as [|i IH]; intros Hi E Hne; cbn [Ext_loop] in E.
  - congruence.
  - destruct (String.get i s) as [c|]; [|congruence].
    destruct (Ascii.eqb c "/"); [congruence|].
    destruct (Ascii.eqb c ".").
    + exists i. split; [lia | congruence].
    + destruct (IH ltac:(lia) E Hne) as (j & Hj & Ej). exists j. split; [lia | exact Ej].
Qed.

(** A name with the extension ".gz" ends in ".gz". *)
Lemma gz_suffix_of_Ext s : Ext s = GzipSuffix -> HasSuffix s GzipSuffix = true.
Proof.
  intros E.
  destruct (Ext_loop_spec s (String.length s) GzipSuffix (Nat.le_refl _) E)
    as (j & Hj & Ej); [discriminate|].
  assert (Hl : (String.length s - j = 3)%nat).
  { pose proof (f_equal String.length Ej) as L. rewrite substring_length in L.
    cbn in L. lia. }
  rewrite Hl in Ej.
  unfold HasSuffix. replace (String.length GzipSuffix) with 3%nat by reflexivity.
  apply andb_true_iff. split; [apply Nat.leb_le; lia|].
  apply String.eqb_eq. replace (String.length s - 3)%nat with j by lia.
  symmetry. exact Ej.
Qed.

(** TrimSuffix takes the suffix off exactly the names with the extension
    ".gz" in these three bytes. *)
Lemma TrimSuffix_gz s :
  TrimSuffix s GzipSuffix
  = if String.eqb (Ext s) GzipSuffix
    then substring 0 (String.length s - 3) s else s.
Proof.
  unfold TrimSuffix.
  destruct (String.eqb_spec (Ext s) GzipSuffix) as [E | E].
  - rewrite (gz_suffix_of_Ext s E). reflexivity.
  - destruct (HasSuffix s GzipSuffix) eqn:Hs; [|reflexivity].
    exfalso. apply E. apply Ext_of_gz_suffix. exact Hs.
Qed.

Lemma os_OpenFile_name name flag perm w f w' :
  os_OpenFile name flag perm w = (inl f, w') -> Name f = name.
Proof.
  unfold os_OpenFile. destruct (syscall w) as [[e|] w1]; [discriminate|].
  destruct (_ && _); [discriminate|].
  destruct (names w1 !! name).
  - destruct (_ && _); [discriminate|]. intros [= <- _]. reflexivity.
  - destruct (_ && _); [|discriminate]. intros [= <- _]. reflexivity.
Qed.

(** The handle rolloverFile installs carries the name rendered at the instant
    it read, with the suffix taken off by TrimSuffix when the lower-cased
    extension is ".gz". *)
Lemma rolloverFile_name hook w f :
  file (snd (fst (rolloverFile hook w))) = Some f ->
  let rendered := Format (nowLocal w) (fileNamePattern hook) in
  Name f = if String.eqb (ToLower (Ext rendered)) GzipSuffix
           then TrimSuffix rendered GzipSuffix else rendered.
Proof.
  unfold rolloverFile.
  set (old := match file hook with
              | Some oldFile => _
              | None => _ end).
  assert (Hold : sameClock w (snd old)).
  { unfold old. destruct (file hook) as [f0|]; [|apply sameClock_refl].
    pose proof (File_Close_frame f0 w) as [Hc _].
    destruct (File_Close f0 w) as [[e|] w1]; cbn in *; exact Hc. }
  destruct old as [oldFileName w1]. cbn [snd] in Hold.
  destruct Hold as (Hc & Ht & Hl).
  assert (Enow : fst (time_Now_Local w1) = nowLocal w).
  { unfold nowLocal, time_Now_Local. cbn [fst]. rewrite Hc, Ht, Hl. reflexivity. }
  destruct (time_Now_Local w1) as [now w2]. cbn [fst] in Enow. subst now.
  cbn [fileNamePattern set_file].
  set (rendered := Format (nowLocal w) (fileNamePattern hook)).
  set (newFileName := if String.eqb _ _ then _ else _).
  destruct (os_MkdirAll _ _ _) as [[e|] w3]; [discriminate|].
  destruct (os_OpenFile newFileName _ _ w3) as [[f'|e] w4] eqn:Eo; [|discriminate].
  cbn. intros [= <-]. exact (os_OpenFile_name _ _ _ _ _ _ Eo).
Qed.

End Suffix.

(** C4 in general and at its failing inputs.  The handle rolloverFile
    installs carries the rendered name without its last three bytes when the
    extension is ".gz" in exactly these bytes; when the extension is ".gz" in
    another letter case the switch takes the gzip case as well, but
    TrimSuffix finds no suffix ".gz" and the handle carries the whole
    rendered name.  So for ".GZ" and ".Gz" the live file keeps the suffix. *)
Theorem C4_suffix_in_other_case_is_kept :
  (forall (lib : External) (hook : Hook) (w : World) (f : File),
      file (snd (fst (rolloverFile hook w))) = Some f ->
      let rendered := Format (nowLocal w) (fileNamePattern hook) in
      (Ext rendered = GzipSuffix ->
       Name f = substring 0 (String.length rendered - 3) rendered) /\
      (ToLower (Ext rendered) = GzipSuffix -> Ext rendered <> GzipSuffix ->
       Name f = rendered)) /\
  openedName "/tmp/tbrfh/2006/app.log.gz" = Some "/tmp/tbrfh/2015/app.log" /\
  ToLower (Ext "/tmp/tbrfh/2015/app.log.GZ") = GzipSuffix /\
  openedName "/tmp/tbrfh/2006/app.log.GZ" = Some "/tmp/tbrfh/2015/app.log.GZ" /\
  ToLower (Ext "/tmp/tbrfh/2015/app.log.Gz") = GzipSuffix /\
  openedName "/tmp/tbrfh/2006/app.log.Gz" = Some "/tmp/tbrfh/2015/app.log.Gz".
Proof.
  split; [|vm_compute; repeat split].
  intros lib hook w f Hf. cbv zeta.
  pose proof (rolloverFile_name hook w f Hf) as N. cbv zeta in N.
  rewrite TrimSuffix_gz in N. split.
  - intros E. rewrite E in N. cbn in N. exact N.
  - intros El Ene. rewrite El, String.eqb_refl in N.
    apply String.eqb_neq in Ene. rewrite Ene in N. exact N.
Qed.

(** ** The archiver: failures *)

Section Archive.
Context `{External}.

Lemma Writer_Flush_frame z w :
  sameClock w (snd (Writer_Flush z w)) /\ names (snd (Writer_Flush z w)) = names w.
Proof.
  unfold Writer_Flush.
  pose proof (File_Write_frame (gz_dst z) (gzipBody (gz_data z)) w) as F.
  destruct (File_Write _ _ _) as [[n e] w']. exact F.
Qed.

Lemma Writer_Close_frame z w :
  sameClock w (snd (Writer_Close z w)) /\ names (snd (Writer_Close z w)) = names w.
Proof.
  unfold Writer_Close.
  pose proof (File_Write_frame (gz_dst z) (gzipTrailer (gz_data z)) w) as F.
  destruct (File_Write _ _ _) as [[n e] w']. exact F.
Qed.

Lemma namesKept_eq w w' : names w' = names w -> namesKept w w'.
Proof. unfold namesKept. intros ->. reflexivity. Qed.

(** gzipArchive removes no name, whatever it returns. *)
Lemma gzipArchive_namesKept fileName w :
  namesKept w (snd (gzipArchive fileName w)).
Proof.
  unfold gzipArchive.
  pose proof (os_OpenFile_frame (fileName +:+ GzipSuffix) appendCreateWronly 436 w) as [_ K1].
  destruct (os_OpenFile _ _ _ w) as [[gzFile|e] w1]; cbn [snd] in K1; [|exact K1].
  unfold os_Open.
  pose proof (os_OpenFile_frame fileName O_RDONLY 0 w1) as [_ K2].
  destruct (os_OpenFile _ _ _ w1) as [[oldFile|e] w2]; cbn [snd] in K2.
  - pose proof (io_Copy_frame (gzip_NewWriter gzFile) oldFile w2) as [_ K3].
    destruct (io_Copy _ _ _) as [[writer [e|]] w3]; cbn [snd] in K3.
    + pose proof (File_Close_frame oldFile w3) as [_ K4].
      destruct (File_Close oldFile w3) as [e4 w4]; cbn [snd] in K4.
      pose proof (File_Close_frame gzFile w4) as [_ K5].
      destruct (File_Close gzFile w4) as [e5 w5]; cbn [snd] in *.
      unfold namesKept in *. rewrite K5, K4, K3. etrans; eassumption.
    + pose proof (Writer_Flush_frame writer w3) as [_ K4].
      destruct (Writer_Flush writer w3) as [e4 w4]; cbn [snd] in K4.
      pose proof (Writer_Close_frame writer w4) as [_ K5].
      destruct (Writer_Close writer w4) as [e5 w5]; cbn [snd] in K5.
      pose proof (File_Close_frame oldFile w5) as [_ K6].
      destruct (File_Close oldFile w5) as [e6 w6]; cbn [snd] in K6.
      pose proof (File_Close_frame gzFile w6) as [_ K7].
      destruct (File_Close gzFile w6) as [e7 w7]; cbn [snd] in *.
      unfold namesKept in *. rewrite K7, K6, K5, K4, K3. etrans; eassumption.
  - pose proof (File_Close_frame gzFile w2) as [_ K3].
    destruct (File_Close gzFile w2) as [e3 w3]; cbn [snd] in *.
    unfold namesKept in *. rewrite K3. etrans; eassumption.
Qed.

(** Each of the three checked steps of gzipArchive, when it fails, makes
    gzipArchive return its error. *)
Lemma gzipArchive_steps fileName w :
  (forall e w1,
      os_OpenFile (fileName +:+ GzipSuffix) appendCreateWronly 436 w = (inr e, w1) ->
      fst (gzipArchive fileName w) = Some e) /\
  (forall gzFile w1 e w2,
      os_OpenFile (fileName +:+ GzipSuffix) appendCreateWronly 436 w = (inl gzFile, w1) ->
      os_Open fileName w1 = (inr e, w2) ->
      fst (gzipArchive fileName w) = Some e) /\
  (forall gzFile w1 oldFile w2 writer e w3,
      os_OpenFile (fileName +:+ GzipSuffix) appendCreateWronly 436 w = (inl gzFile, w1) ->
      os_Open fileName w1 = (inl oldFile, w2) ->
      io_Copy (gzip_NewWriter gzFile) oldFile w2 = ((writer, Some e), w3) ->
      fst (gzipArchive fileName w) = Some e).
Proof.
  unfold gzipArchive. split; [|split].
  - intros e w1 ->. reflexivity.
  - intros gzFile w1 e w2 -> ->. destruct (File_Close _ _). reflexivity.
  - intros gzFile w1 oldFile w2 writer e w3 -> -> ->.
    destruct (File_Close oldFile w3) as [e4 w4]. destruct (File_Close gzFile w4).
    reflexivity.
Qed.

Lemma archive_lookup hook :
  ToLower (Ext (fileNamePattern hook)) = GzipSuffix ->
  Archivers !! ToLower (Ext (fileNamePattern hook)) = Some gzipArchiveAndDelete.
Proof. intros ->. unfold Archivers. apply lookup_singleton_eq. Qed.

End Archive.

(** C7. A failure of opening the .gz file, of opening the source or of the
    copy makes gzipArchive return that error.  When gzipArchive returns an
    error, gzipArchiveAndDelete returns it in the world gzipArchive left,
    without calling os.Remove: every file that had a name still has it, the
    plaintext file among them.  The caller, archiveOldFile, logs the error
    and does nothing else. *)
Theorem C7_failed_archive_keeps_the_plaintext :
  forall (lib : External) (fileName : string) (w : World),
    ((forall e w1,
        os_OpenFile (fileName +:+ GzipSuffix) appendCreateWronly 436 w = (inr e, w1) ->
        fst (gzipArchive fileName w) = Some e) /\
     (forall gzFile w1 e w2,
        os_OpenFile (fileName +:+ GzipSuffix) appendCreateWronly 436 w = (inl gzFile, w1) ->
        os_Open fileName w1 = (inr e, w2) ->
        fst (gzipArchive fileName w) = Some e) /\
     (forall gzFile w1 oldFile w2 writer e w3,
        os_OpenFile (fileName +:+ GzipSuffix) appendCreateWronly 436 w = (inl gzFile, w1) ->
        os_Open fileName w1 = (inl oldFile, w2) ->
        io_Copy (gzip_NewWriter gzFile) oldFile w2 = ((writer, Some e), w3) ->
        fst (gzipArchive fileName w) = Some e)) /\
    (forall (err : error) (w' : World),
        gzipArchive fileName w = (Some err, w') ->
        gzipArchiveAndDelete fileName w = (Some err, w') /\
        (forall path ino, names w !! path = Some ino -> names w' !! path = Some ino) /\
        (forall hook,
            ToLower (Ext (fileNamePattern hook)) = GzipSuffix ->
            archiveOldFile hook fileName w
            = log_Printf ("Error on archiving file [" +:+ fileName +:+ "]: "
                          +:+ Error err +:+ nl) w')).
Proof.
  intros lib fileName w. split; [exact (gzipArchive_steps fileName w)|].
  intros err w' E. split; [|split].
  - unfold gzipArchiveAndDelete. rewrite E. reflexivity.
  - intros path ino Hp.
    pose proof (gzipArchive_namesKept fileName w) as K. rewrite E in K. cbn [snd] in K.
    unfold namesKept in K. eapply lookup_weaken; eassumption.
  - intros hook Hext. unfold archiveOldFile. rewrite (archive_lookup hook Hext).
    unfold gzipArchiveAndDelete. rewrite E. reflexivity.
Qed.

(** The copy fails on an input/output error: the plaintext file keeps its
    name, and the error is the one logged. *)
Lemma C7_witness :
  exists w',
    @gzipArchiveAndDelete exampleLib "/tmp/tbrfh/app.log" copyFailsWorld
      = (Some (PathError "read" "/tmp/tbrfh/app.log" EIO), w') /\
    names w' !! "/tmp/tbrfh/app.log" = Some 0%nat /\
    last (logged (@archiveOldFile exampleLib (freshHook "/tmp/tbrfh/app.log.gz")
                    "/tmp/tbrfh/app.log" copyFailsWorld))
      = Some ("Error on archiving file [/tmp/tbrfh/app.log]: "
              +:+ "read /tmp/tbrfh/app.log: input/output error" +:+ nl).
Proof.
  eexists.
  assert (E : @gzipArchive exampleLib "/tmp/tbrfh/app.log" copyFailsWorld
              = (Some (PathError "read" "/tmp/tbrfh/app.log" EIO), ?[w']))
    by (vm_compute; reflexivity).
  destruct (proj2 (C7_failed_archive_keeps_the_plaintext exampleLib
                     "/tmp/tbrfh/app.log" copyFailsWorld) _ _ E) as (T1 & T2 & T3).
  split; [exact T1|]. split.
  - apply T2. vm_compute. reflexivity.
  - rewrite (T3 (freshHook "/tmp/tbrfh/app.log.gz") ltac:(vm_compute; reflexivity)).
    unfold log_Printf, set_logged. cbn [logged]. apply last_snoc.
Defined.

(** ** The archiver: an earlier .gz file *)

Ltac wsimpl :=
  cbn [names dirs inodes fds logged clock ticks local faults
       set_names set_dirs set_inodes set_fds set_logged set_ticks set_faults
       fst snd Name fd of_ino of_flag of_pos of_open gz_dst gz_data
       gzip_NewWriter negb] in *.

Section ArchiveAppend.
Context `{External}.

Lemma writeAt_end (old b : bytes) : writeAt old (length old) b = old ++ b.
Proof.
  unfold writeAt. rewrite Nat.sub_diag. cbn [replicate]. rewrite app_nil_r.
  rewrite firstn_all. rewrite drop_ge by lia. rewrite app_nil_r. reflexivity.
Qed.

Lemma flags_appendCreateWronly :
  hasFlag appendCreateWronly O_APPEND = true /\
  hasFlag appendCreateWronly O_CREATE = true /\
  hasFlag appendCreateWronly O_TRUNC = false /\
  hasFlag appendCreateWronly O_EXCL = false /\
  writable appendCreateWronly = true /\
  writable O_RDONLY = false.
Proof. vm_compute. repeat split. Qed.

Lemma syscall_quiet w : faults w = [] -> syscall w = (None, w).
Proof. unfold syscall. intros ->. reflexivity. Qed.

(** Opening a regular file that exists, neither exclusively nor truncating. *)
Lemma os_OpenFile_existing name flag perm w ino :
  faults w = [] ->
  bool_decide (name ∈ dirs w) && writable flag = false ->
  names w !! name = Some ino ->
  hasFlag flag O_CREATE && hasFlag flag O_EXCL = false ->
  hasFlag flag O_TRUNC && writable flag = false ->
  os_OpenFile name flag perm w
  = (inl (mkFile name (length (fds w))),
     set_fds (fun l => l ++ [mkOpenFile ino flag 0 true]) w).
Proof.
  intros Hf Hd Hn He Ht. unfold os_OpenFile.
  rewrite (syscall_quiet w Hf), Hd, Hn, He, Ht. reflexivity.
Qed.

(** A write through an open descriptor with O_APPEND goes to the end. *)
Lemma File_Write_append f b w o old :
  faults w = [] ->
  fds w !! fd f = Some o -> of_open o = true -> writable (of_flag o) = true ->
  hasFlag (of_flag o) O_APPEND = true ->
  inodes w !! of_ino o = Some old ->
  File_Write f b w
  = ((length b, None),
     set_fds (fun l => <[fd f := mkOpenFile (of_ino o) (of_flag o)
                                  (length old + length b) true]> l)
       (set_inodes (fun l => <[of_ino o := old ++ b]> l) w)).
Proof.
  intros Hf Hfd Ho Hw Ha Hi. unfold File_Write.
  rewrite (syscall_quiet w Hf), Hfd, Ho, Hw, Ha, Hi. cbn [negb default].
  rewrite writeAt_end. reflexivity.
Qed.

Lemma io_Copy_whole dst src w o data :
  faults w = [] ->
  fds w !! fd src = Some o -> of_open o = true -> of_pos o = O ->
  inodes w !! of_ino o = Some data ->
  io_Copy dst src w
  = ((mkGzipWriter (gz_dst dst) (gz_data dst ++ data), None),
     set_fds (fun l => <[fd src := mkOpenFile (of_ino o) (of_flag o)
                                    (length data) true]> l) w).
Proof.
  intros Hf Hfd Ho Hp Hi. unfold io_Copy.
  rewrite (syscall_quiet w Hf), Hfd, Ho, Hp, Hi. cbn [negb default drop Nat.add].
  reflexivity.
Qed.

Lemma File_Close_open f w o :
  faults w = [] ->
  fds w !! fd f = Some o -> of_open o = true ->
  File_Close f w
  = (None, set_fds (fun l => <[fd f := mkOpenFile (of_ino o) (of_flag o)
                                         (of_pos o) false]> l) w).
Proof.
  intros Hf Hfd Ho. unfold File_Close.
  rewrite (syscall_quiet w Hf), Hfd, Ho. reflexivity.
Qed.

Section TwoLast.
Context {A : Type}.
Implicit Types (l : list A) (a b x : A).

Lemma two_first l a b : ((l ++ [a]) ++ [b]) !! length l = Some a.
Proof. rewrite <- app_assoc. apply list_lookup_middle. reflexivity. Qed.

Lemma two_last l a b : ((l ++ [a]) ++ [b]) !! S (length l) = Some b.
Proof.
  apply list_lookup_middle. rewrite length_app. cbn. lia.
Qed.

Lemma two_ins_first l a b x :
  <[length l := x]> ((l ++ [a]) ++ [b]) = (l ++ [x]) ++ [b].
Proof.
  rewrite <- !app_assoc. cbn [app].
  rewrite insert_app_r_alt by lia. rewrite Nat.sub_diag. reflexivity.
Qed.

Lemma two_ins_last l a b x :
  <[S (length l) := x]> ((l ++ [a]) ++ [b]) = (l ++ [a]) ++ [x].
Proof.
  rewrite insert_app_r_alt by (rewrite length_app; cbn; lia).
  rewrite length_app. cbn [length].
  replace (S (length l) - (length l + 1))%nat with O by lia. reflexivity.
Qed.

Lemma length_snoc l a : length (l ++ [a]) = S (length l).
Proof. rewrite length_app. cbn. lia. Qed.

End TwoLast.

(** gzipArchive with a .gz file already there: the new stream goes behind the
    bytes the file had, and the source is as it was. *)
Lemma gzipArchive_appends fileName w gz src (old data : bytes) :
  faults w = [] ->
  fileName +:+ GzipSuffix ∉ dirs w ->
  names w !! (fileName +:+ GzipSuffix) = Some gz ->
  names w !! fileName = Some src ->
  gz <> src ->
  inodes w !! gz = Some old ->
  inodes w !! src = Some data ->
  let '(err, w') := gzipArchive fileName w in
  err = None /\
  content w' (fileName +:+ GzipSuffix) = Some (old ++ gzipBody data ++ gzipTrailer data) /\
  content w' fileName = Some data.
Proof.
  intros Hf Hd Hgz Hsrc Hne Hold Hdata.
  destruct flags_appendCreateWronly as (Fa & Fc & Ft & Fe & Fw & Fr).
  pose proof (lookup_lt_Some _ _ _ Hold) as Lgz.
  pose proof (lookup_lt_Some _ _ _ Hdata) as Lsrc.
  unfold gzipArchive.
  (* os.OpenFile(gzFileName, ...) *)
  rewrite (os_OpenFile_existing _ _ _ w gz Hf) ;
    [ | rewrite bool_decide_eq_false_2 by exact Hd; reflexivity
      | exact Hgz | rewrite Fe; apply andb_false_r | rewrite Ft; reflexivity ].
  cbv beta iota zeta.
  (* os.Open(fileName) *)
  unfold os_Open.
  rewrite (os_OpenFile_existing _ _ _ _ src);
    [ | exact Hf | rewrite Fr; apply andb_false_r | exact Hsrc
      | reflexivity | reflexivity ].
  cbv beta iota zeta. wsimpl. rewrite length_snoc.
  (* io.Copy(writer, oldFile) *)
  erewrite (io_Copy_whole _ _ _ _ data);
    [ | exact Hf | wsimpl; apply two_last | reflexivity | reflexivity | exact Hdata ].
  cbv beta iota zeta. wsimpl.
  (* writer.Flush() *)
  unfold Writer_Flush.
  erewrite (File_Write_append _ _ _ _ old);
    [ | exact Hf | wsimpl; rewrite two_ins_last; apply two_first
      | reflexivity | exact Fw | exact Fa | exact Hold ].
  cbv beta iota zeta. wsimpl.
  (* writer.Close() *)
  unfold Writer_Close.
  erewrite (File_Write_append _ _ _ _ (old ++ gzipBody data));
    [ | exact Hf
      | wsimpl; rewrite two_ins_last, two_ins_first; apply two_first
      | reflexivity | exact Fw | exact Fa
      | wsimpl; apply list_lookup_insert_eq; exact Lgz ].
  cbv beta iota zeta. wsimpl.
  (* the deferred oldFile.Close() and gzFile.Close() *)
  erewrite (File_Close_open _ _ _);
    [ | exact Hf
      | wsimpl; rewrite two_ins_last, !two_ins_first; apply two_last
      | reflexivity ].
  erewrite (File_Close_open _ _ _);
    [ | exact Hf
      | wsimpl; rewrite two_ins_last, !two_ins_first, two_ins_last; apply two_first
      | reflexivity ].
  unfold content. wsimpl. rewrite Hgz, Hsrc.
  split; [reflexivity|]. split.
  - rewrite list_lookup_insert_eq by (rewrite length_insert; exact Lgz).
    rewrite <- app_assoc. reflexivity.
  - rewrite !list_lookup_insert_ne by exact Hne. exact Hdata.
Qed.

End ArchiveAppend.

(** C10. gzipArchive opens path+".gz" with O_APPEND and O_CREATE and without
    O_TRUNC.  When a .gz file is already there, with no fault from outside
    the compressed stream of the source is put behind the bytes the file
    had: nothing of them is replaced. *)
Theorem C10_gzipArchive_appends_to_existing_gz :
  forall (lib : External) (fileName : string) (w : World) (gz src : nat)
         (old data : bytes),
    faults w = [] ->
    fileName +:+ GzipSuffix ∉ dirs w ->
    names w !! (fileName +:+ GzipSuffix) = Some gz ->
    names w !! fileName = Some src ->
    gz <> src ->
    inodes w !! gz = Some old ->
    inodes w !! src = Some data ->
    hasFlag appendCreateWronly O_APPEND = true /\
    hasFlag appendCreateWronly O_CREATE = true /\
    hasFlag appendCreateWronly O_TRUNC = false /\
    fst (gzipArchive fileName w) = None /\
    content (snd (gzipArchive fileName w)) (fileName +:+ GzipSuffix)
      = Some (old ++ gzipBody data ++ gzipTrailer data).
Proof.
  intros lib fileName w gz src old data Hf Hd Hgz Hsrc Hne Hold Hdata.
  destruct flags_appendCreateWronly as (Fa & Fc & Ft & _).
  pose proof (gzipArchive_appends fileName w gz src old data Hf Hd Hgz Hsrc Hne Hold Hdata) as G.
  destruct (gzipArchive fileName w) as [err w'].
  destruct G as (G1 & G2 & _). cbn [fst snd]. tauto.
Qed.

Lemma C10_witness :
  content (snd (@gzipArchive exampleLib "/tmp/tbrfh/app.log" staleGzWorld))
          "/tmp/tbrfh/app.log.gz"
  = Some (list_byte_of_string "stale" ++ Byte.x1f :: Byte.x8b :: list_byte_of_string "hello"
          ++ [Byte.x00]).
Proof.
  refine (proj2 (proj2 (proj2 (proj2
    (C10_gzipArchive_appends_to_existing_gz exampleLib "/tmp/tbrfh/app.log" staleGzWorld
       1%nat 0%nat (list_byte_of_string "stale") (list_byte_of_string "hello")
       _ _ _ _ _ _ _))))).
  - reflexivity.
  - vm_compute. discriminate.
  - vm_compute. reflexivity.
  - vm_compute. reflexivity.
  - discriminate.
  - reflexivity.
  - reflexivity.
Defined.

(** ** Writing when the file is gone *)

(** C8, as stated, fails for TimeBasedRollingFileHook: with the path of its
    handle gone, write returns nil, the bytes go through the old descriptor
    to an inode without a name, and no file is made at the path. *)
Lemma C8_counterexample :
  file startedHook = Some (mkFile "/tmp/tbrfh/app.log" 0) /\
  content unlinkedWorld "/tmp/tbrfh/app.log" = None /\
  let '(err, hook', w') := TimeBasedRollingFileHook.write startedHook entry1 unlinkedWorld in
  err = None /\ file hook' = file startedHook /\
  names w' !! "/tmp/tbrfh/app.log" = None /\
  inodes w' = [list_byte_of_string "first" ++ [newline]].
Proof. vm_compute. repeat split. Qed.

Section Recreate.
Context `{External}.

Lemma ancestors_head fuel path : exists rest, ancestors fuel path = path :: rest.
Proof.
  destruct fuel as [|n]; cbn [ancestors]; [eauto|].
  destruct (String.eqb _ _); eauto.
Qed.

Lemma os_Stat_missing name w :
  faults w = [] -> names w !! name = None -> name ∉ dirs w ->
  os_Stat name w = (Some (PathError "stat" name ENOENT), w).
Proof.
  intros Hf Hn Hd. unfold os_Stat. rewrite (syscall_quiet w Hf), Hn.
  rewrite (bool_decide_eq_false_2 (is_Some None)) by (intros [x Hx]; discriminate).
  rewrite bool_decide_eq_false_2 by exact Hd. reflexivity.
Qed.

Lemma os_MkdirAll_ok path perm w :
  faults w = [] ->
  existsb (fun p => bool_decide (is_Some (names w !! p)))
          (ancestors (String.length path) path) = false ->
  os_MkdirAll path perm w
  = (None, set_dirs (fun d => list_to_set (ancestors (String.length path) path) ∪ d) w).
Proof.
  intros Hf Hn. unfold os_MkdirAll. rewrite (syscall_quiet w Hf), Hn. reflexivity.
Qed.

Lemma os_OpenFile_create name flag perm w :
  faults w = [] ->
  name ∉ dirs w -> names w !! name = None ->
  hasFlag flag O_CREATE = true -> Dir name ∈ dirs w ->
  os_OpenFile name flag perm w
  = (inl (mkFile name (length (fds w))),
     set_fds (fun l => l ++ [mkOpenFile (length (inodes w)) flag 0 true])
       (set_names (fun m => <[name := length (inodes w)]> m)
          (set_inodes (fun l => l ++ [[]]) w))).
Proof.
  intros Hf Hd Hn Hc Hp. unfold os_OpenFile.
  rewrite (syscall_quiet w Hf).
  rewrite (bool_decide_eq_false_2 _ Hd). cbn [andb]. rewrite Hn, Hc.
  rewrite (bool_decide_eq_true_2 _ Hp). reflexivity.
Qed.

(** FsrollHook.write with the path of its handle gone. *)
Lemma write_recreates hook entry w f b :
  file hook = Some f ->
  faults w = [] ->
  names w !! Name f = None -> Name f ∉ dirs w ->
  existsb (fun p => bool_decide (is_Some (names w !! p)))
          (ancestors (String.length (Dir (Name f))) (Dir (Name f))) = false ->
  Name f ∉ ancestors (String.length (Dir (Name f))) (Dir (Name f)) ->
  formatter hook entry = inl b ->
  let '(err, hook', w') := FsrollHook.write hook entry w in
  err = None /\
  file hook' = Some (mkFile (Name f) (length (fds w))) /\
  names w' !! Name f = Some (length (inodes w)) /\
  content w' (Name f) = Some b /\
  Dir (Name f) ∈ dirs w'.
Proof.
  intros Hfile Hf Hn Hd Hup Hself Hfmt.
  destruct flags_appendCreateWronly as (Fa & Fc & Ft & Fe & Fw & Fr).
  unfold FsrollHook.write. rewrite Hfile.
  rewrite (os_Stat_missing _ w Hf Hn Hd). cbv beta iota zeta. cbn [IsNotExist].
  rewrite (os_MkdirAll_ok _ _ w Hf Hup). cbv beta iota zeta.
  destruct (ancestors_head (String.length (Dir (Name f))) (Dir (Name f))) as [rest Hanc].
  rewrite (os_OpenFile_create _ _ _ _);
    [ | exact Hf
      | wsimpl; rewrite elem_of_union, elem_of_list_to_set; tauto
      | exact Hn | exact Fc
      | wsimpl; rewrite elem_of_union, elem_of_list_to_set, Hanc; left; left ].
  cbv beta iota zeta. wsimpl.
  unfold formatAndWrite. cbn [formatter set_file]. rewrite Hfmt.
  erewrite (File_Write_append _ _ _ _ []);
    [ | exact Hf | wsimpl; apply list_lookup_middle; reflexivity
      | reflexivity | exact Fw | exact Fa
      | wsimpl; apply list_lookup_middle; reflexivity ].
  cbv beta iota zeta. unfold content. wsimpl. cbn [file].
  rewrite lookup_insert_eq.
  split; [reflexivity|]. split; [reflexivity|]. split; [reflexivity|]. split.
  - rewrite insert_app_r_alt by lia. rewrite Nat.sub_diag. cbn [insert list_insert].
    apply list_lookup_middle. reflexivity.
  - rewrite elem_of_union, elem_of_list_to_set, Hanc. left; left.
Qed.

Lemma write_tb_names hook entry w :
  names (snd (TimeBasedRollingFileHook.write hook entry w)) = names w.
Proof.
  unfold TimeBasedRollingFileHook.write, formatAndWrite.
  destruct (file hook) as [f|]; [|reflexivity].
  destruct (formatter hook entry) as [b|e]; [|reflexivity].
  pose proof (File_Write_frame f b w) as [_ N].
  destruct (File_Write f b w) as [[n [e|]] w']; exact N.
Qed.

End Recreate.

(** C8, amended.  In FsrollHook, when the path of the handle is neither a
    file nor a directory any more, no regular file sits where a parent
    directory has to be, nothing fails for outside reasons and the formatter
    returns bytes, write makes the parent directories, opens a new file at
    the same path, installs it as the handle and writes the bytes to it: the
    file at the path then holds exactly these bytes.  In
    TimeBasedRollingFileHook, write looks at no path: it leaves the handle
    and the names of the world as they are. *)
Theorem C8_fsroll_write_recreates_a_removed_file :
  (forall (hook : Hook) (entry : Entry) (w : World) (f : File) (b : bytes),
      file hook = Some f ->
      faults w = [] ->
      names w !! Name f = None -> Name f ∉ dirs w ->
      existsb (fun p => bool_decide (is_Some (names w !! p)))
              (ancestors (String.length (Dir (Name f))) (Dir (Name f))) = false ->
      Name f ∉ ancestors (String.length (Dir (Name f))) (Dir (Name f)) ->
      formatter hook entry = inl b ->
      let '(err, hook', w') := FsrollHook.write hook entry w in
      err = None /\
      file hook' = Some (mkFile (Name f) (length (fds w))) /\
      content w' (Name f) = Some b /\
      Dir (Name f) ∈ dirs w') /\
  (forall (hook : Hook) (entry : Entry) (w : World),
      let '(_, hook', w') := TimeBasedRollingFileHook.write hook entry w in
      hook' = hook /\ names w' = names w).
Proof.
  split.
  - intros hook entry w f b Hfile Hf Hn Hd Hup Hself Hfmt.
    pose proof (write_recreates hook entry w f b Hfile Hf Hn Hd Hup Hself Hfmt) as R.
    destruct (FsrollHook.write hook entry w) as [[err hook'] w']. tauto.
  - intros hook entry w.
    pose proof (write_tb_frame hook entry w) as F.
    pose proof (write_tb_names hook entry w) as N.
    destruct (TimeBasedRollingFileHook.write hook entry w) as [[err hook'] w'].
    split; [exact F | exact N].
Qed.

Lemma C8_witness :
  let '(err, hook', w') := FsrollHook.write startedHook entry1 unlinkedWorld in
  err = None /\
  file hook' = Some (mkFile "/tmp/tbrfh/app.log" 1) /\
  content w' "/tmp/tbrfh/app.log" = Some (list_byte_of_string "first" ++ [newline]) /\
  "/tmp/tbrfh"%string ∈ dirs w'.
Proof.
  refine (proj1 C8_fsroll_write_recreates_a_removed_file startedHook entry1 unlinkedWorld
            (mkFile "/tmp/tbrfh/app.log" 0) (list_byte_of_string "first" ++ [newline])
            _ _ _ _ _ _ _).
  - reflexivity.
  - reflexivity.
  - vm_compute. reflexivity.
  - vm_compute. discriminate.
  - vm_compute. reflexivity.
  - intros Hin. apply list_elem_of_In in Hin. vm_compute in Hin.
    intuition discriminate.
  - reflexivity.
Defined.

(* ===================================================================== *)
(** * Part III.  Further properties of the code                          *)
(* ===================================================================== *)

(** ** Strings by index *)

Section StringIndex.

Lemma append_cons c (s t : string) : String c s +:+ t = String c (s +:+ t).
Proof. reflexivity. Qed.

Lemma append_nil_l (t : string) : "" +:+ t = t.
Proof. reflexivity. Qed.

Lemma length_append (s t : string) :
  String.length (s +:+ t) = (String.length s + String.length t)%nat.
Proof.
  induction s as [|c s IH]; [reflexivity|].
  rewrite append_cons. cbn [String.length]. rewrite IH. reflexivity.
Qed.

Lemma append_assoc (s t u : string) : (s +:+ t) +:+ u = s +:+ t +:+ u.
Proof.
  induction s as [|c s IH]; [reflexivity|].
  rewrite !append_cons, IH. reflexivity.
Qed.

Lemma substring_all (s : string) : substring 0 (String.length s) s = s.
Proof. induction s as [|c s IH]; [reflexivity|]. cbn. rewrite IH. reflexivity. Qed.

Lemma substring_app_l (s t : string) : substring 0 (String.length s) (s +:+ t) = s.
Proof.
  induction s as [|c s IH].
  - cbn. destruct t; reflexivity.
  - rewrite append_cons. cbn. rewrite IH. reflexivity.
Qed.

Lemma substring_app_r (s t : string) :
  substring (String.length s) (String.length t) (s +:+ t) = t.
Proof.
  induction s as [|c s IH].
  - rewrite append_nil_l. apply substring_all.
  - rewrite append_cons. cbn. exact IH.
Qed.

Lemma get_lt (s : string) i : (i < String.length s)%nat -> exists c, String.get i s = Some c.
Proof.
  revert i. induction s as [|c s IH]; intros i Hi; cbn in Hi; [lia|].
  destruct i as [|i]; cbn; [eauto|]. apply IH. lia.
Qed.

Lemma get_app_r (s t : string) i :
  String.get (String.length s + i) (s +:+ t) = String.get i t.
Proof. rewrite Nat.add_comm. symmetry. apply append_correct2. Qed.

Lemma get_app_l (s t : string) i :
  (i < String.length s)%nat -> String.get i (s +:+ t) = String.get i s.
Proof. intros Hi. symmetry. apply append_correct1. exact Hi. Qed.

End StringIndex.

(** ** GetFrontFileName *)

Section FrontFileName.
Import FsrollHook.

Lemma ascii_neq_eqb (c x : ascii) : c <> x -> Ascii.eqb c x = false.
Proof. intros Hc. apply Ascii.eqb_neq. exact Hc. Qed.

(** The loops that walk back from the end pass over a tail without the byte
    they look for. *)
Lemma lastSlash_tail (a b : string) k :
  (forall i, String.get i b <> Some "/"%char) ->
  lastSlash (a +:+ b) (String.length a + k) = lastSlash (a +:+ b) (String.length a).
Proof.
  intros Hb. induction k as [|k IH]; [rewrite Nat.add_0_r; reflexivity|].
  rewrite Nat.add_succ_r. cbn [lastSlash]. rewrite get_app_r.
  destruct (String.get k b) as [c|] eqn:E; [|exact IH].
  rewrite ascii_neq_eqb by (intros ->; exact (Hb k E)). exact IH.
Qed.

Lemma lastSlash_dir (d b : string) :
  lastSlash ((d +:+ "/") +:+ b) (String.length (d +:+ "/")) = String.length (d +:+ "/").
Proof.
  rewrite length_append. cbn [String.length]. rewrite Nat.add_1_r.
  cbn [lastSlash]. rewrite append_assoc.
  replace (String.length d) with (String.length d + 0)%nat at 1 by lia.
  rewrite get_app_r. cbn. reflexivity.
Qed.

Lemma lastSlash_element (dir base : string) :
  (dir = "" \/ exists d, dir = d +:+ "/") ->
  (forall i, String.get i base <> Some "/"%char) ->
  lastSlash (dir +:+ base) (String.length (dir +:+ base)) = String.length dir.
Proof.
  intros Hdir Hb. rewrite length_append, lastSlash_tail by exact Hb.
  destruct Hdir as [-> | [d ->]]; [reflexivity | apply lastSlash_dir].
Qed.

Lemma stripSlashes_none (dir base : string) :
  base <> "" ->
  (forall i, String.get i base <> Some "/"%char) ->
  Path.stripSlashes (dir +:+ base) (String.length (dir +:+ base))
  = String.length (dir +:+ base).
Proof.
  intros Hne Hb. rewrite length_append.
  destruct base as [|c base']; [congruence|].
  set (base := String c base') in *.
  assert (L : (String.length base = S (String.length base'))%nat) by reflexivity.
  rewrite L, Nat.add_succ_r. cbn [Path.stripSlashes]. rewrite get_app_r.
  destruct (get_lt base (String.length base')) as [x Hx]; [lia|].
  rewrite Hx, ascii_neq_eqb by (intros ->; exact (Hb _ Hx)). reflexivity.
Qed.

Lemma append_nonempty (dir base : string) : base <> "" -> dir +:+ base <> "".
Proof.
  intros Hne E. apply (f_equal String.length) in E.
  rewrite length_append in E. destruct base; [congruence|]. cbn in E. lia.
Qed.

Lemma Base_element (dir base : string) :
  (dir = "" \/ exists d, dir = d +:+ "/") ->
  base <> "" ->
  (forall i, String.get i base <> Some "/"%char) ->
  Path.Base (dir +:+ base) = base.
Proof.
  intros Hdir Hne Hb. unfold Path.Base.
  rewrite (proj2 (String.eqb_neq _ "") (append_nonempty dir base Hne)).
  rewrite stripSlashes_none, substring_all by assumption.
  rewrite lastSlash_element by assumption.
  rewrite length_append, Nat.add_comm, Nat.add_sub, substring_app_r.
  rewrite (proj2 (String.eqb_neq base "")) by exact Hne. reflexivity.
Qed.

Lemma Split_element (dir base : string) :
  (dir = "" \/ exists d, dir = d +:+ "/") ->
  (forall i, String.get i base <> Some "/"%char) ->
  Path.Split (dir +:+ base) = (dir, base).
Proof.
  intros Hdir Hb. unfold Path.Split. rewrite lastSlash_element by assumption.
  rewrite substring_app_l, length_append, Nat.add_comm, Nat.add_sub, substring_app_r.
  reflexivity.
Qed.

Lemma Ext_loop_tail (a b : string) k :
  (k <= String.length b)%nat ->
  (forall i, String.get i b <> Some "/"%char) ->
  (forall i, String.get i b <> Some "."%char) ->
  Ext_loop (a +:+ b) (String.length a + k) = Ext_loop (a +:+ b) (String.length a).
Proof.
  intros Hk Hs Hd. induction k as [|k IH]; [rewrite Nat.add_0_r; reflexivity|].
  rewrite Nat.add_succ_r. cbn [Ext_loop]. rewrite get_app_r.
  destruct (get_lt b k) as [c E]; [lia|]. rewrite E.
  rewrite ascii_neq_eqb by (intros ->; exact (Hs k E)).
  rewrite ascii_neq_eqb by (intros ->; exact (Hd k E)). apply IH. lia.
Qed.

(** The extension of a name that ends in a dot and a tail without dot and
    slash is the dot and the tail. *)
Lemma Ext_last_dot (front ext : string) :
  (forall i, String.get i ext <> Some "/"%char) ->
  (forall i, String.get i ext <> Some "."%char) ->
  Path.Ext (front +:+ "." +:+ ext) = "." +:+ ext.
Proof.
  intros Hs Hd. unfold Path.Ext.
  rewrite <- append_assoc.
  rewrite length_append, Ext_loop_tail by (assumption || lia).
  rewrite length_append. cbn [String.length]. rewrite Nat.add_1_r.
  cbn [Ext_loop]. rewrite append_assoc.
  replace (String.length front) with (String.length front + 0)%nat at 1 by lia.
  rewrite get_app_r.
  change ("." +:+ ext) with (String "."%char ext).
  cbn [String.get Ascii.eqb Bool.eqb andb].
  rewrite length_append, Nat.add_comm, Nat.add_sub.
  apply substring_app_r.
Qed.

Lemma Count_append (s t : string) c :
  Count (s +:+ t) c = (Count s c + Count t c)%nat.
Proof.
  induction s as [|x s IH]; [reflexivity|].
  rewrite append_cons. cbn [Count]. rewrite IH. destruct (Ascii.eqb x c); reflexivity.
Qed.

Lemma Count_get (s : string) c i : String.get i s = Some c -> (1 <= Count s c)%nat.
Proof.
  revert i. induction s as [|x s IH]; intros i Hi; [discriminate|].
  cbn [Count]. destruct i as [|i]; cbn in Hi.
  - injection Hi as ->. rewrite Ascii.eqb_refl. lia.
  - specialize (IH i Hi). destruct (Ascii.eqb x c); lia.
Qed.

Lemma Contains_Count (s : string) c : Contains s c = negb (Count s c =? 0)%nat.
Proof.
  unfold Contains. induction s as [|x s IH]; [reflexivity|].
  cbn [IndexByte Count]. destruct (Ascii.eqb x c); [reflexivity|].
  rewrite <- IH. destruct (IndexByte s c); reflexivity.
Qed.

Lemma TrimSuffix_append (s t : string) : TrimSuffix (s +:+ t) t = s.
Proof.
  unfold TrimSuffix, HasSuffix. rewrite length_append.
  replace (String.length t <=? String.length s + String.length t)%nat with true
    by (symmetry; apply Nat.leb_le; lia).
  rewrite Nat.add_sub, substring_app_r, String.eqb_refl. cbn [andb].
  apply substring_app_l.
Qed.

Lemma get_append_neq (s t : string) c :
  (forall i, String.get i s <> Some c) -> (forall i, String.get i t <> Some c) ->
  forall i, String.get i (s +:+ t) <> Some c.
Proof.
  intros Hs Ht i. destruct (Nat.lt_ge_cases i (String.length s)) as [L|L].
  - rewrite get_app_l by exact L. apply Hs.
  - replace i with (String.length s + (i - String.length s))%nat by lia.
    rewrite get_app_r. apply Ht.
Qed.

Lemma get_cons_neq x (t : string) c :
  x <> c -> (forall i, String.get i t <> Some c) ->
  forall i, String.get i (String x t) <> Some c.
Proof. intros Hx Ht [|i]; cbn; [congruence | apply Ht]. Qed.

Lemma Count_none (s : string) c :
  (forall i, String.get i s <> Some c) -> Count s c = O.
Proof.
  induction s as [|x s IH]; intros Hs; [reflexivity|].
  cbn [Count]. destruct (Ascii.eqb x c) eqn:E.
  - apply Ascii.eqb_eq in E. subst x. exfalso. apply (Hs O). reflexivity.
  - apply IH. intros i. apply (Hs (S i)).
Qed.

Lemma front_keeps (dir base : string) :
  (dir = "" \/ exists d, dir = d +:+ "/") ->
  base <> "" ->
  (forall i, String.get i base <> Some "/"%char) ->
  (Count base "." < 2)%nat ->
  GetFrontFileName (dir +:+ base) = dir +:+ base.
Proof.
  intros Hdir Hne Hb Hc. unfold GetFrontFileName.
  rewrite Base_element by assumption.
  destruct (negb (Contains base ".")); [reflexivity|].
  rewrite (proj2 (Nat.ltb_lt _ _) Hc). reflexivity.
Qed.

Lemma substring_none (s : string) n : substring n 0 s = "".
Proof.
  revert n. induction s as [|c s IH]; intros [|n]; cbn; auto.
Qed.

Lemma get_end (s : string) c : String.get (String.length s) (s +:+ String c "") = Some c.
Proof.
  replace (String.length s) with (String.length s + 0)%nat by lia.
  rewrite get_app_r. reflexivity.
Qed.

(** A trailing slash: Base drops it, Split keeps the whole path as the
    directory. *)
Lemma Base_trailing (dir base : string) :
  (dir = "" \/ exists d, dir = d +:+ "/") ->
  base <> "" ->
  (forall i, String.get i base <> Some "/"%char) ->
  Path.Base ((dir +:+ base) +:+ "/") = base.
Proof.
  intros Hdir Hne Hb. unfold Path.Base.
  rewrite (proj2 (String.eqb_neq _ "")) by (apply append_nonempty; discriminate).
  assert (Hs : Path.stripSlashes ((dir +:+ base) +:+ "/")
                 (String.length ((dir +:+ base) +:+ "/"))
               = String.length (dir +:+ base)).
  { rewrite (length_append (dir +:+ base)). cbn [String.length]. rewrite Nat.add_1_r.
    cbn [Path.stripSlashes]. rewrite get_end. cbn [Ascii.eqb Bool.eqb andb].
    rewrite length_append.
    destruct base as [|c base']; [congruence|].
    set (b := String c base') in *.
    assert (L : (String.length b = S (String.length base'))%nat) by reflexivity.
    rewrite L, Nat.add_succ_r. cbn [Path.stripSlashes].
    rewrite get_app_l by (rewrite length_append, L; lia).
    rewrite get_app_r.
    destruct (get_lt b (String.length base')) as [x Hx]; [lia|].
    rewrite Hx, ascii_neq_eqb by (intros ->; exact (Hb _ Hx)). reflexivity. }
  rewrite Hs, substring_app_l.
  rewrite lastSlash_element by assumption.
  rewrite length_append, Nat.add_comm, Nat.add_sub, substring_app_r.
  rewrite (proj2 (String.eqb_neq base "")) by exact Hne. reflexivity.
Qed.

Lemma Split_trailing (q : string) : Path.Split (q +:+ "/") = (q +:+ "/", "").
Proof.
  unfold Path.Split. rewrite length_append. cbn [String.length]. rewrite Nat.add_1_r.
  cbn [lastSlash]. rewrite get_end. cbn [Ascii.eqb Bool.eqb andb].
  rewrite Nat.sub_diag, substring_none.
  replace (S (String.length q)) with (String.length (q +:+ "/"))
    by (rewrite length_append; cbn; lia).
  rewrite substring_all. reflexivity.
Qed.

(** A string without the byte, by counting. *)
Lemma get_neq_of_Count (s : string) c :
  Count s c = O -> forall i, String.get i s <> Some c.
Proof.
  intros Hc i Hi. pose proof (Count_get s c i Hi). lia.
Qed.

End FrontFileName.

(** X1. GetFrontFileName cuts the last extension off a name whose last
    element has two dots or more.  For a path made of a directory part
    (empty, or ending in a slash), a front without slash that has a dot in
    it, a dot, and an extension without dot and slash, the result is the
    directory part and the front: "06.log.2djiDwOoiNNs" gives "06.log". *)
Theorem X1_GetFrontFileName_cuts_the_last_extension :
  forall dir front ext : string,
    (dir = "" \/ exists d, dir = d +:+ "/") ->
    (forall i, String.get i front <> Some "/"%char) ->
    (exists i, String.get i front = Some "."%char) ->
    (forall i, String.get i ext <> Some "/"%char) ->
    (forall i, String.get i ext <> Some "."%char) ->
    FsrollHook.GetFrontFileName (dir +:+ front +:+ "." +:+ ext) = dir +:+ front.
Proof.
  intros dir front ext Hdir Hf [k Hk] Hes Hed. unfold FsrollHook.GetFrontFileName.
  assert (Hb : forall i, String.get i (front +:+ "." +:+ ext) <> Some "/"%char).
  { apply get_append_neq; [exact Hf|]. apply get_cons_neq; [discriminate | exact Hes]. }
  assert (Hne : front +:+ "." +:+ ext <> "").
  { apply append_nonempty. discriminate. }
  rewrite Base_element, Split_element by assumption.
  rewrite Contains_Count, Count_append.
  pose proof (Count_get front "." k Hk) as C1.
  change (Count ("." +:+ ext) ".") with (S (Count ext ".")).
  replace (Count front "." + S (Count ext ".") =? 0)%nat with false
    by (symmetry; apply Nat.eqb_neq; lia).
  cbn [negb].
  replace (Count front "." + S (Count ext ".") <? 2)%nat with false
    by (symmetry; apply Nat.ltb_ge; lia).
  rewrite Ext_last_dot by assumption.
  rewrite TrimSuffix_append. reflexivity.
Qed.

Lemma X1_witness :
  FsrollHook.GetFrontFileName "/tmp/tbrfh/06.log.2djiDwOoiNNs" = "/tmp/tbrfh/06.log".
Proof.
  apply (X1_GetFrontFileName_cuts_the_last_extension "/tmp/tbrfh/" "06.log" "2djiDwOoiNNs").
  - right. exists "/tmp/tbrfh". reflexivity.
  - apply get_neq_of_Count. reflexivity.
  - exists 2%nat. reflexivity.
  - apply get_neq_of_Count. reflexivity.
  - apply get_neq_of_Count. reflexivity.
Defined.

(** X2. GetFrontFileName returns a name as it is when its last element has
    one dot or none: a single extension is never cut.  "/tmp/tbrfh/06.log"
    stays "/tmp/tbrfh/06.log". *)
Theorem X2_GetFrontFileName_keeps_a_single_extension :
  forall dir a b : string,
    (dir = "" \/ exists d, dir = d +:+ "/") ->
    (forall i, String.get i a <> Some "/"%char) ->
    (forall i, String.get i a <> Some "."%char) ->
    (forall i, String.get i b <> Some "/"%char) ->
    (forall i, String.get i b <> Some "."%char) ->
    FsrollHook.GetFrontFileName (dir +:+ a +:+ "." +:+ b) = dir +:+ a +:+ "." +:+ b /\
    (a <> "" -> FsrollHook.GetFrontFileName (dir +:+ a) = dir +:+ a).
Proof.
  intros dir a b Hdir Has Had Hbs Hbd. split.
  - apply front_keeps.
    + exact Hdir.
    + apply append_nonempty. discriminate.
    + apply get_append_neq; [exact Has|]. apply get_cons_neq; [discriminate | exact Hbs].
    + rewrite Count_append.
      change (Count ("." +:+ b) ".") with (S (Count b ".")).
      rewrite (Count_none a "." Had), (Count_none b "." Hbd). lia.
  - intros Hne. apply front_keeps; try assumption.
    rewrite (Count_none a "." Had). lia.
Qed.

Lemma X2_witness :
  FsrollHook.GetFrontFileName "/tmp/tbrfh/06.log" = "/tmp/tbrfh/06.log" /\
  FsrollHook.GetFrontFileName "/tmp/tbrfh/06" = "/tmp/tbrfh/06".
Proof.
  destruct (X2_GetFrontFileName_keeps_a_single_extension "/tmp/tbrfh/" "06" "log")
    as [T1 T2].
  - right. exists "/tmp/tbrfh". reflexivity.
  - apply get_neq_of_Count. reflexivity.
  - apply get_neq_of_Count. reflexivity.
  - apply get_neq_of_Count. reflexivity.
  - apply get_neq_of_Count. reflexivity.
  - split; [exact T1 | apply T2; discriminate].
Defined.

(** X3. After a trailing slash GetFrontFileName does not cut: path.Base
    leaves the slash out but path.Split takes the whole path for the
    directory, so the front of the last element is put behind the path.
    "/tmp/a.b.c/" gives "/tmp/a.b.c/a.b". *)
Theorem X3_GetFrontFileName_behind_a_trailing_slash :
  forall dir front ext : string,
    (dir = "" \/ exists d, dir = d +:+ "/") ->
    (forall i, String.get i front <> Some "/"%char) ->
    (exists i, String.get i front = Some "."%char) ->
    (forall i, String.get i ext <> Some "/"%char) ->
    (forall i, String.get i ext <> Some "."%char) ->
    FsrollHook.GetFrontFileName ((dir +:+ front +:+ "." +:+ ext) +:+ "/")
    = ((dir +:+ front +:+ "." +:+ ext) +:+ "/") +:+ front.
Proof.
  intros dir front ext Hdir Hf [k Hk] Hes Hed. unfold FsrollHook.GetFrontFileName.
  assert (Hb : forall i, String.get i (front +:+ "." +:+ ext) <> Some "/"%char).
  { apply get_append_neq; [exact Hf|]. apply get_cons_neq; [discriminate | exact Hes]. }
  assert (Hne : front +:+ "." +:+ ext <> "").
  { apply append_nonempty. discriminate. }
  rewrite Base_trailing, Split_trailing by assumption.
  rewrite Contains_Count, Count_append.
  pose proof (Count_get front "." k Hk) as C1.
  change (Count ("." +:+ ext) ".") with (S (Count ext ".")).
  replace (Count front "." + S (Count ext ".") =? 0)%nat with false
    by (symmetry; apply Nat.eqb_neq; lia).
  cbn [negb].
  replace (Count front "." + S (Count ext ".") <? 2)%nat with false
    by (symmetry; apply Nat.ltb_ge; lia).
  rewrite Ext_last_dot by assumption.
  rewrite TrimSuffix_append. reflexivity.
Qed.

Lemma X3_witness :
  FsrollHook.GetFrontFileName "/tmp/a.b.c/" = "/tmp/a.b.c/a.b".
Proof.
  apply (X3_GetFrontFileName_behind_a_trailing_slash "/tmp/" "a.b" "c").
  - right. exists "/tmp". reflexivity.
  - apply get_neq_of_Count. reflexivity.
  - exists 1%nat. reflexivity.
  - apply get_neq_of_Count. reflexivity.
  - apply get_neq_of_Count. reflexivity.
Defined.

(** ** The loop of writeEntry *)

Section Drain.
Context `{External}.

Lemma set_queue_same hook : set_queue (queue hook) hook = hook.
Proof. destruct hook; reflexivity. Qed.

Lemma set_queue_twice q q' hook : set_queue q (set_queue q' hook) = set_queue q hook.
Proof. reflexivity. Qed.

(** Without a handle, every turn of the loop takes an entry and drops it. *)
Lemma range_queue_no_file iter hook w :
  (forall entry rest hook0,
      queue hook0 = entry :: rest -> file hook0 = None ->
      iter hook0 w = (Running, set_queue rest hook0, w)) ->
  file hook = None ->
  range_queue iter (length (queue hook)) hook w = (Running, set_queue [] hook, w).
Proof.
  intros Hiter.
  remember (queue hook) as q eqn:Hq. revert hook Hq.
  induction q as [|entry rest IH]; intros hook Hq Hfile.
  - cbn [length range_queue]. rewrite Hq, set_queue_same. reflexivity.
  - cbn [length range_queue]. rewrite (Hiter entry rest hook (eq_sym Hq) Hfile).
    rewrite (IH (set_queue rest hook)) by (reflexivity || exact Hfile).
    reflexivity.
Qed.

Lemma fs_iter_no_file w entry rest hook0 :
  queue hook0 = entry :: rest -> file hook0 = None ->
  FsrollHook.writeEntry_iter hook0 w = (Running, set_queue rest hook0, w).
Proof.
  intros Hq Hf. unfold FsrollHook.writeEntry_iter, FsrollHook.write.
  rewrite Hq. cbn [file set_queue]. rewrite Hf. reflexivity.
Qed.

Lemma tb_iter_no_file w entry rest hook0 :
  queue hook0 = entry :: rest -> file hook0 = None ->
  TimeBasedRollingFileHook.writeEntry_iter hook0 w = (Running, set_queue rest hook0, w).
Proof.
  intros Hq Hf.
  unfold TimeBasedRollingFileHook.writeEntry_iter, TimeBasedRollingFileHook.write.
  rewrite Hq. cbn [file set_queue]. rewrite Hf. reflexivity.
Qed.

(** With the file in place and no fault, os.Stat finds it and the write of
    FsrollHook is the write of TimeBasedRollingFileHook. *)
Lemma os_Stat_found name w :
  faults w = [] -> is_Some (names w !! name) -> os_Stat name w = (None, w).
Proof.
  intros Hf Hn. unfold os_Stat. rewrite (syscall_quiet w Hf).
  rewrite (bool_decide_eq_true_2 _ Hn). reflexivity.
Qed.

Lemma write_fs_tb hook entry w f :
  file hook = Some f -> faults w = [] -> is_Some (names w !! Name f) ->
  FsrollHook.write hook entry w = TimeBasedRollingFileHook.write hook entry w.
Proof.
  intros Hfile Hf Hn. unfold FsrollHook.write, TimeBasedRollingFileHook.write.
  rewrite Hfile, (os_Stat_found _ w Hf Hn). reflexivity.
Qed.

Lemma File_Write_appendable f b w ino data :
  appendable w f ino data ->
  exists w',
    File_Write f b w = ((length b, None), w') /\
    appendable w' f ino (data ++ b) /\
    names w' = names w /\ dirs w' = dirs w /\ logged w' = logged w /\
    length (fds w') = length (fds w) /\ length (inodes w') = length (inodes w) /\
    (forall i, i <> ino -> inodes w' !! i = inodes w !! i) /\
    (forall i, i <> fd f -> fds w' !! i = fds w !! i).
Proof.
  intros (Hf & o & Hfd & Hino & Ho & Hw & Ha & Hi). subst ino.
  rewrite (File_Write_append f b w o data Hf Hfd Ho Hw Ha Hi).
  eexists. split; [reflexivity|].
  pose proof (lookup_lt_Some _ _ _ Hfd) as Lfd.
  pose proof (lookup_lt_Some _ _ _ Hi) as Li.
  split.
  { split; [exact Hf|]. eexists. wsimpl.
    split; [apply list_lookup_insert_eq; exact Lfd|]. wsimpl.
    repeat split; try assumption.
    apply list_lookup_insert_eq; exact Li. }
  wsimpl. rewrite !length_insert.
  split; [reflexivity|]. split; [reflexivity|]. split; [reflexivity|].
  split; [reflexivity|]. split; [reflexivity|].
  split; intros i Hne; apply list_lookup_insert_ne; congruence.
Qed.

Lemma accepted_cons fm e es :
  accepted fm (e :: es)
  = match fm e with inl b => b :: accepted fm es | inr _ => accepted fm es end.
Proof. unfold accepted. cbn. destruct (fm e); reflexivity. Qed.

Lemma rejected_cons fm e es :
  rejected fm (e :: es)
  = match fm e with
    | inl _ => rejected fm es
    | inr err => ("Error on writing to file: " +:+ Error err +:+ nl) :: rejected fm es
    end.
Proof. unfold rejected. cbn. destruct (fm e); reflexivity. Qed.

Lemma appendable_logged msg w f ino data :
  appendable w f ino data -> appendable (log_Printf msg w) f ino data.
Proof. intros A. exact A. Qed.

(** The loop of TimeBasedRollingFileHook with the handle ready: what the
    formatter accepts goes to the file in the order of the queue, what it
    rejects is logged, and the loop goes on to the end. *)
Lemma tb_drain es : forall hook w f ino data,
  queue hook = es ->
  file hook = Some f ->
  appendable w f ino data ->
  exists w',
    range_queue TimeBasedRollingFileHook.writeEntry_iter (length es) hook w
      = (Running, set_queue [] hook, w') /\
    appendable w' f ino (data ++ concat (accepted (formatter hook) es)) /\
    names w' = names w /\ dirs w' = dirs w /\
    logged w' = logged w ++ rejected (formatter hook) es /\
    (forall i, i <> ino -> inodes w' !! i = inodes w !! i).
Proof.
  induction es as [|e es IH]; intros hook w f ino data Hq Hfile Hap.
  - cbn [length range_queue]. exists w.
    assert (set_queue [] hook = hook) as -> by (rewrite <- Hq; apply set_queue_same).
    unfold accepted, rejected. cbn. rewrite !app_nil_r. tauto.
  - cbn [length range_queue].
    unfold TimeBasedRollingFileHook.writeEntry_iter at 1.
    rewrite Hq. unfold TimeBasedRollingFileHook.write, formatAndWrite.
    cbn [file formatter set_queue]. rewrite Hfile.
    rewrite accepted_cons, rejected_cons.
    destruct (formatter hook e) as [b|err].
    + destruct (File_Write_appendable f b w ino data Hap)
        as (w1 & -> & Hap1 & Hn1 & Hd1 & Hl1 & _ & _ & Hi1 & _).
      destruct (IH (set_queue es hook) w1 f ino (data ++ b) eq_refl Hfile Hap1)
        as (w2 & E & Hap2 & Hn2 & Hd2 & Hl2 & Hi2).
      rewrite E. exists w2.
      split; [reflexivity|]. cbn [concat]. rewrite app_assoc.
      split; [exact Hap2|]. split; [congruence|]. split; [congruence|].
      split; [cbn [formatter set_queue] in Hl2; congruence|].
      intros i Hne. rewrite Hi2, Hi1 by exact Hne. reflexivity.
    + destruct (IH (set_queue es hook)
                  (log_Printf ("Error on writing to file: " +:+ Error err +:+ nl) w)
                  f ino data eq_refl Hfile (appendable_logged _ _ _ _ _ Hap))
        as (w2 & E & Hap2 & Hn2 & Hd2 & Hl2 & Hi2).
      rewrite E. exists w2.
      split; [reflexivity|].
      split; [exact Hap2|]. split; [exact Hn2|]. split; [exact Hd2|].
      split; [|exact Hi2].
      rewrite Hl2. cbn [logged log_Printf set_logged formatter set_queue].
      rewrite <- app_assoc. reflexivity.
Qed.

Lemma accepted_all fm es :
  Forall (fun e => exists b, fm e = inl b) es -> rejected fm es = [].
Proof.
  induction 1 as [|e es [b Hb] _ IH]; [reflexivity|].
  rewrite rejected_cons, Hb. exact IH.
Qed.

(** The loop of FsrollHook with the file in place, the handle ready and a
    formatter that accepts every entry. *)
Lemma fs_drain es : forall hook w f ino data,
  queue hook = es ->
  file hook = Some f ->
  appendable w f ino data ->
  is_Some (names w !! Name f) ->
  Forall (fun e => exists b, formatter hook e = inl b) es ->
  exists w',
    range_queue FsrollHook.writeEntry_iter (length es) hook w
      = (Running, set_queue [] hook, w') /\
    appendable w' f ino (data ++ concat (accepted (formatter hook) es)) /\
    names w' = names w /\ dirs w' = dirs w /\ logged w' = logged w /\
    (forall i, i <> ino -> inodes w' !! i = inodes w !! i).
Proof.
  induction es as [|e es IH]; intros hook w f ino data Hq Hfile Hap Hname Hfmt.
  - cbn [length range_queue]. exists w.
    assert (set_queue [] hook = hook) as -> by (rewrite <- Hq; apply set_queue_same).
    unfold accepted, rejected. cbn. rewrite !app_nil_r. tauto.
  - inversion Hfmt as [|e' es' [b Hb] Hrest]; subst e' es'.
    cbn [length range_queue].
    unfold FsrollHook.writeEntry_iter at 1.
    rewrite Hq.
    rewrite (write_fs_tb (set_queue es hook) e w f Hfile (proj1 Hap) Hname).
    unfold TimeBasedRollingFileHook.write, formatAndWrite.
    cbn [file formatter set_queue]. rewrite Hfile, accepted_cons, Hb.
    destruct (File_Write_appendable f b w ino data Hap)
      as (w1 & -> & Hap1 & Hn1 & Hd1 & Hl1 & _ & _ & Hi1 & _).
    destruct (IH (set_queue es hook) w1 f ino (data ++ b) eq_refl Hfile Hap1
                 ltac:(rewrite Hn1; exact Hname) Hrest)
      as (w2 & E & Hap2 & Hn2 & Hd2 & Hl2 & Hi2).
    rewrite E. exists w2.
    split; [reflexivity|]. cbn [concat]. rewrite app_assoc.
    split; [exact Hap2|]. split; [congruence|]. split; [congruence|].
    split; [congruence|].
    intros i Hne. rewrite Hi2, Hi1 by exact Hne. reflexivity.
Qed.

End Drain.

(** X4. With a handle that is open for appending and no fault to come, the
    loop of writeEntry takes every entry of the queue in turn.  The hook of
    rollingfile_hook.go appends what the formatter accepts to the file, in
    the order of the queue, logs one line for each entry the formatter
    rejects, and goes on.  The hook of fsrollhook.go does the same when
    the file is at its path and the formatter accepts every entry. *)
Theorem X4_writeEntry_writes_the_queue_in_order :
  forall (hook : Hook) (w : World) (f : File) (ino : nat) (data : bytes),
    file hook = Some f ->
    appendable w f ino data ->
    (let '(task, hook', w') := TimeBasedRollingFileHook.writeEntry hook w in
     task = Running /\ hook' = set_queue [] hook /\
     inodes w' !! ino = Some (data ++ concat (accepted (formatter hook) (queue hook))) /\
     logged w' = logged w ++ rejected (formatter hook) (queue hook) /\
     names w' = names w) /\
    (is_Some (names w !! Name f) ->
     Forall (fun e => exists b, formatter hook e = inl b) (queue hook) ->
     let '(task, hook', w') := FsrollHook.writeEntry hook w in
     task = Running /\ hook' = set_queue [] hook /\
     inodes w' !! ino = Some (data ++ concat (accepted (formatter hook) (queue hook))) /\
     logged w' = logged w /\
     names w' = names w).
Proof.
  intros hook w f ino data Hfile Hap. split.
  - unfold TimeBasedRollingFileHook.writeEntry.
    destruct (tb_drain (queue hook) hook w f ino data eq_refl Hfile Hap)
      as (w' & -> & (_ & o & _ & _ & _ & _ & _ & Hi) & Hn & _ & Hl & _).
    tauto.
  - intros Hname Hfmt. unfold FsrollHook.writeEntry.
    destruct (fs_drain (queue hook) hook w f ino data eq_refl Hfile Hap Hname Hfmt)
      as (w' & -> & (_ & o & _ & _ & _ & _ & _ & Hi) & Hn & _ & Hl & _).
    tauto.
Qed.

Lemma X4_witness :
  let hook := set_queue [entry1; emptyEntry; entry2] startedHook in
  inodes (snd (TimeBasedRollingFileHook.writeEntry hook startedWorld)) !! 0%nat
  = Some (list_byte_of_string "first" ++ [newline]
          ++ list_byte_of_string "second" ++ [newline]) /\
  logged (snd (TimeBasedRollingFileHook.writeEntry hook startedWorld))
  = ["Error on writing to file: empty message" +:+ nl].
Proof.
  cbv zeta.
  destruct (X4_writeEntry_writes_the_queue_in_order
              (set_queue [entry1; emptyEntry; entry2] startedHook) startedWorld
              (mkFile "/tmp/tbrfh/app.log" 0) 0%nat []) as [T _].
  - reflexivity.
  - split; [reflexivity|]. exists (mkOpenFile 0 appendCreateWronly 0 true).
    vm_compute. repeat split.
  - destruct (TimeBasedRollingFileHook.writeEntry _ startedWorld) as [[task hook'] w'].
    destruct T as (_ & _ & T1 & T2 & _). cbn [snd]. split; [exact T1 | exact T2].
Defined.

(** X5. With the file of the handle at its path and no fault to come,
    os.Stat finds the file and write of fsrollhook.go does exactly what
    write of rollingfile_hook.go does: the same result, hook and world. *)
Theorem X5_FsrollHook_write_with_the_file_in_place :
  forall (hook : Hook) (entry : Entry) (w : World) (f : File),
    file hook = Some f ->
    faults w = [] ->
    is_Some (names w !! Name f) ->
    FsrollHook.write hook entry w = TimeBasedRollingFileHook.write hook entry w.
Proof. intros hook entry w f. apply write_fs_tb. Qed.

Lemma X5_witness :
  FsrollHook.write startedHook entry1 startedWorld
  = TimeBasedRollingFileHook.write startedHook entry1 startedWorld.
Proof.
  apply (X5_FsrollHook_write_with_the_file_in_place startedHook entry1 startedWorld
           (mkFile "/tmp/tbrfh/app.log" 0)).
  - reflexivity.
  - reflexivity.
  - vm_compute. eexists. reflexivity.
Defined.

(** X6. While the hook has no file (rolloverFile failed, or is between
    closing and opening), the loop of writeEntry of either hook takes every
    entry out of the queue and drops it: nothing is written, nothing is
    logged, and the loop goes on. *)
Theorem X6_entries_are_dropped_while_no_file_is_open :
  forall (hook : Hook) (w : World),
    file hook = None ->
    FsrollHook.writeEntry hook w = (Running, set_queue [] hook, w) /\
    TimeBasedRollingFileHook.writeEntry hook w = (Running, set_queue [] hook, w).
Proof.
  intros hook w Hfile. split.
  - apply range_queue_no_file; [apply fs_iter_no_file | exact Hfile].
  - apply range_queue_no_file; [apply tb_iter_no_file | exact Hfile].
Qed.

Lemma X6_witness :
  let hook := set_queue [entry1; entry2] (freshHook minutePattern) in
  let w := blockedWorld newYearsEve in
  FsrollHook.writeEntry hook w = (Running, set_queue [] hook, w) /\
  TimeBasedRollingFileHook.writeEntry hook w = (Running, set_queue [] hook, w).
Proof.
  apply (X6_entries_are_dropped_while_no_file_is_open
           (set_queue [entry1; entry2] (freshHook minutePattern))
           (blockedWorld newYearsEve)).
  reflexivity.
Defined.

(** ** The system calls, one by one *)

Section Calls.
Context `{External}.

Lemma content_eq w w' path :
  names w' = names w -> inodes w' = inodes w -> content w' path = content w path.
Proof. intros Hn Hi. unfold content. rewrite Hn, Hi. reflexivity. Qed.

(** File.Close: the descriptor is closed afterwards, whatever was reported;
    nothing else changes. *)
Lemma File_Close_world f w :
  let w' := snd (File_Close f w) in
  names w' = names w /\ dirs w' = dirs w /\ inodes w' = inodes w /\
  logged w' = logged w /\ (faults w = [] -> faults w' = []) /\
  length (fds w') = length (fds w) /\
  (forall i, i <> fd f -> fds w' !! i = fds w !! i) /\
  (forall o, fds w !! fd f = Some o ->
     fds w' !! fd f = Some (mkOpenFile (of_ino o) (of_flag o) (of_pos o) false)).
Proof.
  unfold File_Close.
  pose proof (syscall_quiet w) as Q.
  syscall_step w.
  assert (Hq : faults w = [] -> faults w0 = []).
  { intros E. specialize (Q E). congruence. }
  clear Q. rewrite <- Hn, <- Hd, <- Hi, <- Hf, <- Hl.
  destruct (fds w0 !! fd f) as [o|] eqn:E.
  - destruct (of_open o) eqn:Eo; cbn [negb].
    + assert (length (fds (set_fds (fun l => <[fd f := mkOpenFile (of_ino o) (of_flag o)
                 (of_pos o) false]> l) w0)) = length (fds w0)) as L
        by (wsimpl; apply length_insert).
      destruct fault; cbn [snd]; wsimpl;
        (repeat (split; [first [reflexivity | exact Hq | apply length_insert]|]); split;
         [ intros i Hne; apply list_lookup_insert_ne; congruence
         | intros o' [= <-]; apply list_lookup_insert_eq; eapply lookup_lt_Some; exact E ]).
    + cbn [snd]. repeat (split; [first [reflexivity | exact Hq]|]).
      intros o' Ho'. assert (o' = o) as -> by congruence.
      rewrite E. f_equal. destruct o; cbn in *; congruence.
  - cbn [snd]. repeat (split; [first [reflexivity | exact Hq]|]).
    intros o' [=].
Qed.

(** os.MkdirAll adds directories and touches nothing else. *)
Lemma os_MkdirAll_world path perm w :
  let w' := snd (os_MkdirAll path perm w) in
  names w' = names w /\ inodes w' = inodes w /\ fds w' = fds w /\
  logged w' = logged w /\ dirs w ⊆ dirs w' /\ (faults w = [] -> faults w' = []).
Proof.
  unfold os_MkdirAll.
  pose proof (syscall_quiet w) as Q.
  syscall_step w.
  assert (Hq : faults w = [] -> faults w0 = []).
  { intros E. specialize (Q E). congruence. }
  clear Q. rewrite <- Hn, <- Hd, <- Hi, <- Hf, <- Hl.
  destruct fault; [cbn; repeat split; auto|].
  destruct (existsb _ _); cbn; repeat split; auto. apply union_subseteq_r.
Qed.

(** os.OpenFile without O_TRUNC: the result, the descriptor it adds, and what
    stays. *)
Lemma os_OpenFile_world name flag perm w :
  hasFlag flag O_TRUNC = false ->
  let r := os_OpenFile name flag perm w in
  let w' := snd r in
  dirs w' = dirs w /\ logged w' = logged w /\ (faults w = [] -> faults w' = []) /\
  (forall path data, content w path = Some data -> content w' path = Some data) /\
  match fst r with
  | inl f =>
      f = mkFile name (length (fds w)) /\
      exists ino, fds w' = fds w ++ [mkOpenFile ino flag 0 true] /\
                  names w' !! name = Some ino
  | inr _ => fds w' = fds w /\ names w' = names w /\ inodes w' = inodes w
  end.
Proof.
  intros Ht. unfold os_OpenFile.
  pose proof (syscall_quiet w) as Q.
  syscall_step w.
  assert (Hq : faults w = [] -> faults w0 = []).
  { intros E. specialize (Q E). congruence. }
  clear Q.
  assert (Hcont : forall path, content w path = content w0 path).
  { intros path. symmetry. apply content_eq; assumption. }
  rewrite <- Hd, <- Hf, <- Hl.
  destruct fault; [cbn; repeat split; auto; intros; rewrite <- Hcont; assumption|].
  destruct (_ && _); [cbn; repeat split; auto; intros; rewrite <- Hcont; assumption|].
  destruct (names w0 !! name) as [ino|] eqn:E.
  - destruct (_ && _); [cbn; repeat split; auto; intros; rewrite <- Hcont; assumption|].
    rewrite Ht. cbn [andb fst snd]. wsimpl.
    repeat split; auto.
    + intros path data. rewrite Hcont. unfold content. wsimpl. tauto.
    + exists ino. split; [reflexivity | exact E].
  - destruct (_ && _); [|cbn; repeat split; auto; intros; rewrite <- Hcont; assumption].
    cbn [fst snd]. wsimpl. repeat split; auto.
    + intros path data. rewrite Hcont. unfold content. wsimpl.
      destruct (names w0 !! path) as [i|] eqn:Ep; [|discriminate].
      assert (path <> name) by congruence.
      rewrite lookup_insert_ne by congruence. rewrite Ep.
      intros Hi'. apply lookup_app_l_Some. exact Hi'.
    + eexists. split; [reflexivity|]. apply lookup_insert_eq.
Qed.

(** What the first part of rolloverFile does: close the old file, log a
    failure of the close. *)
Local Abbreviation closeOld hook w :=
  (match file hook with
   | Some oldFile =>
       let oldFileName := Name oldFile in
       let '(err, w1) := File_Close oldFile w in
       match err with
       | Some err =>
           (oldFileName,
            log_Printf ("Error on closing old file [" +:+ oldFileName +:+ "]: "
                        +:+ Error err +:+ nl) w1)
       | None => (oldFileName, w1)
       end
   | None => (EmptyString, w)
   end).

Lemma closeOld_world hook w :
  let w' := snd (closeOld hook w) in
  names w' = names w /\ dirs w' = dirs w /\ inodes w' = inodes w /\
  (faults w = [] -> faults w' = []) /\
  clock w' = clock w /\ ticks w' = ticks w /\ local w' = local w /\
  length (fds w') = length (fds w) /\
  (forall f, file hook = Some f ->
     (forall i, i <> fd f -> fds w' !! i = fds w !! i) /\
     (forall o, fds w !! fd f = Some o ->
        fds w' !! fd f = Some (mkOpenFile (of_ino o) (of_flag o) (of_pos o) false))) /\
  (file hook = None -> w' = w).
Proof.
  destruct (file hook) as [f|]; [|cbn; repeat split; auto; discriminate].
  pose proof (File_Close_world f w) as (Hn & Hd & Hi & Hl & Hq & Hlen & Hother & Hself).
  pose proof (File_Close_frame f w) as ((Hc & Ht & Hlo) & _).
  destruct (File_Close f w) as [[e|] w1]; cbn [snd] in *; wsimpl;
    (repeat (split; [assumption|]); split; [|discriminate];
     intros f' [= <-]; split; assumption).
Qed.

Lemma rolloverFile_unfold hook w :
  rolloverFile hook w =
  let '(oldFileName, w) := closeOld hook w in
  let hook := set_file None hook in
  let '(now, w) := time_Now_Local w in
  let newFileName := Format now (fileNamePattern hook) in
  let newFileName :=
    if String.eqb (ToLower (Ext newFileName)) GzipSuffix
    then TrimSuffix newFileName GzipSuffix
    else newFileName in
  let dir := Dir newFileName in
  let '(err, w) := os_MkdirAll dir (Z.lor ModeDir 493) w in
  match err with
  | Some err => ((oldFileName, Some err), hook, w)
  | None =>
      let '(r, w) := os_OpenFile newFileName appendCreateWronly 436 w in
      match r with
      | inr err => ((oldFileName, Some err), hook, w)
      | inl newFile => ((oldFileName, None), set_file (Some newFile) hook, w)
      end
  end.
Proof. reflexivity. Qed.


(** rolloverFile closes the descriptor of the old file, whatever happens
    next, and leaves every other descriptor as it was. *)
Lemma rolloverFile_fds hook w f :
  file hook = Some f ->
  let w' := snd (rolloverFile hook w) in
  (forall o, fds w !! fd f = Some o ->
     fds w' !! fd f = Some (mkOpenFile (of_ino o) (of_flag o) (of_pos o) false)) /\
  (forall i, i <> fd f -> (i < length (fds w))%nat -> fds w' !! i = fds w !! i) /\
  (length (fds w) <= length (fds w') <= S (length (fds w)))%nat.
Proof.
  intros Hfile. rewrite rolloverFile_unfold.
  pose proof (closeOld_world hook w) as (_ & _ & _ & _ & _ & _ & _ & Hlen & Hfds & _).
  destruct (Hfds f Hfile) as [Hother Hself]. clear Hfds.
  destruct (closeOld hook w) as [oldFileName w1]. cbn [snd] in *.
  cbn [time_Now_Local].
  set (newFileName := if String.eqb _ _ then _ else _). clearbody newFileName.
  pose proof (os_MkdirAll_world (Dir newFileName) (Z.lor ModeDir 493) (set_ticks S w1))
    as (_ & _ & Hm & _).
  destruct (os_MkdirAll _ _ _) as [[e|] w2]; cbn [snd] in *; wsimpl.
  { rewrite Hm, Hlen. split; [exact Hself|]. split; [|lia]. intros i Hne _. auto. }
  pose proof (os_OpenFile_world newFileName appendCreateWronly 436 w2
                (proj1 (proj2 (proj2 flags_appendCreateWronly)))) as (_ & _ & _ & _ & Ho).
  destruct (os_OpenFile _ _ _ _) as [[nf|e] w3]; cbn [fst snd] in *.
  - destruct Ho as (_ & ino & Hfd3 & _). rewrite Hfd3, Hm, length_app, Hlen. cbn [length].
    split; [|split; [|lia]].
    + intros o Ho. apply lookup_app_l_Some. auto.
    + intros i Hne Hi. rewrite lookup_app_l by lia. auto.
  - destruct Ho as (Hfd3 & _). rewrite Hfd3, Hm, Hlen.
    split; [exact Hself|]. split; [|lia]. intros i Hne _. auto.
Qed.

(** rolloverFile removes and truncates nothing. *)
Lemma rolloverFile_keeps hook w :
  let w' := snd (rolloverFile hook w) in
  (forall path data, content w path = Some data -> content w' path = Some data) /\
  dirs w ⊆ dirs w'.
Proof.
  rewrite rolloverFile_unfold.
  pose proof (closeOld_world hook w) as (Hn & Hd & Hi & _).
  destruct (closeOld hook w) as [oldFileName w1]. cbn [snd] in *.
  cbn [time_Now_Local].
  set (newFileName := if String.eqb _ _ then _ else _). clearbody newFileName.
  pose proof (os_MkdirAll_world (Dir newFileName) (Z.lor ModeDir 493) (set_ticks S w1))
    as (Hn2 & Hi2 & _ & _ & Hd2 & _).
  assert (C2 : forall path,
             content (snd (os_MkdirAll (Dir newFileName) (Z.lor ModeDir 493)
                             (set_ticks S w1))) path = content w path).
  { intros path. apply content_eq; wsimpl; congruence. }
  destruct (os_MkdirAll _ _ _) as [[e|] w2]; cbn [snd] in *; wsimpl.
  { split; [intros path data; rewrite C2; tauto | rewrite <- Hd; exact Hd2]. }
  pose proof (os_OpenFile_world newFileName appendCreateWronly 436 w2
                (proj1 (proj2 (proj2 flags_appendCreateWronly)))) as (Hd3 & _ & _ & Hc3 & _).
  destruct (os_OpenFile _ _ _ _) as [[nf|e] w3]; cbn [fst snd] in *;
    (split; [intros path data Hp; apply Hc3; rewrite C2; exact Hp
            | rewrite Hd3, <- Hd; exact Hd2]).
Qed.

(** rolloverFile where nothing stands in its way: the file named by the
    pattern is open for appending afterwards, with the content it had. *)
Lemma rolloverFile_ok hook w :
  let name := targetName (fileNamePattern hook) (nowLocal w) in
  faults w = [] ->
  name ∉ dirs w ->
  existsb (fun p => bool_decide (is_Some (names w !! p)))
          (ancestors (String.length (Dir name)) (Dir name)) = false ->
  name ∉ ancestors (String.length (Dir name)) (Dir name) ->
  (forall ino, names w !! name = Some ino -> is_Some (inodes w !! ino)) ->
  exists w' ino,
    rolloverFile hook w
    = ((match file hook with Some f => Name f | None => EmptyString end, None),
       set_file (Some (mkFile name (length (fds w)))) hook, w') /\
    names w' !! name = Some ino /\
    appendable w' (mkFile name (length (fds w))) ino (default [] (content w name)) /\
    Dir name ∈ dirs w' /\
    (file hook = None -> logged w' = logged w) /\
    (clock w' = clock w /\ ticks w' = S (ticks w) /\ local w' = local w) /\
    names w ⊆ names w' /\
    (forall i d, inodes w !! i = Some d -> inodes w' !! i = Some d) /\
    (names w !! name = None -> ino = length (inodes w)).
Proof.
  intros name Hf Hd Hup Hself Hwf.
  destruct flags_appendCreateWronly as (Fa & Fc & Ft & Fe & Fw & Fr).
  rewrite rolloverFile_unfold.
  pose proof (closeOld_world hook w) as (Hn & Hd1 & Hi & Hq & Hc & Ht & Hlo & Hlen & _ & Hnone).
  assert (Hold : fst (closeOld hook w)
                 = match file hook with Some f => Name f | None => EmptyString end).
  { destruct (file hook) as [f|]; [|reflexivity].
    destruct (File_Close f w) as [[e|] w1]; reflexivity. }
  destruct (closeOld hook w) as [oldFileName w1]. cbn [fst snd] in *. subst oldFileName.
  specialize (Hq Hf).
  cbn [time_Now_Local fileNamePattern set_file].
  rewrite Hc, Ht, Hlo.
  change (if String.eqb (ToLower (Ext (Format (In (mkTime (clock w (ticks w)) UTC) (local w))
                                         (fileNamePattern hook)))) GzipSuffix
          then TrimSuffix (Format (In (mkTime (clock w (ticks w)) UTC) (local w))
                             (fileNamePattern hook)) GzipSuffix
          else Format (In (mkTime (clock w (ticks w)) UTC) (local w))
                 (fileNamePattern hook))
    with name.
  cbv zeta.
  destruct (ancestors_head (String.length (Dir name)) (Dir name)) as [rest Hanc].
  rewrite (os_MkdirAll_ok _ _ (set_ticks S w1));
    [ | exact Hq | wsimpl; rewrite Hn; exact Hup ].
  set (w2 := set_dirs _ (set_ticks S w1)).
  assert (Hd2 : name ∉ dirs w2).
  { unfold w2. wsimpl. rewrite elem_of_union, elem_of_list_to_set, Hd1. tauto. }
  assert (Hp2 : Dir name ∈ dirs w2).
  { unfold w2. wsimpl. rewrite elem_of_union, elem_of_list_to_set, Hanc. left; left. }
  assert (Hq2 : faults w2 = []) by exact Hq.
  assert (Hn2 : names w2 = names w) by exact Hn.
  assert (Hi2 : inodes w2 = inodes w) by exact Hi.
  assert (Hlen2 : length (fds w2) = length (fds w)) by exact Hlen.
  assert (Hl2 : file hook = None -> logged w2 = logged w).
  { intros E. rewrite <- (Hnone E). reflexivity. }
  assert (Hc2 : clock w2 = clock w /\ ticks w2 = S (ticks w) /\ local w2 = local w).
  { unfold w2. wsimpl. rewrite Hc, Ht, Hlo. tauto. }
  clearbody w2.
  destruct (names w !! name) as [ino|] eqn:En.
  - destruct (Hwf ino eq_refl) as [data Hdata].
    rewrite (os_OpenFile_existing _ _ _ w2 ino Hq2);
      [ | rewrite bool_decide_eq_false_2 by exact Hd2; reflexivity
        | rewrite Hn2; exact En | rewrite Fe; apply andb_false_r
        | rewrite Ft; reflexivity ].
    rewrite Hlen2. eexists _, ino. split; [reflexivity|]. wsimpl.
    split; [rewrite Hn2; exact En|]. split.
    { split; [exact Hq2|]. eexists. wsimpl. split.
      - rewrite <- Hlen2. apply list_lookup_middle. reflexivity.
      - wsimpl. repeat split; try assumption.
        unfold content. rewrite En, Hi2, Hdata. reflexivity. }
    split; [exact Hp2|]. split; [exact Hl2|]. split; [exact Hc2|].
    split; [rewrite Hn2; reflexivity|]. split; [rewrite Hi2; tauto|]. discriminate.
  - rewrite (os_OpenFile_create _ _ _ w2 Hq2 Hd2);
      [ | rewrite Hn2; exact En | exact Fc | exact Hp2 ].
    rewrite Hlen2. eexists _, _. split; [reflexivity|]. wsimpl.
    split; [apply lookup_insert_eq|]. split.
    { split; [exact Hq2|]. eexists. wsimpl. split.
      - rewrite <- Hlen2. apply list_lookup_middle. reflexivity.
      - wsimpl. repeat split; try assumption.
        unfold content. rewrite En. cbn [default].
        apply list_lookup_middle. reflexivity. }
    split; [exact Hp2|]. split; [exact Hl2|]. split; [exact Hc2|].
    split; [rewrite Hn2; apply insert_subseteq; exact En|].
    split; [|intros _; rewrite Hi2; reflexivity].
    intros i d Hid. rewrite Hi2. apply lookup_app_l_Some. exact Hid.
Qed.

End Calls.

(** X7. rolloverFile closes the descriptor of the file the hook had,
    whatever the system calls report and whether or not a new file can be
    opened afterwards.  Every other descriptor is as it was, and at most one
    descriptor is new. *)
Theorem X7_rolloverFile_closes_the_old_descriptor :
  forall (lib : External) (hook : Hook) (w : World) (f : File) (o : OpenFile),
    file hook = Some f ->
    fds w !! fd f = Some o ->
    let w' := snd (rolloverFile hook w) in
    fds w' !! fd f = Some (mkOpenFile (of_ino o) (of_flag o) (of_pos o) false) /\
    (forall i, i <> fd f -> (i < length (fds w))%nat -> fds w' !! i = fds w !! i) /\
    (length (fds w') <= S (length (fds w)))%nat.
Proof.
  intros lib hook w f o Hfile Ho.
  destruct (rolloverFile_fds hook w f Hfile) as (Hself & Hother & Hlen).
  cbv zeta. split; [apply Hself; exact Ho|]. split; [exact Hother | lia].
Qed.

Lemma X7_witness :
  let r := @rolloverFile exampleLib startedHook fullAfterStatWorld in
  snd (fst (fst r)) = Some (PathError "mkdir" "/tmp/tbrfh" ENOSPC) /\
  fds (snd r) !! 0%nat = Some (mkOpenFile 0 appendCreateWronly 0 false).
Proof.
  cbv zeta. split; [vm_compute; reflexivity|].
  refine (proj1 (X7_rolloverFile_closes_the_old_descriptor exampleLib startedHook
                   fullAfterStatWorld (mkFile "/tmp/tbrfh/app.log" 0)
                   (mkOpenFile 0 appendCreateWronly 0 true) _ _)).
  - reflexivity.
  - reflexivity.
Defined.

(** X8. rolloverFile removes nothing and truncates nothing, whatever the
    system calls report: every file keeps the content it had, and every
    directory stays. *)
Theorem X8_rolloverFile_removes_and_truncates_nothing :
  forall (lib : External) (hook : Hook) (w : World),
    let w' := snd (rolloverFile hook w) in
    (forall path data, content w path = Some data -> content w' path = Some data) /\
    dirs w ⊆ dirs w'.
Proof. intros lib hook w. apply rolloverFile_keeps. Qed.

(** X9. Where nothing stands in its way, rolloverFile succeeds.  With a
    name spelled as the name of a file, no fault to come, no directory at
    the name the pattern renders to, and no regular file where a directory
    above it has to be, rolloverFile returns
    no error, makes the directories, and leaves as the handle of the hook
    a descriptor open for appending on the file of that name, which holds
    what it held before, or nothing when it is new. *)
Theorem X9_rolloverFile_opens_the_file_of_the_pattern :
  forall (lib : External) (hook : Hook) (w : World),
    let name := targetName (fileNamePattern hook) (nowLocal w) in
    fileSpelling name = true ->
    faults w = [] ->
    name ∉ dirs w ->
    existsb (fun p => bool_decide (is_Some (names w !! p)))
            (ancestors (String.length (Dir name)) (Dir name)) = false ->
    name ∉ ancestors (String.length (Dir name)) (Dir name) ->
    (forall ino, names w !! name = Some ino -> is_Some (inodes w !! ino)) ->
    let '(oldFileName, err, hook', w') := rolloverFile hook w in
    err = None /\
    file hook' = Some (mkFile name (length (fds w))) /\
    content w' name = Some (default [] (content w name)) /\
    Dir name ∈ dirs w' /\
    exists ino,
      names w' !! name = Some ino /\
      appendable w' (mkFile name (length (fds w))) ino (default [] (content w name)).
Proof.
  intros lib hook w name _ Hf Hd Hup Hself Hwf.
  destruct (rolloverFile_ok hook w Hf Hd Hup Hself Hwf)
    as (w' & ino & -> & Hn & Hap & Hdir & _).
  fold name in Hn, Hap, Hdir.
  split; [reflexivity|]. split; [reflexivity|]. split.
  - unfold content at 1. rewrite Hn.
    destruct Hap as (_ & o & _ & _ & _ & _ & _ & Hi). exact Hi.
  - split; [exact Hdir|]. exists ino. split; [exact Hn | exact Hap].
Qed.

Lemma X9_witness :
  let '(oldFileName, err, hook', w') :=
    @rolloverFile exampleLib (freshHook minutePattern) (quietWorld newYearsEve) in
  err = None /\
  file hook' = Some (mkFile "/tmp/tbrfh/2015/12/31/23/minute.59.log" 0) /\
  content w' "/tmp/tbrfh/2015/12/31/23/minute.59.log" = Some [] /\
  "/tmp/tbrfh/2015/12/31/23"%string ∈ dirs w'.
Proof.
  pose proof (X9_rolloverFile_opens_the_file_of_the_pattern exampleLib
                (freshHook minutePattern) (quietWorld newYearsEve)) as T.
  cbv zeta in T.
  assert (E : @targetName exampleLib (fileNamePattern (freshHook minutePattern))
                (nowLocal (quietWorld newYearsEve))
              = "/tmp/tbrfh/2015/12/31/23/minute.59.log"%string)
    by (vm_compute; reflexivity).
  rewrite E in T.
  assert (Ed : Dir "/tmp/tbrfh/2015/12/31/23/minute.59.log" = "/tmp/tbrfh/2015/12/31/23"%string)
    by (vm_compute; reflexivity).
  rewrite Ed in T.
  assert (Es : fileSpelling "/tmp/tbrfh/2015/12/31/23/minute.59.log" = true)
    by (vm_compute; reflexivity).
  specialize (T Es eq_refl).
  destruct (@rolloverFile exampleLib (freshHook minutePattern) (quietWorld newYearsEve))
    as [[[oldFileName err] hook'] w'].
  destruct T as (T1 & T2 & T3 & T4 & _).
  - vm_compute. discriminate.
  - vm_compute. reflexivity.
  - intros Hin. apply list_elem_of_In in Hin. vm_compute in Hin.
    intuition discriminate.
  - intros ino Hino. vm_compute in Hino. discriminate.
  - repeat split; assumption.
Defined.

(** ** The archiver and its descriptors *)

Section ArchiveFds.
Context `{External}.

(** File.Write and io.Copy touch one descriptor and keep it open. *)
Lemma File_Write_world f b w :
  let w' := snd (File_Write f b w) in
  names w' = names w /\ dirs w' = dirs w /\ logged w' = logged w /\
  (faults w = [] -> faults w' = []) /\
  length (fds w') = length (fds w) /\
  (forall i, i <> fd f -> fds w' !! i = fds w !! i).
Proof.
  unfold File_Write.
  pose proof (syscall_quiet w) as Q.
  syscall_step w.
  assert (Hq : faults w = [] -> faults w0 = []).
  { intros E. specialize (Q E). congruence. }
  clear Q. rewrite <- Hn, <- Hd, <- Hf, <- Hl.
  destruct fault; [cbn; repeat split; auto|].
  destruct (fds w0 !! fd f) as [o|]; [|cbn; repeat split; auto].
  destruct (negb (of_open o)); [cbn; repeat split; auto|].
  destruct (negb (writable (of_flag o))); [cbn; repeat split; auto|].
  cbn [snd]. wsimpl.
  repeat (split; [first [reflexivity | exact Hq | apply length_insert]|]).
  intros i Hne. apply list_lookup_insert_ne. congruence.
Qed.

Lemma io_Copy_world dst src w :
  let w' := snd (io_Copy dst src w) in
  names w' = names w /\ dirs w' = dirs w /\ inodes w' = inodes w /\
  logged w' = logged w /\ (faults w = [] -> faults w' = []) /\
  length (fds w') = length (fds w) /\
  (forall i, i <> fd src -> fds w' !! i = fds w !! i).
Proof.
  unfold io_Copy.
  pose proof (syscall_quiet w) as Q.
  syscall_step w.
  assert (Hq : faults w = [] -> faults w0 = []).
  { intros E. specialize (Q E). congruence. }
  clear Q. rewrite <- Hn, <- Hd, <- Hi, <- Hf, <- Hl.
  destruct fault; [cbn; repeat split; auto|].
  destruct (fds w0 !! fd src) as [o|]; [|cbn; repeat split; auto].
  destruct (negb (of_open o)); [cbn; repeat split; auto|].
  cbn [snd]. wsimpl.
  repeat (split; [first [reflexivity | exact Hq | apply length_insert]|]).
  intros i Hne. apply list_lookup_insert_ne. congruence.
Qed.

(** A call that works on descriptor [j] alone. *)
Local Abbreviation touches j w w' :=
  (length (fds w') = length (fds w) /\
   forall i, i <> j -> fds w' !! i = fds w !! i).

Local Abbreviation closedAt k w :=
  (exists o, fds w !! k = Some o /\ of_open o = false).

Lemma File_Write_touches f b w : touches (fd f) w (snd (File_Write f b w)).
Proof. pose proof (File_Write_world f b w) as (_ & _ & _ & _ & L & K). split; assumption. Qed.

Lemma io_Copy_touches dst src w : touches (fd src) w (snd (io_Copy dst src w)).
Proof.
  pose proof (io_Copy_world dst src w) as (_ & _ & _ & _ & _ & L & K). split; assumption.
Qed.

Lemma io_Copy_dst dst src w : gz_dst (fst (fst (io_Copy dst src w))) = gz_dst dst.
Proof.
  unfold io_Copy. destruct (syscall w) as [[e|] w0]; [reflexivity|].
  destruct (fds w0 !! fd src) as [o|]; [|reflexivity].
  destruct (negb (of_open o)); reflexivity.
Qed.

Lemma File_Close_touches f w :
  touches (fd f) w (snd (File_Close f w)) /\
  ((fd f < length (fds w))%nat -> closedAt (fd f) (snd (File_Close f w))).
Proof.
  pose proof (File_Close_world f w) as (_ & _ & _ & _ & _ & L & K & C).
  split; [split; assumption|]. intros Hlt.
  destruct (lookup_lt_is_Some_2 _ _ Hlt) as [o Ho].
  eexists. split; [apply C; exact Ho | reflexivity].
Qed.

(** gzipArchive leaves the descriptors it found as they were, and every
    descriptor it opened closed. *)
Lemma gzipArchive_fds fileName w :
  let w' := snd (gzipArchive fileName w) in
  (forall i, (i < length (fds w))%nat -> fds w' !! i = fds w !! i) /\
  (forall i o, (length (fds w) <= i)%nat -> fds w' !! i = Some o -> of_open o = false).
Proof.
  set (n := length (fds w)).
  assert (Fin1 : forall w',
    length (fds w') = S n ->
    (forall i, (i < n)%nat -> fds w' !! i = fds w !! i) ->
    closedAt n w' ->
    (forall i, (i < n)%nat -> fds w' !! i = fds w !! i) /\
    (forall i o, (n <= i)%nat -> fds w' !! i = Some o -> of_open o = false)).
  { intros w' L K (o & Ho & Hc). split; [exact K|]. intros i o' Hi Hl.
    pose proof (lookup_lt_Some _ _ _ Hl). assert (i = n) as -> by lia. congruence. }
  assert (Fin2 : forall w',
    length (fds w') = S (S n) ->
    (forall i, (i < n)%nat -> fds w' !! i = fds w !! i) ->
    closedAt n w' -> closedAt (S n) w' ->
    (forall i, (i < n)%nat -> fds w' !! i = fds w !! i) /\
    (forall i o, (n <= i)%nat -> fds w' !! i = Some o -> of_open o = false)).
  { intros w' L K (o & Ho & Hc) (o2 & Ho2 & Hc2). split; [exact K|]. intros i o' Hi Hl.
    pose proof (lookup_lt_Some _ _ _ Hl).
    assert (i = n \/ i = S n) as [-> | ->] by lia; congruence. }
  unfold gzipArchive.
  (* os.OpenFile(gzFileName, ...) *)
  pose proof (os_OpenFile_world (fileName +:+ GzipSuffix) appendCreateWronly 436 w
                (proj1 (proj2 (proj2 flags_appendCreateWronly)))) as (_ & _ & _ & _ & O1).
  destruct (os_OpenFile _ _ _ w) as [[gzFile|e] w1]; cbn [fst snd] in O1.
  2:{ destruct O1 as (E & _). cbn [snd]. rewrite E. split; [reflexivity|].
      intros i o Hi Hl. pose proof (lookup_lt_Some _ _ _ Hl). unfold n in Hi. lia. }
  destruct O1 as (-> & ino1 & E1 & _). fold n.
  assert (L1 : length (fds w1) = S n) by (rewrite E1, length_app; cbn; unfold n; lia).
  assert (K1 : forall i, (i < n)%nat -> fds w1 !! i = fds w !! i).
  { intros i Hi. rewrite E1. apply lookup_app_l. exact Hi. }
  (* os.Open(fileName) *)
  unfold os_Open.
  pose proof (os_OpenFile_world fileName O_RDONLY 0 w1 eq_refl) as (_ & _ & _ & _ & O2).
  destruct (os_OpenFile fileName O_RDONLY 0 w1) as [[oldFile|e] w2]; cbn [fst snd] in O2.
  2:{ destruct O2 as (E2 & _).
      pose proof (File_Close_touches (mkFile (fileName +:+ GzipSuffix) n) w2) as ((Lc & Kc) & Cc).
      destruct (File_Close _ w2) as [ec w3]. cbn [snd fd] in *.
      apply Fin1.
      - congruence.
      - intros i Hi. rewrite Kc by lia. rewrite E2. auto.
      - apply Cc. rewrite E2, L1. lia. }
  destruct O2 as (-> & ino2 & E2 & _). rewrite L1.
  assert (L2 : length (fds w2) = S (S n)) by (rewrite E2, length_app, L1; cbn; lia).
  assert (K2 : forall i, (i < n)%nat -> fds w2 !! i = fds w !! i).
  { intros i Hi. rewrite E2, lookup_app_l by lia. auto. }
  clear E1 E2 L1 K1.
  (* io.Copy(writer, oldFile) *)
  pose proof (io_Copy_touches (gzip_NewWriter (mkFile (fileName +:+ GzipSuffix) n))
                (mkFile fileName (S n)) w2) as (L3 & K3).
  pose proof (io_Copy_dst (gzip_NewWriter (mkFile (fileName +:+ GzipSuffix) n))
                (mkFile fileName (S n)) w2) as Hdst.
  destruct (io_Copy _ _ w2) as [[writer err] w3]. cbn [fst snd fd gz_dst gzip_NewWriter] in L3, K3, Hdst.
  assert (L3' : length (fds w3) = S (S n)) by congruence.
  assert (K3' : forall i, (i < n)%nat -> fds w3 !! i = fds w !! i).
  { intros i Hi. rewrite K3 by lia. auto. }
  clear L2 K2 L3 K3.
  assert (Tail : forall w4 : World,
    length (fds w4) = S (S n) ->
    (forall i, (i < n)%nat -> fds w4 !! i = fds w !! i) ->
    let w6 := snd (File_Close (mkFile (fileName +:+ GzipSuffix) n)
                     (snd (File_Close (mkFile fileName (S n)) w4))) in
    (forall i, (i < n)%nat -> fds w6 !! i = fds w !! i) /\
    (forall i o, (n <= i)%nat -> fds w6 !! i = Some o -> of_open o = false)).
  { intros w4 L4 K4.
    pose proof (File_Close_touches (mkFile fileName (S n)) w4) as ((L5 & K5) & C5).
    set (w5 := snd (File_Close (mkFile fileName (S n)) w4)) in *. cbn [fd] in *.
    pose proof (File_Close_touches (mkFile (fileName +:+ GzipSuffix) n) w5)
      as ((L6 & K6) & C6).
    cbn [fd] in *. cbv zeta.
    set (w6 := snd (File_Close (mkFile (fileName +:+ GzipSuffix) n) w5)) in *.
    apply Fin2.
    - congruence.
    - intros i Hi. rewrite K6, K5 by lia. auto.
    - apply C6. lia.
    - destruct C5 as (o & Ho & Hc); [lia|]. exists o. split; [|exact Hc].
      rewrite K6 by lia. exact Ho. }
  destruct err as [e|].
  - specialize (Tail w3 L3' K3').
    destruct (File_Close (mkFile fileName (S n)) w3) as [e1 w4]. cbn [snd] in Tail.
    destruct (File_Close _ w4) as [e2 w5]. exact Tail.
  - unfold Writer_Flush, Writer_Close.
    pose proof (File_Write_touches (gz_dst writer) (gzipBody (gz_data writer)) w3) as (L4 & K4).
    destruct (File_Write (gz_dst writer) (gzipBody (gz_data writer)) w3) as [[n4 e4] w4].
    cbn [snd] in L4, K4.
    pose proof (File_Write_touches (gz_dst writer) (gzipTrailer (gz_data writer)) w4)
      as (L5 & K5).
    destruct (File_Write (gz_dst writer) (gzipTrailer (gz_data writer)) w4) as [[n5 e5] w5].
    cbn [snd] in L5, K5.
    rewrite Hdst in K4, K5. cbn [fd] in K4, K5.
    specialize (Tail w5).
    destruct (File_Close (mkFile fileName (S n)) w5) as [e6 w6]. cbn [snd] in Tail.
    destruct (File_Close _ w6) as [e7 w7]. cbn [snd] in *.
    apply Tail; [congruence|].
    intros i Hi. rewrite K5, K4 by lia. auto.
Qed.

Lemma gzipArchive_quiet fileName w :
  faults w = [] -> faults (snd (gzipArchive fileName w)) = [].
Proof.
  intros Hf. unfold gzipArchive.
  pose proof (os_OpenFile_world (fileName +:+ GzipSuffix) appendCreateWronly 436 w
                (proj1 (proj2 (proj2 flags_appendCreateWronly)))) as (_ & _ & Q1 & _).
  destruct (os_OpenFile _ _ _ w) as [[gzFile|e] w1]; cbn [fst snd] in Q1; [|auto].
  specialize (Q1 Hf). unfold os_Open.
  pose proof (os_OpenFile_world fileName O_RDONLY 0 w1 eq_refl) as (_ & _ & Q2 & _).
  destruct (os_OpenFile fileName O_RDONLY 0 w1) as [[oldFile|e] w2]; cbn [fst snd] in Q2;
    specialize (Q2 Q1).
  2:{ pose proof (File_Close_world gzFile w2) as (_ & _ & _ & _ & Q3 & _).
      destruct (File_Close gzFile w2) as [e3 w3]. auto. }
  pose proof (io_Copy_world (gzip_NewWriter gzFile) oldFile w2) as (_ & _ & _ & _ & Q3 & _).
  destruct (io_Copy _ _ w2) as [[writer err] w3]. cbn [snd] in Q3. specialize (Q3 Q2).
  destruct err as [e|].
  - pose proof (File_Close_world oldFile w3) as (_ & _ & _ & _ & Q4 & _).
    destruct (File_Close oldFile w3) as [e4 w4]. cbn [snd] in Q4.
    pose proof (File_Close_world gzFile w4) as (_ & _ & _ & _ & Q5 & _).
    destruct (File_Close gzFile w4) as [e5 w5]. auto.
  - unfold Writer_Flush, Writer_Close.
    pose proof (File_Write_world (gz_dst writer) (gzipBody (gz_data writer)) w3)
      as (_ & _ & _ & Q4 & _).
    destruct (File_Write _ (gzipBody _) w3) as [[n4 e4] w4]. cbn [snd] in Q4.
    pose proof (File_Write_world (gz_dst writer) (gzipTrailer (gz_data writer)) w4)
      as (_ & _ & _ & Q5 & _).
    destruct (File_Write _ (gzipTrailer _) w4) as [[n5 e5] w5]. cbn [snd] in Q5.
    pose proof (File_Close_world oldFile w5) as (_ & _ & _ & _ & Q6 & _).
    destruct (File_Close oldFile w5) as [e6 w6]. cbn [snd] in Q6.
    pose proof (File_Close_world gzFile w6) as (_ & _ & _ & _ & Q7 & _).
    destruct (File_Close gzFile w6) as [e7 w7]. auto.
Qed.

Lemma append_gz_neq (fileName : string) : fileName +:+ GzipSuffix <> fileName.
Proof.
  intros E. apply (f_equal String.length) in E.
  rewrite length_append in E. cbn in E. lia.
Qed.

(** gzipArchive with no .gz file there yet: the file is made and holds the
    compressed stream; the source is as it was. *)
Lemma gzipArchive_fresh fileName w src (data : bytes) :
  faults w = [] ->
  fileName +:+ GzipSuffix ∉ dirs w ->
  names w !! (fileName +:+ GzipSuffix) = None ->
  Dir (fileName +:+ GzipSuffix) ∈ dirs w ->
  names w !! fileName = Some src ->
  inodes w !! src = Some data ->
  let '(err, w') := gzipArchive fileName w in
  err = None /\
  content w' (fileName +:+ GzipSuffix) = Some (gzipBody data ++ gzipTrailer data) /\
  content w' fileName = Some data.
Proof.
  intros Hf Hd Hgz Hdir Hsrc Hdata.
  destruct flags_appendCreateWronly as (Fa & Fc & Ft & Fe & Fw & Fr).
  pose proof (lookup_lt_Some _ _ _ Hdata) as Lsrc.
  pose proof (append_gz_neq fileName) as Hne.
  unfold gzipArchive.
  (* os.OpenFile(gzFileName, ...) *)
  rewrite (os_OpenFile_create _ _ _ w Hf Hd Hgz Fc Hdir).
  cbv beta iota zeta.
  (* os.Open(fileName) *)
  unfold os_Open.
  rewrite (os_OpenFile_existing _ _ _ _ src);
    [ | exact Hf | rewrite Fr; apply andb_false_r
      | wsimpl; rewrite lookup_insert_ne by exact Hne; exact Hsrc
      | reflexivity | reflexivity ].
  cbv beta iota zeta. wsimpl. rewrite length_snoc.
  (* io.Copy(writer, oldFile) *)
  erewrite (io_Copy_whole _ _ _ _ data);
    [ | exact Hf | wsimpl; apply two_last | reflexivity | reflexivity
      | wsimpl; apply lookup_app_l_Some; exact Hdata ].
  cbv beta iota zeta. wsimpl.
  (* writer.Flush() *)
  unfold Writer_Flush.
  erewrite (File_Write_append _ _ _ _ []);
    [ | exact Hf | wsimpl; rewrite two_ins_last; apply two_first
      | reflexivity | exact Fw | exact Fa
      | wsimpl; apply list_lookup_middle; reflexivity ].
  cbv beta iota zeta. wsimpl.
  (* writer.Close() *)
  unfold Writer_Close.
  erewrite (File_Write_append _ _ _ _ ([] ++ gzipBody data));
    [ | exact Hf
      | wsimpl; rewrite two_ins_last, two_ins_first; apply two_first
      | reflexivity | exact Fw | exact Fa
      | wsimpl; apply list_lookup_insert_eq; rewrite length_snoc; lia ].
  cbv beta iota zeta. wsimpl.
  (* the deferred oldFile.Close() and gzFile.Close() *)
  erewrite (File_Close_open _ _ _);
    [ | exact Hf
      | wsimpl; rewrite two_ins_last, !two_ins_first; apply two_last
      | reflexivity ].
  erewrite (File_Close_open _ _ _);
    [ | exact Hf
      | wsimpl; rewrite two_ins_last, !two_ins_first, two_ins_last; apply two_first
      | reflexivity ].
  unfold content. wsimpl. rewrite lookup_insert_eq, lookup_insert_ne by exact Hne.
  rewrite Hsrc.
  split; [reflexivity|]. split.
  - rewrite list_lookup_insert_eq by (rewrite length_insert, length_snoc; lia).
    reflexivity.
  - rewrite !list_lookup_insert_ne by lia. apply lookup_app_l_Some. exact Hdata.
Qed.

(** os.Remove of a regular file. *)
Lemma os_Remove_file name w :
  faults w = [] -> is_Some (names w !! name) ->
  os_Remove name w = (None, set_names (fun m => delete name m) w).
Proof.
  intros Hf Hn. unfold os_Remove. rewrite (syscall_quiet w Hf).
  rewrite (bool_decide_eq_true_2 _ Hn). reflexivity.
Qed.

(** gzipArchiveAndDelete where nothing fails: the .gz file has the stream
    behind what it held, and the source has no name any more. *)
Lemma gzipArchiveAndDelete_ok fileName w src (data : bytes) :
  faults w = [] ->
  fileName +:+ GzipSuffix ∉ dirs w ->
  names w !! fileName = Some src ->
  inodes w !! src = Some data ->
  match names w !! (fileName +:+ GzipSuffix) with
  | Some gz => gz <> src /\ is_Some (inodes w !! gz)
  | None => Dir (fileName +:+ GzipSuffix) ∈ dirs w
  end ->
  let '(err, w') := gzipArchiveAndDelete fileName w in
  err = None /\
  names w' !! fileName = None /\
  content w' (fileName +:+ GzipSuffix)
  = Some (default [] (content w (fileName +:+ GzipSuffix))
          ++ gzipBody data ++ gzipTrailer data).
Proof.
  intros Hf Hd Hsrc Hdata Hgz.
  pose proof (gzipArchive_quiet fileName w Hf) as Q.
  pose proof (gzipArchive_namesKept fileName w) as K.
  pose proof (append_gz_neq fileName) as Hne.
  assert (G : let '(err, w') := gzipArchive fileName w in
              err = None /\
              content w' (fileName +:+ GzipSuffix)
              = Some (default [] (content w (fileName +:+ GzipSuffix))
                      ++ gzipBody data ++ gzipTrailer data)).
  { unfold content at 2.
    destruct (names w !! (fileName +:+ GzipSuffix)) as [gz|] eqn:E.
    - destruct Hgz as [Hneq [old Hold]].
      pose proof (gzipArchive_appends fileName w gz src old data Hf Hd E Hsrc Hneq Hold Hdata)
        as A.
      destruct (gzipArchive fileName w) as [err w']. rewrite Hold. cbn [default]. tauto.
    - pose proof (gzipArchive_fresh fileName w src data Hf Hd E Hgz Hsrc Hdata) as A.
      destruct (gzipArchive fileName w) as [err w']. cbn [default app]. tauto. }
  unfold gzipArchiveAndDelete.
  destruct (gzipArchive fileName w) as [err w1]. cbn [snd] in Q, K.
  destruct G as [-> G].
  assert (Hsrc1 : names w1 !! fileName = Some src).
  { eapply lookup_weaken; [exact Hsrc | exact K]. }
  rewrite (os_Remove_file fileName w1 Q) by (rewrite Hsrc1; eauto).
  split; [reflexivity|]. split.
  - wsimpl. apply lookup_delete_eq.
  - revert G. unfold content. wsimpl. rewrite lookup_delete_ne by congruence. tauto.
Qed.

(** gzipArchive of a source that is not there: the error of os.Open comes
    back, and the .gz file it made on the way stays behind, empty. *)
Lemma gzipArchive_missing fileName w :
  faults w = [] ->
  names w !! fileName = None ->
  fileName +:+ GzipSuffix ∉ dirs w ->
  names w !! (fileName +:+ GzipSuffix) = None ->
  Dir (fileName +:+ GzipSuffix) ∈ dirs w ->
  let '(err, w') := gzipArchive fileName w in
  err = Some (PathError "open" fileName ENOENT) /\
  content w' (fileName +:+ GzipSuffix) = Some [] /\
  names w' !! fileName = None.
Proof.
  intros Hf Hsrc Hd Hgz Hdir.
  destruct flags_appendCreateWronly as (Fa & Fc & Ft & Fe & Fw & Fr).
  pose proof (append_gz_neq fileName) as Hne.
  unfold gzipArchive.
  rewrite (os_OpenFile_create _ _ _ w Hf Hd Hgz Fc Hdir).
  cbv beta iota zeta.
  unfold os_Open, os_OpenFile at 1.
  rewrite syscall_quiet by exact Hf.
  rewrite Fr, andb_false_r. wsimpl.
  rewrite lookup_insert_ne by exact Hne. rewrite Hsrc.
  change (hasFlag O_RDONLY O_CREATE) with false. cbn [andb].
  erewrite (File_Close_open _ _ _);
    [ | exact Hf | wsimpl; apply list_lookup_middle; reflexivity | reflexivity ].
  unfold content. wsimpl. rewrite lookup_insert_eq, lookup_insert_ne by exact Hne.
  split; [reflexivity|]. split; [|exact Hsrc].
  apply list_lookup_middle. reflexivity.
Qed.

End ArchiveFds.

(** X10. gzipArchiveAndDelete where nothing fails: with no fault to come, a
    source that is a regular file, and a .gz file that either is a regular
    file of its own or can be made beside it, the function returns no
    error; the .gz file then holds what it held before (nothing when it is
    new) followed by the compressed stream of the source, and the source
    has no name any more. *)
Theorem X10_gzipArchiveAndDelete_replaces_the_file_by_its_archive :
  forall (lib : External) (fileName : string) (w : World) (src : nat) (data : bytes),
    fileSpelling fileName = true ->
    faults w = [] ->
    fileName +:+ GzipSuffix ∉ dirs w ->
    names w !! fileName = Some src ->
    inodes w !! src = Some data ->
    match names w !! (fileName +:+ GzipSuffix) with
    | Some gz => gz <> src /\ is_Some (inodes w !! gz)
    | None => Dir (fileName +:+ GzipSuffix) ∈ dirs w
    end ->
    let '(err, w') := gzipArchiveAndDelete fileName w in
    err = None /\
    names w' !! fileName = None /\
    content w' (fileName +:+ GzipSuffix)
    = Some (default [] (content w (fileName +:+ GzipSuffix))
            ++ gzipBody data ++ gzipTrailer data).
Proof. intros lib fileName w src data _. apply gzipArchiveAndDelete_ok. Qed.

Lemma X10_witness :
  let '(err, w') := @gzipArchiveAndDelete exampleLib "/tmp/tbrfh/app.log" staleGzWorld in
  err = None /\
  names w' !! "/tmp/tbrfh/app.log" = None /\
  content w' "/tmp/tbrfh/app.log.gz"
  = Some (list_byte_of_string "stale" ++ Byte.x1f :: Byte.x8b :: list_byte_of_string "hello"
          ++ [Byte.x00]).
Proof.
  refine (X10_gzipArchiveAndDelete_replaces_the_file_by_its_archive exampleLib
            "/tmp/tbrfh/app.log" staleGzWorld 0%nat (list_byte_of_string "hello")
            _ _ _ _ _ _).
  - vm_compute. reflexivity.
  - reflexivity.
  - vm_compute. discriminate.
  - vm_compute. reflexivity.
  - reflexivity.
  - vm_compute. split; [discriminate | eexists; reflexivity].
Defined.

(** X11. gzipArchive of a source that is not there, neither as a file nor
    as a directory: the .gz file is made before the source is opened, so the
    error of os.Open comes back and an empty .gz file stays behind;
    gzipArchiveAndDelete returns the same error. *)
Theorem X11_gzipArchive_of_a_missing_file_leaves_an_empty_gz :
  forall (lib : External) (fileName : string) (w : World),
    fileSpelling fileName = true ->
    fileName ∉ dirs w ->
    faults w = [] ->
    names w !! fileName = None ->
    fileName +:+ GzipSuffix ∉ dirs w ->
    names w !! (fileName +:+ GzipSuffix) = None ->
    Dir (fileName +:+ GzipSuffix) ∈ dirs w ->
    fst (gzipArchive fileName w) = Some (PathError "open" fileName ENOENT) /\
    fst (gzipArchiveAndDelete fileName w) = Some (PathError "open" fileName ENOENT) /\
    content (snd (gzipArchiveAndDelete fileName w)) (fileName +:+ GzipSuffix) = Some [].
Proof.
  intros lib fileName w _ _ Hf Hsrc Hd Hgz Hdir.
  pose proof (gzipArchive_missing fileName w Hf Hsrc Hd Hgz Hdir) as G.
  unfold gzipArchiveAndDelete.
  destruct (gzipArchive fileName w) as [err w']. destruct G as (-> & G & _).
  cbn [fst snd]. tauto.
Qed.

Lemma X11_witness :
  fst (@gzipArchiveAndDelete exampleLib "/tmp/tbrfh/app.log" emptyDirWorld)
  = Some (PathError "open" "/tmp/tbrfh/app.log" ENOENT) /\
  content (snd (@gzipArchiveAndDelete exampleLib "/tmp/tbrfh/app.log" emptyDirWorld))
          "/tmp/tbrfh/app.log.gz" = Some [].
Proof.
  refine (proj2 (X11_gzipArchive_of_a_missing_file_leaves_an_empty_gz exampleLib
                   "/tmp/tbrfh/app.log" emptyDirWorld _ _ _ _ _ _ _)).
  - vm_compute. reflexivity.
  - vm_compute. discriminate.
  - reflexivity.
  - vm_compute. reflexivity.
  - vm_compute. discriminate.
  - vm_compute. reflexivity.
  - vm_compute. reflexivity.
Defined.

(** X12. gzipArchive leaks no descriptor, whatever the system calls report:
    the descriptors that were there are as they were, and every descriptor
    the function opened is closed when it returns. *)
Theorem X12_gzipArchive_closes_what_it_opens :
  forall (lib : External) (fileName : string) (w : World),
    let w' := snd (gzipArchive fileName w) in
    (forall i, (i < length (fds w))%nat -> fds w' !! i = fds w !! i) /\
    (forall i o, (length (fds w) <= i)%nat -> fds w' !! i = Some o -> of_open o = false).
Proof. intros lib fileName w. apply gzipArchive_fds. Qed.

(** ** More on the two writes, the timer and the getters *)

Section WriteMore.
Context `{External}.

(** FsrollHook.write with the path of its handle gone: the descriptors that
    were there are as they were; the new file has one more. *)
Lemma write_recreates_fds hook entry w f b :
  file hook = Some f ->
  faults w = [] ->
  names w !! Name f = None -> Name f ∉ dirs w ->
  existsb (fun p => bool_decide (is_Some (names w !! p)))
          (ancestors (String.length (Dir (Name f))) (Dir (Name f))) = false ->
  Name f ∉ ancestors (String.length (Dir (Name f))) (Dir (Name f)) ->
  formatter hook entry = inl b ->
  let '(err, hook', w') := FsrollHook.write hook entry w in
  length (fds w') = S (length (fds w)) /\
  forall i, (i < length (fds w))%nat -> fds w' !! i = fds w !! i.
Proof.
  intros Hfile Hf Hn Hd Hup Hself Hfmt.
  destruct flags_appendCreateWronly as (Fa & Fc & Ft & Fe & Fw & Fr).
  unfold FsrollHook.write. rewrite Hfile.
  rewrite (os_Stat_missing _ w Hf Hn Hd). cbv beta iota zeta. cbn [IsNotExist].
  rewrite (os_MkdirAll_ok _ _ w Hf Hup). cbv beta iota zeta.
  destruct (ancestors_head (String.length (Dir (Name f))) (Dir (Name f))) as [rest Hanc].
  rewrite (os_OpenFile_create _ _ _ _);
    [ | exact Hf
      | wsimpl; rewrite elem_of_union, elem_of_list_to_set; tauto
      | exact Hn | exact Fc
      | wsimpl; rewrite elem_of_union, elem_of_list_to_set, Hanc; left; left ].
  cbv beta iota zeta. wsimpl.
  unfold formatAndWrite. cbn [formatter set_file]. rewrite Hfmt.
  erewrite (File_Write_append _ _ _ _ []);
    [ | exact Hf | wsimpl; apply list_lookup_middle; reflexivity
      | reflexivity | exact Fw | exact Fa
      | wsimpl; apply list_lookup_middle; reflexivity ].
  cbv beta iota zeta. wsimpl.
  rewrite length_insert, length_snoc. split; [reflexivity|].
  intros i Hi. rewrite list_lookup_insert_ne by lia. apply lookup_app_l. exact Hi.
Qed.

(** Without an archiver for the extension of the pattern, archiveOldFile
    does nothing. *)
Lemma archiveOldFile_none hook fileName w :
  ToLower (Ext (fileNamePattern hook)) <> GzipSuffix ->
  archiveOldFile hook fileName w = w.
Proof.
  intros Hne. unfold archiveOldFile, Archivers.
  rewrite lookup_singleton_ne by congruence. reflexivity.
Qed.

Lemma archiveOldFile_gz hook fileName w :
  ToLower (Ext (fileNamePattern hook)) = GzipSuffix ->
  archiveOldFile hook fileName w
  = let '(err, w') := gzipArchiveAndDelete fileName w in
    match err with
    | Some err => log_Printf ("Error on archiving file [" +:+ fileName +:+ "]: "
                              +:+ Error err +:+ nl) w'
    | None => w'
    end.
Proof.
  intros E. unfold archiveOldFile. rewrite (archive_lookup hook E). reflexivity.
Qed.

(** What a step of the system never changes in the hook. *)
Lemma write_fs_fields hook entry w :
  let hook' := snd (fst (FsrollHook.write hook entry w)) in
  levels hook' = levels hook /\ id hook' = id hook /\
  formatter hook' = formatter hook /\ fileNamePattern hook' = fileNamePattern hook.
Proof.
  unfold FsrollHook.write, formatAndWrite.
  destruct (file hook) as [f|]; [|cbn; tauto].
  destruct (os_Stat _ _) as [err w1].
  destruct (match err with Some e => IsNotExist e | None => false end).
  - destruct (os_MkdirAll _ _ _) as [[e|] w2]; [cbn; tauto|].
    destruct (os_OpenFile _ _ _ _) as [[f'|e] w3]; [|cbn; tauto].
    cbn [formatter set_file]. destruct (formatter hook entry); [|cbn; tauto].
    destruct (File_Write _ _ _) as [[n [e|]] w4]; cbn; tauto.
  - destruct (formatter hook entry); [|cbn; tauto].
    destruct (File_Write _ _ _) as [[n [e|]] w4]; cbn; tauto.
Qed.

Lemma iter_fs_fields hook w :
  sameFields hook (snd (fst (FsrollHook.writeEntry_iter hook w))).
Proof.
  unfold FsrollHook.writeEntry_iter, sameFields.
  destruct (queue hook) as [|entry rest]; [cbn; tauto|].
  pose proof (write_fs_fields (set_queue rest hook) entry w) as F.
  destruct (FsrollHook.write _ _ _) as [[[e|] hook'] w']; cbn in *; exact F.
Qed.

Lemma iter_tb_fields hook w :
  sameFields hook (snd (fst (TimeBasedRollingFileHook.writeEntry_iter hook w))).
Proof.
  unfold TimeBasedRollingFileHook.writeEntry_iter, sameFields.
  destruct (queue hook) as [|entry rest]; [cbn; tauto|].
  pose proof (write_tb_frame (set_queue rest hook) entry w) as F.
  destruct (TimeBasedRollingFileHook.write _ _ _) as [[[e|] hook'] w']; cbn in *;
    subst hook'; cbn; tauto.
Qed.

Lemma resetTimer_fields hook w hook' w' started :
  resetTimer hook w = Some (hook', w', started) -> sameFields hook hook'.
Proof.
  unfold resetTimer, sameFields.
  pose proof (rolloverFile_frame hook w) as F.
  destruct (rolloverFile hook w) as [[[n err0] hook1] w1].
  destruct F as (_ & _ & _ & Hp & _ & _ & Hf & Hl & Hi).
  destruct (rolloverAfter hook1 _) as [d w2].
  destruct (timer hook1); [|discriminate].
  destruct (0 <? d)%Z; intros [= <- _ _]; cbn; tauto.
Qed.

Lemma step_fields iter s ev :
  (forall hook w, sameFields hook (snd (fst (iter hook w)))) ->
  sameFields (sys_hook s) (sys_hook (step iter s ev)).
Proof.
  intros Hiter. destruct ev; cbn [step].
  - unfold Fire. destruct (_ <? _)%nat; cbn; unfold sameFields; tauto.
  - destruct (serializer s); [|unfold sameFields; tauto].
    specialize (Hiter (sys_hook s) (sys_world s)).
    destruct (iter _ _) as [[task hook'] w']. exact Hiter.
  - destruct (timer (sys_hook s)) as [[d|]|]; try (unfold sameFields; tauto).
    destruct (resetTimer _ _) as [[[hook' w'] started]|] eqn:E; [|unfold sameFields; tauto].
    cbn. eapply resetTimer_fields. exact E.
  - destruct (archiving s); unfold sameFields; tauto.
  - unfold sameFields; tauto.
Qed.

Lemma run_fields iter evs s :
  (forall hook w, sameFields hook (snd (fst (iter hook w)))) ->
  sameFields (sys_hook s) (sys_hook (run iter s evs)).
Proof.
  intros Hiter. revert s. unfold run.
  induction evs as [|ev evs IH]; intros s; [unfold sameFields; tauto|].
  cbn [fold_left]. specialize (IH (step iter s ev)).
  pose proof (step_fields iter s ev Hiter) as S1.
  unfold sameFields in *. intuition congruence.
Qed.

Lemma newHook_fields i lv fm pattern w :
  let hook := fst (fst (newHook i lv fm pattern w)) in
  levels hook = lv /\ id hook = i /\ formatter hook = fm /\ fileNamePattern hook = pattern.
Proof.
  unfold newHook.
  pose proof (rolloverFile_frame (mkHook i lv fm pattern EmptyString None None []) w) as F.
  destruct (rolloverFile _ w) as [[[n err0] hook1] w1].
  destruct F as (_ & _ & _ & Hp & _ & _ & Hf & Hl & Hi).
  destruct (rolloverAfter hook1 _) as [d w2].
  destruct (0 <? d)%Z; cbn in *; tauto.
Qed.

(** Names are taken away by os.Remove only. *)
Lemma rolloverFile_namesKept hook w : namesKept w (snd (rolloverFile hook w)).
Proof.
  unfold rolloverFile.
  set (old := match file hook with
              | Some oldFile => _
              | None => _ end).
  assert (Hold : names (snd old) = names w).
  { unfold old. destruct (file hook) as [f|]; [|reflexivity].
    pose proof (File_Close_frame f w) as [_ Hn].
    destruct (File_Close f w) as [[e|] w1]; cbn in *; exact Hn. }
  destruct old as [oldFileName w1]. cbn [snd] in Hold.
  cbn [time_Now_Local].
  set (newFileName := if String.eqb _ _ then _ else _). clearbody newFileName.
  pose proof (os_MkdirAll_frame (Dir newFileName) (Z.lor ModeDir 493) (set_ticks S w1))
    as (_ & Hm & _).
  destruct (os_MkdirAll _ _ _) as [[e|] w2]; cbn [snd] in *.
  - apply namesKept_eq. rewrite Hm. exact Hold.
  - pose proof (os_OpenFile_frame newFileName appendCreateWronly 436 w2) as (_ & Ho).
    destruct (os_OpenFile _ _ _ _) as [[f|e] w3]; cbn [snd] in *;
      (eapply namesKept_trans; [apply namesKept_eq | exact Ho]);
      rewrite Hm; exact Hold.
Qed.

Lemma resetTimer_namesKept hook w hook' w' started :
  resetTimer hook w = Some (hook', w', started) -> namesKept w w'.
Proof.
  unfold resetTimer.
  pose proof (rolloverFile_namesKept hook w) as K.
  destruct (rolloverFile hook w) as [[[n err0] hook1] w1]. cbn [snd] in K.
  rewrite rolloverAfter_nextDuration.
  destruct (timer hook1); [|discriminate].
  destruct (0 <? _)%Z; intros [= _ <- _]; destruct err0; exact K.
Qed.

Lemma write_fs_namesKept hook entry w :
  namesKept w (snd (FsrollHook.write hook entry w)).
Proof.
  unfold FsrollHook.write, formatAndWrite.
  destruct (file hook) as [f|]; [|apply namesKept_refl].
  pose proof (os_Stat_frame (Name f) w) as [_ N1].
  destruct (os_Stat _ _) as [err w1]. cbn [snd] in N1.
  assert (Hfw : forall hook0 f0 w0, namesKept w w0 ->
            namesKept w (snd (match formatter hook0 entry with
                              | inl b =>
                                  let '(_, err, w2) := File_Write f0 b w0 in
                                  match err with
                                  | Some err => (Some err, hook0, w2)
                                  | None => (None, hook0, w2)
                                  end
                              | inr err => (Some err, hook0, w0)
                              end))).
  { intros hook0 f0 w0 K. destruct (formatter hook0 entry) as [b|e]; [|exact K].
    pose proof (File_Write_frame f0 b w0) as [_ N].
    destruct (File_Write f0 b w0) as [[n [e|]] w2]; cbn [snd] in *;
      (eapply namesKept_trans; [exact K | apply namesKept_eq; exact N]). }
  destruct (match err with Some e => IsNotExist e | None => false end).
  - pose proof (os_MkdirAll_frame (Dir (Name f)) (Z.lor ModeDir 493) w1) as (_ & N2 & _).
    destruct (os_MkdirAll _ _ _) as [[e|] w2]; cbn [snd] in *.
    { apply namesKept_eq. cbn. congruence. }
    pose proof (os_OpenFile_frame (Name f) appendCreateWronly 436 w2) as (_ & K3).
    destruct (os_OpenFile _ _ _ _) as [[f'|e] w3]; cbn [snd] in *.
    + apply Hfw. eapply namesKept_trans; [apply namesKept_eq | exact K3]. congruence.
    + eapply namesKept_trans; [apply namesKept_eq | exact K3]. congruence.
  - apply Hfw. apply namesKept_eq. exact N1.
Qed.

Lemma iter_fs_namesKept hook w :
  namesKept w (snd (FsrollHook.writeEntry_iter hook w)).
Proof.
  unfold FsrollHook.writeEntry_iter.
  destruct (queue hook) as [|entry rest]; [apply namesKept_refl|].
  pose proof (write_fs_namesKept (set_queue rest hook) entry w) as K.
  destruct (FsrollHook.write _ _ _) as [[[e|] hook'] w']; exact K.
Qed.

Lemma iter_tb_namesKept hook w :
  namesKept w (snd (TimeBasedRollingFileHook.writeEntry_iter hook w)).
Proof.
  unfold TimeBasedRollingFileHook.writeEntry_iter.
  destruct (queue hook) as [|entry rest]; [apply namesKept_refl|].
  pose proof (write_tb_names (set_queue rest hook) entry w) as N.
  destruct (TimeBasedRollingFileHook.write _ _ _) as [[[e|] hook'] w'];
    apply namesKept_eq; exact N.
Qed.

(** A step other than a removal from outside, under a pattern without an
    archiver, takes no name away. *)
Lemma step_namesKept iter s ev :
  (forall hook w, namesKept w (snd (iter hook w))) ->
  ToLower (Ext (fileNamePattern (sys_hook s))) <> GzipSuffix ->
  (forall path, ev <> EvUnlink path) ->
  namesKept (sys_world s) (sys_world (step iter s ev)).
Proof.
  intros Hiter Hpat Hev. destruct ev; cbn [step].
  - unfold Fire. destruct (_ <? _)%nat; apply namesKept_refl.
  - destruct (serializer s); [|apply namesKept_refl].
    specialize (Hiter (sys_hook s) (sys_world s)).
    destruct (iter _ _) as [[task hook'] w']. exact Hiter.
  - destruct (timer (sys_hook s)) as [[d|]|]; try apply namesKept_refl.
    destruct (resetTimer _ _) as [[[hook' w'] started]|] eqn:E; [|apply namesKept_refl].
    cbn. eapply resetTimer_namesKept. exact E.
  - destruct (archiving s) as [|fileName rest]; [apply namesKept_refl|].
    cbn. rewrite archiveOldFile_none by exact Hpat. apply namesKept_refl.
  - exfalso. eapply Hev. reflexivity.
Qed.

Lemma run_namesKept iter evs : forall s,
  (forall hook w, namesKept w (snd (iter hook w))) ->
  (forall hook w, sameFields hook (snd (fst (iter hook w)))) ->
  ToLower (Ext (fileNamePattern (sys_hook s))) <> GzipSuffix ->
  Forall (fun ev => forall path, ev <> EvUnlink path) evs ->
  namesKept (sys_world s) (sys_world (run iter s evs)).
Proof.
  induction evs as [|ev evs IH]; intros s Hiter Hfields Hpat Hevs; [apply namesKept_refl|].
  apply Forall_cons in Hevs as [Hev Hrest].
  unfold run. cbn [fold_left]. fold (run iter (step iter s ev) evs).
  eapply namesKept_trans; [exact (step_namesKept iter s ev Hiter Hpat Hev)|].
  apply IH; try assumption.
  destruct (step_fields iter s ev Hfields) as (_ & _ & _ & ->). exact Hpat.
Qed.

End WriteMore.

(** X13. When write of fsrollhook.go makes the file anew, it does not close
    the handle it replaces: the old descriptor is as it was, one descriptor
    is new, and the new one is the handle of the hook. *)
Theorem X13_FsrollHook_write_leaves_the_old_descriptor_open :
  forall (hook : Hook) (entry : Entry) (w : World) (f : File) (b : bytes) (o : OpenFile),
    file hook = Some f ->
    faults w = [] ->
    names w !! Name f = None -> Name f ∉ dirs w ->
    existsb (fun p => bool_decide (is_Some (names w !! p)))
            (ancestors (String.length (Dir (Name f))) (Dir (Name f))) = false ->
    Name f ∉ ancestors (String.length (Dir (Name f))) (Dir (Name f)) ->
    formatter hook entry = inl b ->
    fds w !! fd f = Some o ->
    let '(err, hook', w') := FsrollHook.write hook entry w in
    fds w' !! fd f = Some o /\
    length (fds w') = S (length (fds w)) /\
    file hook' = Some (mkFile (Name f) (length (fds w))).
Proof.
  intros hook entry w f b o Hfile Hf Hn Hd Hup Hself Hfmt Ho.
  pose proof (write_recreates hook entry w f b Hfile Hf Hn Hd Hup Hself Hfmt) as R.
  pose proof (write_recreates_fds hook entry w f b Hfile Hf Hn Hd Hup Hself Hfmt) as F.
  destruct (FsrollHook.write hook entry w) as [[err hook'] w'].
  destruct R as (_ & R & _). destruct F as [L K].
  split; [|split; [exact L | exact R]].
  rewrite K; [exact Ho|]. eapply lookup_lt_Some. exact Ho.
Qed.

Lemma X13_witness :
  let '(err, hook', w') := FsrollHook.write startedHook entry1 unlinkedWorld in
  fds w' !! 0%nat = Some (mkOpenFile 0 appendCreateWronly 0 true) /\
  length (fds w') = 2%nat /\
  file hook' = Some (mkFile "/tmp/tbrfh/app.log" 1).
Proof.
  refine (X13_FsrollHook_write_leaves_the_old_descriptor_open startedHook entry1
            unlinkedWorld (mkFile "/tmp/tbrfh/app.log" 0)
            (list_byte_of_string "first" ++ [newline])
            (mkOpenFile 0 appendCreateWronly 0 true) _ _ _ _ _ _ _ _).
  - reflexivity.
  - reflexivity.
  - vm_compute. reflexivity.
  - vm_compute. discriminate.
  - vm_compute. reflexivity.
  - intros Hin. apply list_elem_of_In in Hin. vm_compute in Hin.
    intuition discriminate.
  - reflexivity.
  - reflexivity.
Defined.

(** X14. When the extension of the pattern, in lower case, is not ".gz",
    archiveOldFile finds no archiver and does nothing, and the hook never
    takes a file away: through any run of the system without a removal
    from outside, every name that was there stays, on the inode it had. *)
Theorem X14_without_gz_pattern_no_file_is_removed :
  forall (lib : External) (iter : Hook -> World -> Task * Hook * World)
         (s : System) (evs : list Event),
    isWriteEntry iter ->
    ToLower (Ext (fileNamePattern (sys_hook s))) <> GzipSuffix ->
    Forall (fun ev => forall path, ev <> EvUnlink path) evs ->
    (forall fileName w, archiveOldFile (sys_hook s) fileName w = w) /\
    (forall path ino,
        names (sys_world s) !! path = Some ino ->
        names (sys_world (run iter s evs)) !! path = Some ino).
Proof.
  intros lib iter s evs Hiter Hpat Hevs. split.
  - intros fileName w. apply archiveOldFile_none. exact Hpat.
  - intros path ino Hp.
    assert (K : namesKept (sys_world s) (sys_world (run iter s evs))).
    { apply run_namesKept; try assumption.
      - destruct Hiter as [-> | ->]; [apply iter_fs_namesKept | apply iter_tb_namesKept].
      - destruct Hiter as [-> | ->]; [apply iter_fs_fields | apply iter_tb_fields]. }
    eapply lookup_weaken; [exact Hp | exact K].
Qed.

Lemma X14_witness :
  names (sys_world (@run exampleLib TimeBasedRollingFileHook.writeEntry_iter rolling
                      [EvTimer; EvArchive; EvFire entry1; EvReceive]))
    !! "/tmp/tbrfh/2015/12/31/23/minute.59.log" = Some 0%nat.
Proof.
  refine (proj2 (X14_without_gz_pattern_no_file_is_removed exampleLib
                   TimeBasedRollingFileHook.writeEntry_iter rolling
                   [EvTimer; EvArchive; EvFire entry1; EvReceive] _ _ _)
            "/tmp/tbrfh/2015/12/31/23/minute.59.log" 0%nat _).
  - right. reflexivity.
  - vm_compute. discriminate.
  - repeat constructor; intros path; discriminate.
  - vm_compute. reflexivity.
Defined.

(** X15. resetTimer hands the name of the file the hook had to an
    archiveOldFile goroutine also when the new file could not be opened; the
    hook is then left without a file.  With no file before, nothing is
    handed over. *)
Theorem X15_resetTimer_hands_the_old_file_to_the_archiver :
  forall (lib : External) (hook : Hook) (w : World) (tm : Timer),
    timer hook = Some tm ->
    (forall f, file hook = Some f -> Name f <> EmptyString ->
       exists hook' w',
         resetTimer hook w = Some (hook', w', [Name f]) /\
         (forall e, snd (fst (fst (rolloverFile hook w))) = Some e -> file hook' = None)) /\
    (file hook = None ->
       exists hook' w', resetTimer hook w = Some (hook', w', [])).
Proof.
  intros lib hook w tm Htm.
  pose proof (resetTimer_spec hook w tm Htm) as R.
  pose proof (rolloverFile_result hook w) as Q.
  destruct (rolloverFile hook w) as [[[oldFileName err0] hook1] w1].
  destruct Q as [Hold Herr]. cbv zeta in R.
  destruct R as (hook' & w' & E & Hfile & _).
  split.
  - intros f Hf Hne. rewrite Hf in Hold. subst oldFileName.
    rewrite (proj2 (String.eqb_neq _ _) Hne) in E.
    exists hook', w'. split; [exact E|].
    intros e He. cbn [fst snd] in He. subst err0. rewrite Hfile. exact Herr.
  - intros Hf. rewrite Hf in Hold. subst oldFileName.
    exists hook', w'. exact E.
Qed.

Lemma X15_witness :
  exists hook' w',
    @resetTimer exampleLib (set_timer (Some (Armed 1%Z)) startedHook) fullAfterStatWorld
    = Some (hook', w', ["/tmp/tbrfh/app.log"%string]) /\
    file hook' = None.
Proof.
  destruct (proj1 (X15_resetTimer_hands_the_old_file_to_the_archiver exampleLib
                     (set_timer (Some (Armed 1%Z)) startedHook) fullAfterStatWorld
                     (Armed 1%Z) eq_refl)
              (mkFile "/tmp/tbrfh/app.log" 0) eq_refl ltac:(discriminate))
    as (hook' & w' & E & Hnone).
  exists hook', w'. split; [exact E|].
  apply (Hnone (PathError "mkdir" "/tmp/tbrfh" ENOSPC)).
  vm_compute. reflexivity.
Defined.

(** X16. The levels, the id, the formatter and the pattern a constructor
    was given are what Levels, Id and the fields of the hook give back,
    whatever happened since: no step of the system changes them. *)
Theorem X16_levels_id_formatter_and_pattern_are_set_once :
  forall (lib : External) (i : string) (lv : list Level) (fm : Formatter)
         (pattern : string) (w : World) (evs : list Event),
    (let hook := sys_hook (run FsrollHook.writeEntry_iter
                             (boot (FsrollHook.NewHook lv fm pattern w)) evs) in
     Levels hook = lv /\ formatter hook = fm /\ fileNamePattern hook = pattern) /\
    (let hook := sys_hook (run TimeBasedRollingFileHook.writeEntry_iter
                             (boot (TimeBasedRollingFileHook.NewTimeBasedRollingFileHook
                                      i lv fm pattern w)) evs) in
     TimeBasedRollingFileHook.Id hook = i /\ Levels hook = lv /\
     formatter hook = fm /\ fileNamePattern hook = pattern).
Proof.
  intros lib i lv fm pattern w evs. split; cbv zeta.
  - unfold FsrollHook.NewHook, Levels.
    destruct (newHook_fields EmptyString lv fm pattern w) as (N1 & N2 & N3 & N4).
    destruct (run_fields FsrollHook.writeEntry_iter evs
                (boot (newHook EmptyString lv fm pattern w)) iter_fs_fields)
      as (R1 & R2 & R3 & R4).
    cbn [boot sys_hook] in R1, R2, R3, R4.
    repeat split; congruence.
  - unfold TimeBasedRollingFileHook.NewTimeBasedRollingFileHook,
      TimeBasedRollingFileHook.Id, Levels.
    destruct (newHook_fields i lv fm pattern w) as (N1 & N2 & N3 & N4).
    destruct (run_fields TimeBasedRollingFileHook.writeEntry_iter evs
                (boot (newHook i lv fm pattern w)) iter_tb_fields)
      as (R1 & R2 & R3 & R4).
    cbn [boot sys_hook] in R1, R2, R3, R4.
    repeat split; congruence.
Qed.

(** ** From the constructor to the file *)

Section EndToEnd.
Context `{External}.

Lemma run_app iter s evs1 evs2 :
  run iter s (evs1 ++ evs2) = run iter (run iter s evs1) evs2.
Proof. apply fold_left_app. Qed.

(** Calls of Fire while the channel has room put the entries behind those
    that wait, in the order of the calls. *)
Lemma run_fires iter es : forall s,
  (length (queue (sys_hook s)) + length es <= queueCap)%nat ->
  run iter s (map EvFire es)
  = mkSystem (set_queue (queue (sys_hook s) ++ es) (sys_hook s)) (sys_world s)
             (serializer s) (archiving s).
Proof.
  induction es as [|e es IH]; intros s Hlen.
  - cbn [map run fold_left]. rewrite app_nil_r, set_queue_same. destruct s; reflexivity.
  - cbn [map]. unfold run. cbn [fold_left]. fold (run iter (step iter s (EvFire e)) (map EvFire es)).
    cbn [length] in Hlen. cbn [step]. unfold Fire.
    rewrite (proj2 (Nat.ltb_lt _ _)) by lia.
    rewrite IH by (cbn [sys_hook queue set_queue]; rewrite length_app; cbn [length]; lia).
    cbn [sys_hook sys_world serializer archiving queue set_queue].
    rewrite <- app_assoc. reflexivity.
Qed.

Lemma run_receives_exited iter n s :
  serializer s = Exited -> run iter s (repeat EvReceive n) = s.
Proof.
  intros Hs. induction n as [|n IH]; [reflexivity|].
  cbn [repeat]. unfold run in *. cbn [fold_left step]. rewrite Hs. exact IH.
Qed.

(** Turns of the serializer alone are the loop of writeEntry. *)
Lemma run_receives iter n : forall hook w arch,
  run iter (mkSystem hook w Running arch) (repeat EvReceive n)
  = let '(task, hook', w') := range_queue iter n hook w in mkSystem hook' w' task arch.
Proof.
  induction n as [|n IH]; intros hook w arch; [reflexivity|].
  cbn [repeat range_queue]. unfold run. cbn [fold_left step serializer sys_hook sys_world archiving].
  destruct (iter hook w) as [[[|] hook1] w1].
  - apply IH.
  - apply run_receives_exited. reflexivity.
Qed.

(** The constructor where nothing stands in its way. *)
Lemma newHook_ok i lv fm pattern w :
  let name := targetName pattern (nowLocal w) in
  faults w = [] ->
  name ∉ dirs w ->
  existsb (fun p => bool_decide (is_Some (names w !! p)))
          (ancestors (String.length (Dir name)) (Dir name)) = false ->
  name ∉ ancestors (String.length (Dir name)) (Dir name) ->
  (forall ino, names w !! name = Some ino -> is_Some (inodes w !! ino)) ->
  exists hook w' ino,
    newHook i lv fm pattern w = ((hook, None), w') /\
    file hook = Some (mkFile name (length (fds w))) /\
    queue hook = [] /\ formatter hook = fm /\
    names w' !! name = Some ino /\
    appendable w' (mkFile name (length (fds w))) ino (default [] (content w name)) /\
    Dir name ∈ dirs w' /\ logged w' = logged w.
Proof.
  intros name Hf Hd Hup Hself Hwf. unfold newHook.
  destruct (rolloverFile_ok (mkHook i lv fm pattern EmptyString None None []) w
              Hf Hd Hup Hself Hwf)
    as (w1 & ino & -> & Hn1 & Hap & Hdir & Hlog & _).
  cbv beta iota zeta.
  rewrite rolloverAfter_nextDuration. cbv beta iota zeta.
  eexists _, _, ino. split; [reflexivity|].
  destruct (0 <? _)%Z; cbn [file queue formatter set_timer set_file];
    (split; [reflexivity|]; split; [reflexivity|]; split; [reflexivity|];
     split; [exact Hn1|]; split; [exact Hap|]; split; [exact Hdir|];
     apply Hlog; reflexivity).
Qed.

Lemma range_queue_one iter hook w : range_queue iter 1 hook w = iter hook w.
Proof.
  cbn [range_queue]. destruct (iter hook w) as [[[|] hook'] w']; reflexivity.
Qed.

(** resetTimer where nothing stands in the way of the new file. *)
Lemma resetTimer_ok hook w tm :
  let name := targetName (fileNamePattern hook) (nowLocal w) in
  let oldFileName := match file hook with Some f => Name f | None => EmptyString end in
  timer hook = Some tm ->
  faults w = [] ->
  name ∉ dirs w ->
  existsb (fun p => bool_decide (is_Some (names w !! p)))
          (ancestors (String.length (Dir name)) (Dir name)) = false ->
  name ∉ ancestors (String.length (Dir name)) (Dir name) ->
  (forall ino, names w !! name = Some ino -> is_Some (inodes w !! ino)) ->
  exists hook' w' ino,
    resetTimer hook w
    = Some (hook', w', if String.eqb oldFileName "" then [] else [oldFileName]) /\
    file hook' = Some (mkFile name (length (fds w))) /\
    queue hook' = queue hook /\ formatter hook' = formatter hook /\
    names w' !! name = Some ino /\
    appendable w' (mkFile name (length (fds w))) ino (default [] (content w name)) /\
    names w ⊆ names w' /\
    (forall i d, inodes w !! i = Some d -> inodes w' !! i = Some d) /\
    (names w !! name = None -> ino = length (inodes w)).
Proof.
  intros name oldFileName Htm Hf Hd Hup Hself Hwf. unfold resetTimer.
  destruct (rolloverFile_ok hook w Hf Hd Hup Hself Hwf)
    as (w1 & ino & -> & Hn1 & Hap & Hdir & Hlog & _ & Hsub & Hino & Hfresh).
  cbv beta iota zeta.
  rewrite rolloverAfter_nextDuration. cbv beta iota zeta.
  cbn [timer set_file]. rewrite Htm.
  eexists _, _, ino. split; [reflexivity|].
  destruct (0 <? _)%Z; cbn [file queue formatter set_timer set_file];
    (split; [reflexivity|]; split; [reflexivity|]; split; [reflexivity|];
     split; [exact Hn1|]; split; [exact Hap|]; split; [exact Hsub|];
     split; [exact Hino | exact Hfresh]).
Qed.

(** One turn of either loop with one entry waiting and the handle ready. *)
Lemma iter_writes iter hook w f ino data e b :
  isWriteEntry iter ->
  queue hook = [e] ->
  file hook = Some f ->
  appendable w f ino data ->
  names w !! Name f = Some ino ->
  formatter hook e = inl b ->
  exists w',
    iter hook w = (Running, set_queue [] hook, w') /\
    appendable w' f ino (data ++ b) /\
    names w' = names w /\ dirs w' = dirs w /\ logged w' = logged w /\
    (forall i, i <> ino -> inodes w' !! i = inodes w !! i).
Proof.
  intros Hiter Hq Hfile Hap Hname Hfmt.
  assert (Hacc : accepted (formatter hook) [e] = [b]).
  { rewrite accepted_cons, Hfmt. reflexivity. }
  assert (Hrej : rejected (formatter hook) [e] = []).
  { rewrite rejected_cons, Hfmt. reflexivity. }
  rewrite <- range_queue_one.
  change 1%nat with (length [e]).
  destruct Hiter as [-> | ->].
  - destruct (fs_drain [e] hook w f ino data Hq Hfile Hap ltac:(rewrite Hname; eauto))
      as (w' & E & R).
    { constructor; [eauto | constructor]. }
    exists w'. split; [exact E|].
    rewrite Hacc in R. cbn [concat] in R. rewrite app_nil_r in R. exact R.
  - destruct (tb_drain [e] hook w f ino data Hq Hfile Hap) as (w' & E & R).
    exists w'. split; [exact E|].
    rewrite Hacc, Hrej in R. cbn [concat] in R. rewrite !app_nil_r in R. exact R.
Qed.

End EndToEnd.

(** X17. From the constructor to the file.  In a world where nothing stands
    in the way of the file the pattern names (the name spelled as the name
    of a file, no fault to come, no directory at the name, no regular file
    where a directory above it has to be),
    after the constructor of either hook, calls of Fire for entries the
    formatter accepts, at most as many as the channel holds, and as many
    turns of the serializer, the file holds what it held before followed by
    the bytes of the entries in the order of the calls; the queue is empty,
    the serializer still runs, and nothing was logged. *)
Theorem X17_fired_entries_reach_the_file_in_order :
  forall (lib : External) (iter : Hook -> World -> Task * Hook * World)
         (i : string) (lv : list Level) (fm : Formatter) (pattern : string)
         (w : World) (es : list Entry),
    let name := targetName pattern (nowLocal w) in
    fileSpelling name = true ->
    isWriteEntry iter ->
    faults w = [] ->
    name ∉ dirs w ->
    existsb (fun p => bool_decide (is_Some (names w !! p)))
            (ancestors (String.length (Dir name)) (Dir name)) = false ->
    name ∉ ancestors (String.length (Dir name)) (Dir name) ->
    (forall ino, names w !! name = Some ino -> is_Some (inodes w !! ino)) ->
    (length es <= queueCap)%nat ->
    Forall (fun e => exists b, fm e = inl b) es ->
    let s := run iter (boot (newHook i lv fm pattern w))
                 (map EvFire es ++ repeat EvReceive (length es)) in
    serializer s = Running /\
    queue (sys_hook s) = [] /\
    content (sys_world s) name
    = Some (default [] (content w name) ++ concat (accepted fm es)) /\
    logged (sys_world s) = logged w.
Proof.
  intros lib iter i lv fm pattern w es name _ Hiter Hf Hd Hup Hself Hwf Hlen Hfmt.
  destruct (newHook_ok i lv fm pattern w Hf Hd Hup Hself Hwf)
    as (hook & w1 & ino & E & Hfile & Hq & Hfm & Hn & Hap & _ & Hlog).
  fold name in Hfile, Hn, Hap.
  cbv zeta. rewrite E. unfold boot. cbn [fst snd].
  rewrite run_app, run_fires by (cbn [sys_hook]; rewrite Hq; cbn [length]; lia).
  cbn [sys_hook sys_world serializer archiving]. rewrite Hq. cbn [app].
  rewrite run_receives.
  set (hook2 := set_queue es hook).
  assert (Hq2 : queue hook2 = es) by reflexivity.
  assert (Hfile2 : file hook2 = Some (mkFile name (length (fds w)))) by exact Hfile.
  assert (Hfm2 : formatter hook2 = fm) by exact Hfm.
  assert (D : exists w2,
             range_queue iter (length es) hook2 w1 = (Running, set_queue [] hook2, w2) /\
             appendable w2 (mkFile name (length (fds w))) ino
               (default [] (content w name) ++ concat (accepted fm es)) /\
             names w2 = names w1 /\ logged w2 = logged w1).
  { destruct Hiter as [-> | ->].
    - destruct (fs_drain es hook2 w1 _ ino _ Hq2 Hfile2 Hap) as (w2 & R & A & N & _ & L & _).
      { cbn [Name]. rewrite Hn. eauto. }
      { rewrite Hfm2. exact Hfmt. }
      rewrite Hfm2 in A. eauto.
    - destruct (tb_drain es hook2 w1 _ ino _ Hq2 Hfile2 Hap) as (w2 & R & A & N & _ & L & _).
      rewrite Hfm2 in A, L. rewrite (accepted_all fm es Hfmt), app_nil_r in L. eauto. }
  destruct D as (w2 & -> & A & N & L).
  cbn [serializer sys_hook sys_world queue set_queue].
  split; [reflexivity|]. split; [reflexivity|]. split; [|congruence].
  unfold content at 1. rewrite N, Hn.
  destruct A as (_ & o & _ & _ & _ & _ & _ & Hi). exact Hi.
Qed.

Lemma X17_witness :
  let s := @run exampleLib TimeBasedRollingFileHook.writeEntry_iter
             (boot (@newHook exampleLib "tbrfh" [InfoLevel; WarnLevel; ErrorLevel]
                      lineFormatter minutePattern (quietWorld newYearsEve)))
             [EvFire entry1; EvFire entry2; EvReceive; EvReceive] in
  serializer s = Running /\
  queue (sys_hook s) = [] /\
  content (sys_world s) "/tmp/tbrfh/2015/12/31/23/minute.59.log"
  = Some (list_byte_of_string "first" ++ [newline]
          ++ list_byte_of_string "second" ++ [newline]) /\
  logged (sys_world s) = [].
Proof.
  pose proof (X17_fired_entries_reach_the_file_in_order exampleLib
                TimeBasedRollingFileHook.writeEntry_iter "tbrfh"
                [InfoLevel; WarnLevel; ErrorLevel] lineFormatter minutePattern
                (quietWorld newYearsEve) [entry1; entry2]) as T.
  cbv zeta in T.
  assert (E : @targetName exampleLib minutePattern (nowLocal (quietWorld newYearsEve))
              = "/tmp/tbrfh/2015/12/31/23/minute.59.log"%string)
    by (vm_compute; reflexivity).
  rewrite E in T.
  assert (Ed : Dir "/tmp/tbrfh/2015/12/31/23/minute.59.log" = "/tmp/tbrfh/2015/12/31/23"%string)
    by (vm_compute; reflexivity).
  rewrite Ed in T.
  apply T.
  - vm_compute. reflexivity.
  - right. reflexivity.
  - reflexivity.
  - vm_compute. discriminate.
  - vm_compute. reflexivity.
  - intros Hin. apply list_elem_of_In in Hin. vm_compute in Hin.
    intuition discriminate.
  - intros ino Hino. vm_compute in Hino. discriminate.
  - unfold queueCap. cbn [length]. lia.
  - repeat constructor; eexists; reflexivity.
Defined.

(** X18. The rollover, seen from the system.  With the timer armed, the
    queue empty, no fault to come and the name the pattern now renders to
    spelled as the name of a file and free, after the timer has fired, Fire was called for an entry the
    formatter accepts and the serializer took its turn: the handle of the
    hook is on the new file, the new file holds exactly the bytes of the
    entry, the name of the old file waits for its archive goroutine, and
    every file that was there holds what it held. *)
Theorem X18_after_the_timer_entries_go_to_the_new_file :
  forall (lib : External) (iter : Hook -> World -> Task * Hook * World)
         (s : System) (d : Duration) (e : Entry) (b : bytes),
    let hook := sys_hook s in
    let w := sys_world s in
    let name := targetName (fileNamePattern hook) (nowLocal w) in
    fileSpelling name = true ->
    isWriteEntry iter ->
    serializer s = Running ->
    queue hook = [] ->
    timer hook = Some (Armed d) ->
    faults w = [] ->
    names w !! name = None ->
    name ∉ dirs w ->
    existsb (fun p => bool_decide (is_Some (names w !! p)))
            (ancestors (String.length (Dir name)) (Dir name)) = false ->
    name ∉ ancestors (String.length (Dir name)) (Dir name) ->
    formatter hook e = inl b ->
    let s' := run iter s [EvTimer; EvFire e; EvReceive] in
    serializer s' = Running /\
    file (sys_hook s') = Some (mkFile name (length (fds w))) /\
    content (sys_world s') name = Some b /\
    archiving s'
    = archiving s ++ match file hook with
                     | Some f => if String.eqb (Name f) "" then [] else [Name f]
                     | None => []
                     end /\
    (forall path data,
        content w path = Some data -> content (sys_world s') path = Some data).
Proof.
  intros lib iter s d e b hook w name _ Hiter Hser Hq Htm Hf Hfresh Hd Hup Hself Hfmt.
  destruct (resetTimer_ok hook w (Armed d) Htm Hf Hd Hup Hself)
    as (hook1 & w1 & ino & E & Hfile & Hq1 & Hfm1 & Hn & Hap & Hsub & Hino & Hnew).
  { intros ino0 Hino0. fold name in Hino0. congruence. }
  fold name in E, Hfile, Hn, Hap, Hnew.
  specialize (Hnew Hfresh).
  assert (Hcont : content w name = None) by (unfold content; rewrite Hfresh; reflexivity).
  rewrite Hcont in Hap. cbn [default] in Hap.
  cbv zeta. unfold run. cbn [fold_left].
  (* the timer fires *)
  cbn [step]. fold hook w. rewrite Htm, E.
  (* Fire *)
  cbn [step sys_hook sys_world serializer archiving]. unfold Fire.
  rewrite Hq1, Hq. cbn [length].
  replace (0 <? queueCap)%nat with true by reflexivity.
  cbn [app sys_hook sys_world serializer archiving]. rewrite Hser.
  (* the serializer takes the entry *)
  destruct (iter_writes iter (set_queue [e] hook1) w1 (mkFile name (length (fds w))) ino []
              e b Hiter eq_refl Hfile Hap Hn ltac:(cbn [formatter set_queue]; congruence))
    as (w2 & -> & Hap2 & Hn2 & _ & _ & Hi2).
  cbn [serializer sys_hook sys_world archiving file set_queue].
  split; [reflexivity|]. split; [exact Hfile|]. split; [|split].
  - unfold content. rewrite Hn2, Hn.
    destruct Hap2 as (_ & o & _ & _ & _ & _ & _ & Hi). exact Hi.
  - f_equal. destruct (file hook) as [f|]; reflexivity.
  - intros path data. unfold content. rewrite Hn2.
    destruct (names w !! path) as [i0|] eqn:Ep; [|discriminate].
    rewrite (lookup_weaken _ _ _ _ Ep Hsub). intros Hdata.
    pose proof (lookup_lt_Some _ _ _ Hdata) as Hlt.
    rewrite Hi2 by lia. apply Hino. exact Hdata.
Qed.

Lemma X18_witness :
  let s' := @run exampleLib TimeBasedRollingFileHook.writeEntry_iter rolling
              [EvTimer; EvFire entry1; EvReceive] in
  file (sys_hook s') = Some (mkFile "/tmp/tbrfh/2016/01/01/00/minute.00.log" 1) /\
  content (sys_world s') "/tmp/tbrfh/2016/01/01/00/minute.00.log"
  = Some (list_byte_of_string "first" ++ [newline]) /\
  archiving s' = ["/tmp/tbrfh/2015/12/31/23/minute.59.log"%string] /\
  content (sys_world s') "/tmp/tbrfh/2015/12/31/23/minute.59.log" = Some [].
Proof.
  pose proof (X18_after_the_timer_entries_go_to_the_new_file exampleLib
                TimeBasedRollingFileHook.writeEntry_iter rolling (60 * Second)%Z entry1
                (list_byte_of_string "first" ++ [newline])) as T.
  cbv zeta in T.
  assert (E : @targetName exampleLib (fileNamePattern (sys_hook rolling))
                (nowLocal (sys_world rolling))
              = "/tmp/tbrfh/2016/01/01/00/minute.00.log"%string)
    by (vm_compute; reflexivity).
  rewrite E in T.
  assert (Ed : Dir "/tmp/tbrfh/2016/01/01/00/minute.00.log" = "/tmp/tbrfh/2016/01/01/00"%string)
    by (vm_compute; reflexivity).
  rewrite Ed in T.
  destruct T as (_ & T1 & T2 & T3 & T4).
  - vm_compute. reflexivity.
  - right. reflexivity.
  - reflexivity.
  - reflexivity.
  - vm_compute. reflexivity.
  - reflexivity.
  - vm_compute. reflexivity.
  - vm_compute. discriminate.
  - vm_compute. reflexivity.
  - intros Hin. apply list_elem_of_In in Hin. vm_compute in Hin.
    intuition discriminate.
  - reflexivity.
  - split; [exact T1|]. split; [exact T2|]. split; [exact T3|].
    apply T4. vm_compute. reflexivity.
Defined.
